(** * Gemini Vision Scanner: the scan orchestration core

    A shallow embedding of the scan state machine of [static/scanner.js]
    together with the constants of [static/constants.js], the scan-button part
    of [static/ui-manager.js], the daily-limit check of
    [static/api-client.js] and the listeners of [static/app.js] that call
    into the scanner.

    Conventions of the embedding.
    - The module-scope variables of the JavaScript modules become the fields
      of one record, [World]; every function of the source becomes a function
      on [World] with the name it has in the source.
    - The host (browser) is part of [World]: the callbacks registered with
      [setTimeout], [setInterval] and [requestAnimationFrame] and the network
      requests that are awaited.
    - JavaScript numbers that hold counters are [nat] or [Z]; numbers that hold
      ratios and delays are exact rationals ([Q]); rounding of IEEE doubles is
      not modelled.
    - Strings are [string] (8-bit characters); the en dash of the confidence
      pattern is its three UTF-8 bytes.  Case mapping and white space are the
      ASCII ones.
    - Text shown to the user, CSS classes and canvas drawing are left out; the
      [disabled] attribute of the scan button is kept. *)

From Stdlib Require Import ZArith QArith Qround Qminmax Bool List Arith Lia Lqa.
From Stdlib Require Import Ascii String DecimalString Sorted Permutation.
Import ListNotations.

Set Implicit Arguments.
Close Scope Q_scope.
Local Open Scope bool_scope.

(* ------------------------------------------------------------------ *)
(** ** constants.js *)

Definition STABILITY_THRESHOLD : nat := 20.
Definition MOTION_THRESHOLD : Z := 30%Z.
Definition MOTION_CANVAS_WIDTH : Z := 64%Z.
Definition MOTION_CANVAS_HEIGHT : Z := 48%Z.
Definition RETRY_BASE_DELAY_MS : Z := 5000%Z.
Definition RETRY_MAX_DELAY_MS : Z := 60000%Z.
Definition ENFORCE_CLIENT_DAILY_LIMIT : bool := false.
Definition IMAGE_HASH_SIZE : nat := 8.
Definition IMAGE_HASH_THRESHOLD : Q := (95 # 100)%Q.

(** [ScanState]: the frozen enumeration. *)
Inductive ScanState : Set :=
| IDLE | SCANNING | ANALYZING | PAUSED_ERROR | PAUSED_DUPLICATE | COOLDOWN.

Definition ScanState_eqb (a b : ScanState) : bool :=
  match a, b with
  | IDLE, IDLE | SCANNING, SCANNING | ANALYZING, ANALYZING
  | PAUSED_ERROR, PAUSED_ERROR | PAUSED_DUPLICATE, PAUSED_DUPLICATE
  | COOLDOWN, COOLDOWN => true
  | _, _ => false
  end.

(** [SCAN_TRANSITIONS]: for each state the list of states it may move to. *)
Definition SCAN_TRANSITIONS (s : ScanState) : list ScanState :=
  match s with
  | IDLE => [SCANNING]
  | SCANNING => [IDLE; ANALYZING; PAUSED_DUPLICATE]
  | ANALYZING => [IDLE; SCANNING; PAUSED_ERROR; PAUSED_DUPLICATE; COOLDOWN]
  | PAUSED_ERROR => [IDLE; SCANNING]
  | PAUSED_DUPLICATE => [IDLE; SCANNING]
  | COOLDOWN => [IDLE; SCANNING]
  end.

(** [Array.prototype.includes] on a list of states. *)
Definition includes (l : list ScanState) (x : ScanState) : bool :=
  existsb (ScanState_eqb x) l.

(* ------------------------------------------------------------------ *)
(** ** The host and the module state *)

(** The value of [lastStabilityState]. *)
Inductive StabilityBarState : Set :=
| BarIdle | BarStabilizing | BarCaptured | BarMoving.

(** [getCurrentSource()] of camera.js: ['camera'], ['image'] or ['file']. *)
Inductive Source : Set := SrcCamera | SrcImage | SrcFile.

Definition Source_eqb (a b : Source) : bool :=
  match a, b with
  | SrcCamera, SrcCamera | SrcImage, SrcImage | SrcFile, SrcFile => true
  | _, _ => false
  end.

(** A callback the host holds until it fires or is cancelled.  The closure
    variables of the arrow functions of the source are the arguments. *)
Inductive Callback : Type :=
| CbScanLoop                               (* requestAnimationFrame(scanLoop) *)
| CbRetry (delay : Q)                      (* setTimeout of scheduleRetry *)
| CbContinuousDelay                        (* setTimeout of the finally block *)
| CbCooldownTick (totalSeconds : Z)        (* setInterval of the countdown *)
| CbCaptureReset (capturedMode : string).  (* setTimeout after a capture *)

(** A request that [captureAndAnalyze] awaits, with the local variables the
    rest of the function reads once the response is there. *)
Record Pending : Type := mkPending {
  currentHash : list Z;
  wasStreamingScan : bool
}.

Record World : Type := mkWorld {
  scanState : ScanState;
  currentMode : string;
  isSingleShot : bool;
  retryTimerId : option positive;
  consecutiveErrorCount : nat;
  continuousDelayTimerId : option positive;
  cooldownTimerId : option positive;
  cooldownRemaining : Z;
  shouldRestartAfterCooldown : bool;
  lastSentImageHash : option (list Z);
  lastResultFingerprint : option string;
  duplicateCount : nat;
  lastFrameData : option (list Z);
  stabilityCounter : nat;
  lastToggleTime : Z;
  scanFrameCount : nat;
  scanRafId : option positive;
  lastStabilityState : StabilityBarState;
  DUPLICATE_SKIP_COUNT : nat;
  apiCallCount : nat;
  API_DAILY_LIMIT : nat;
  btnScanDisabled : bool;
  nextHandle : positive;
  pendingCallbacks : list (positive * Callback);
  inFlight : list Pending
}.

Definition set_scanState (v : ScanState) (w : World) : World :=
  mkWorld v (currentMode w) (isSingleShot w) (retryTimerId w)
    (consecutiveErrorCount w) (continuousDelayTimerId w) (cooldownTimerId w)
    (cooldownRemaining w) (shouldRestartAfterCooldown w) (lastSentImageHash w)
    (lastResultFingerprint w) (duplicateCount w) (lastFrameData w)
    (stabilityCounter w) (lastToggleTime w) (scanFrameCount w) (scanRafId w)
    (lastStabilityState w) (DUPLICATE_SKIP_COUNT w) (apiCallCount w)
    (API_DAILY_LIMIT w) (btnScanDisabled w) (nextHandle w)
    (pendingCallbacks w) (inFlight w).

Definition set_currentMode (v : string) (w : World) : World :=
  mkWorld (scanState w) v (isSingleShot w) (retryTimerId w)
    (consecutiveErrorCount w) (continuousDelayTimerId w) (cooldownTimerId w)
    (cooldownRemaining w) (shouldRestartAfterCooldown w) (lastSentImageHash w)
    (lastResultFingerprint w) (duplicateCount w) (lastFrameData w)
    (stabilityCounter w) (lastToggleTime w) (scanFrameCount w) (scanRafId w)
    (lastStabilityState w) (DUPLICATE_SKIP_COUNT w) (apiCallCount w)
    (API_DAILY_LIMIT w) (btnScanDisabled w) (nextHandle w)
    (pendingCallbacks w) (inFlight w).

Definition set_isSingleShot (v : bool) (w : World) : World :=
  mkWorld (scanState w) (currentMode w) v (retryTimerId w)
    (consecutiveErrorCount w) (continuousDelayTimerId w) (cooldownTimerId w)
    (cooldownRemaining w) (shouldRestartAfterCooldown w) (lastSentImageHash w)
    (lastResultFingerprint w) (duplicateCount w) (lastFrameData w)
    (stabilityCounter w) (lastToggleTime w) (scanFrameCount w) (scanRafId w)
    (lastStabilityState w) (DUPLICATE_SKIP_COUNT w) (apiCallCount w)
    (API_DAILY_LIMIT w) (btnScanDisabled w) (nextHandle w)
    (pendingCallbacks w) (inFlight w).

Definition set_retryTimerId (v : option positive) (w : World) : World :=
  mkWorld (scanState w) (currentMode w) (isSingleShot w) v
    (consecutiveErrorCount w) (continuousDelayTimerId w) (cooldownTimerId w)
    (cooldownRemaining w) (shouldRestartAfterCooldown w) (lastSentImageHash w)
    (lastResultFingerprint w) (duplicateCount w) (lastFrameData w)
    (stabilityCounter w) (lastToggleTime w) (scanFrameCount w) (scanRafId w)
    (lastStabilityState w) (DUPLICATE_SKIP_COUNT w) (apiCallCount w)
    (API_DAILY_LIMIT w) (btnScanDisabled w) (nextHandle w)
    (pendingCallbacks w) (inFlight w).

Definition set_consecutiveErrorCount (v : nat) (w : World) : World :=
  mkWorld (scanState w) (currentMode w) (isSingleShot w) (retryTimerId w) v
    (continuousDelayTimerId w) (cooldownTimerId w) (cooldownRemaining w)
    (shouldRestartAfterCooldown w) (lastSentImageHash w)
    (lastResultFingerprint w) (duplicateCount w) (lastFrameData w)
    (stabilityCounter w) (lastToggleTime w) (scanFrameCount w) (scanRafId w)
    (lastStabilityState w) (DUPLICATE_SKIP_COUNT w) (apiCallCount w)
    (API_DAILY_LIMIT w) (btnScanDisabled w) (nextHandle w)
    (pendingCallbacks w) (inFlight w).

Definition set_continuousDelayTimerId (v : option positive) (w : World) : World :=
  mkWorld (scanState w) (currentMode w) (isSingleShot w) (retryTimerId w)
    (consecutiveErrorCount w) v (cooldownTimerId w) (cooldownRemaining w)
    (shouldRestartAfterCooldown w) (lastSentImageHash w)
    (lastResultFingerprint w) (duplicateCount w) (lastFrameData w)
    (stabilityCounter w) (lastToggleTime w) (scanFrameCount w) (scanRafId w)
    (lastStabilityState w) (DUPLICATE_SKIP_COUNT w) (apiCallCount w)
    (API_DAILY_LIMIT w) (btnScanDisabled w) (nextHandle w)
    (pendingCallbacks w) (inFlight w).

Definition set_cooldownTimerId (v : option positive) (w : World) : World :=
  mkWorld (scanState w) (currentMode w) (isSingleShot w) (retryTimerId w)
    (consecutiveErrorCount w) (continuousDelayTimerId w) v
    (cooldownRemaining w) (shouldRestartAfterCooldown w) (lastSentImageHash w)
    (lastResultFingerprint w) (duplicateCount w) (lastFrameData w)
    (stabilityCounter w) (lastToggleTime w) (scanFrameCount w) (scanRafId w)
    (lastStabilityState w) (DUPLICATE_SKIP_COUNT w) (apiCallCount w)
    (API_DAILY_LIMIT w) (btnScanDisabled w) (nextHandle w)
    (pendingCallbacks w) (inFlight w).

Definition set_cooldownRemaining (v : Z) (w : World) : World :=
  mkWorld (scanState w) (currentMode w) (isSingleShot w) (retryTimerId w)
    (consecutiveErrorCount w) (continuousDelayTimerId w) (cooldownTimerId w) v
    (shouldRestartAfterCooldown w) (lastSentImageHash w)
    (lastResultFingerprint w) (duplicateCount w) (lastFrameData w)
    (stabilityCounter w) (lastToggleTime w) (scanFrameCount w) (scanRafId w)
    (lastStabilityState w) (DUPLICATE_SKIP_COUNT w) (apiCallCount w)
    (API_DAILY_LIMIT w) (btnScanDisabled w) (nextHandle w)
    (pendingCallbacks w) (inFlight w).

Definition set_shouldRestartAfterCooldown (v : bool) (w : World) : World :=
  mkWorld (scanState w) (currentMode w) (isSingleShot w) (retryTimerId w)
    (consecutiveErrorCount w) (continuousDelayTimerId w) (cooldownTimerId w)
    (cooldownRemaining w) v (lastSentImageHash w) (lastResultFingerprint w)
    (duplicateCount w) (lastFrameData w) (stabilityCounter w)
    (lastToggleTime w) (scanFrameCount w) (scanRafId w) (lastStabilityState w)
    (DUPLICATE_SKIP_COUNT w) (apiCallCount w) (API_DAILY_LIMIT w)
    (btnScanDisabled w) (nextHandle w) (pendingCallbacks w) (inFlight w).

Definition set_lastSentImageHash (v : option (list Z)) (w : World) : World :=
  mkWorld (scanState w) (currentMode w) (isSingleShot w) (retryTimerId w)
    (consecutiveErrorCount w) (continuousDelayTimerId w) (cooldownTimerId w)
    (cooldownRemaining w) (shouldRestartAfterCooldown w) v
    (lastResultFingerprint w) (duplicateCount w) (lastFrameData w)
    (stabilityCounter w) (lastToggleTime w) (scanFrameCount w) (scanRafId w)
    (lastStabilityState w) (DUPLICATE_SKIP_COUNT w) (apiCallCount w)
    (API_DAILY_LIMIT w) (btnScanDisabled w) (nextHandle w)
    (pendingCallbacks w) (inFlight w).

Definition set_lastResultFingerprint (v : option string) (w : World) : World :=
  mkWorld (scanState w) (currentMode w) (isSingleShot w) (retryTimerId w)
    (consecutiveErrorCount w) (continuousDelayTimerId w) (cooldownTimerId w)
    (cooldownRemaining w) (shouldRestartAfterCooldown w) (lastSentImageHash w)
    v (duplicateCount w) (lastFrameData w) (stabilityCounter w)
    (lastToggleTime w) (scanFrameCount w) (scanRafId w) (lastStabilityState w)
    (DUPLICATE_SKIP_COUNT w) (apiCallCount w) (API_DAILY_LIMIT w)
    (btnScanDisabled w) (nextHandle w) (pendingCallbacks w) (inFlight w).

Definition set_duplicateCount (v : nat) (w : World) : World :=
  mkWorld (scanState w) (currentMode w) (isSingleShot w) (retryTimerId w)
    (consecutiveErrorCount w) (continuousDelayTimerId w) (cooldownTimerId w)
    (cooldownRemaining w) (shouldRestartAfterCooldown w) (lastSentImageHash w)
    (lastResultFingerprint w) v (lastFrameData w) (stabilityCounter w)
    (lastToggleTime w) (scanFrameCount w) (scanRafId w) (lastStabilityState w)
    (DUPLICATE_SKIP_COUNT w) (apiCallCount w) (API_DAILY_LIMIT w)
    (btnScanDisabled w) (nextHandle w) (pendingCallbacks w) (inFlight w).

Definition set_lastFrameData (v : option (list Z)) (w : World) : World :=
  mkWorld (scanState w) (currentMode w) (isSingleShot w) (retryTimerId w)
    (consecutiveErrorCount w) (continuousDelayTimerId w) (cooldownTimerId w)
    (cooldownRemaining w) (shouldRestartAfterCooldown w) (lastSentImageHash w)
    (lastResultFingerprint w) (duplicateCount w) v (stabilityCounter w)
    (lastToggleTime w) (scanFrameCount w) (scanRafId w) (lastStabilityState w)
    (DUPLICATE_SKIP_COUNT w) (apiCallCount w) (API_DAILY_LIMIT w)
    (btnScanDisabled w) (nextHandle w) (pendingCallbacks w) (inFlight w).

Definition set_stabilityCounter (v : nat) (w : World) : World :=
  mkWorld (scanState w) (currentMode w) (isSingleShot w) (retryTimerId w)
    (consecutiveErrorCount w) (continuousDelayTimerId w) (cooldownTimerId w)
    (cooldownRemaining w) (shouldRestartAfterCooldown w) (lastSentImageHash w)
    (lastResultFingerprint w) (duplicateCount w) (lastFrameData w) v
    (lastToggleTime w) (scanFrameCount w) (scanRafId w) (lastStabilityState w)
    (DUPLICATE_SKIP_COUNT w) (apiCallCount w) (API_DAILY_LIMIT w)
    (btnScanDisabled w) (nextHandle w) (pendingCallbacks w) (inFlight w).

Definition set_lastToggleTime (v : Z) (w : World) : World :=
  mkWorld (scanState w) (currentMode w) (isSingleShot w) (retryTimerId w)
    (consecutiveErrorCount w) (continuousDelayTimerId w) (cooldownTimerId w)
    (cooldownRemaining w) (shouldRestartAfterCooldown w) (lastSentImageHash w)
    (lastResultFingerprint w) (duplicateCount w) (lastFrameData w)
    (stabilityCounter w) v (scanFrameCount w) (scanRafId w)
    (lastStabilityState w) (DUPLICATE_SKIP_COUNT w) (apiCallCount w)
    (API_DAILY_LIMIT w) (btnScanDisabled w) (nextHandle w)
    (pendingCallbacks w) (inFlight w).

Definition set_scanFrameCount (v : nat) (w : World) : World :=
  mkWorld (scanState w) (currentMode w) (isSingleShot w) (retryTimerId w)
    (consecutiveErrorCount w) (continuousDelayTimerId w) (cooldownTimerId w)
    (cooldownRemaining w) (shouldRestartAfterCooldown w) (lastSentImageHash w)
    (lastResultFingerprint w) (duplicateCount w) (lastFrameData w)
    (stabilityCounter w) (lastToggleTime w) v (scanRafId w)
    (lastStabilityState w) (DUPLICATE_SKIP_COUNT w) (apiCallCount w)
    (API_DAILY_LIMIT w) (btnScanDisabled w) (nextHandle w)
    (pendingCallbacks w) (inFlight w).

Definition set_scanRafId (v : option positive) (w : World) : World :=
  mkWorld (scanState w) (currentMode w) (isSingleShot w) (retryTimerId w)
    (consecutiveErrorCount w) (continuousDelayTimerId w) (cooldownTimerId w)
    (cooldownRemaining w) (shouldRestartAfterCooldown w) (lastSentImageHash w)
    (lastResultFingerprint w) (duplicateCount w) (lastFrameData w)
    (stabilityCounter w) (lastToggleTime w) (scanFrameCount w) v
    (lastStabilityState w) (DUPLICATE_SKIP_COUNT w) (apiCallCount w)
    (API_DAILY_LIMIT w) (btnScanDisabled w) (nextHandle w)
    (pendingCallbacks w) (inFlight w).

Definition set_lastStabilityState (v : StabilityBarState) (w : World) : World :=
  mkWorld (scanState w) (currentMode w) (isSingleShot w) (retryTimerId w)
    (consecutiveErrorCount w) (continuousDelayTimerId w) (cooldownTimerId w)
    (cooldownRemaining w) (shouldRestartAfterCooldown w) (lastSentImageHash w)
    (lastResultFingerprint w) (duplicateCount w) (lastFrameData w)
    (stabilityCounter w) (lastToggleTime w) (scanFrameCount w) (scanRafId w) v
    (DUPLICATE_SKIP_COUNT w) (apiCallCount w) (API_DAILY_LIMIT w)
    (btnScanDisabled w) (nextHandle w) (pendingCallbacks w) (inFlight w).

Definition set_DUPLICATE_SKIP_COUNT (v : nat) (w : World) : World :=
  mkWorld (scanState w) (currentMode w) (isSingleShot w) (retryTimerId w)
    (consecutiveErrorCount w) (continuousDelayTimerId w) (cooldownTimerId w)
    (cooldownRemaining w) (shouldRestartAfterCooldown w) (lastSentImageHash w)
    (lastResultFingerprint w) (duplicateCount w) (lastFrameData w)
    (stabilityCounter w) (lastToggleTime w) (scanFrameCount w) (scanRafId w)
    (lastStabilityState w) v (apiCallCount w) (API_DAILY_LIMIT w)
    (btnScanDisabled w) (nextHandle w) (pendingCallbacks w) (inFlight w).

Definition set_apiCallCount (v : nat) (w : World) : World :=
  mkWorld (scanState w) (currentMode w) (isSingleShot w) (retryTimerId w)
    (consecutiveErrorCount w) (continuousDelayTimerId w) (cooldownTimerId w)
    (cooldownRemaining w) (shouldRestartAfterCooldown w) (lastSentImageHash w)
    (lastResultFingerprint w) (duplicateCount w) (lastFrameData w)
    (stabilityCounter w) (lastToggleTime w) (scanFrameCount w) (scanRafId w)
    (lastStabilityState w) (DUPLICATE_SKIP_COUNT w) v (API_DAILY_LIMIT w)
    (btnScanDisabled w) (nextHandle w) (pendingCallbacks w) (inFlight w).

Definition set_API_DAILY_LIMIT (v : nat) (w : World) : World :=
  mkWorld (scanState w) (currentMode w) (isSingleShot w) (retryTimerId w)
    (consecutiveErrorCount w) (continuousDelayTimerId w) (cooldownTimerId w)
    (cooldownRemaining w) (shouldRestartAfterCooldown w) (lastSentImageHash w)
    (lastResultFingerprint w) (duplicateCount w) (lastFrameData w)
    (stabilityCounter w) (lastToggleTime w) (scanFrameCount w) (scanRafId w)
    (lastStabilityState w) (DUPLICATE_SKIP_COUNT w) (apiCallCount w) v
    (btnScanDisabled w) (nextHandle w) (pendingCallbacks w) (inFlight w).

Definition set_btnScanDisabled (v : bool) (w : World) : World :=
  mkWorld (scanState w) (currentMode w) (isSingleShot w) (retryTimerId w)
    (consecutiveErrorCount w) (continuousDelayTimerId w) (cooldownTimerId w)
    (cooldownRemaining w) (shouldRestartAfterCooldown w) (lastSentImageHash w)
    (lastResultFingerprint w) (duplicateCount w) (lastFrameData w)
    (stabilityCounter w) (lastToggleTime w) (scanFrameCount w) (scanRafId w)
    (lastStabilityState w) (DUPLICATE_SKIP_COUNT w) (apiCallCount w)
    (API_DAILY_LIMIT w) v (nextHandle w) (pendingCallbacks w) (inFlight w).

Definition set_nextHandle (v : positive) (w : World) : World :=
  mkWorld (scanState w) (currentMode w) (isSingleShot w) (retryTimerId w)
    (consecutiveErrorCount w) (continuousDelayTimerId w) (cooldownTimerId w)
    (cooldownRemaining w) (shouldRestartAfterCooldown w) (lastSentImageHash w)
    (lastResultFingerprint w) (duplicateCount w) (lastFrameData w)
    (stabilityCounter w) (lastToggleTime w) (scanFrameCount w) (scanRafId w)
    (lastStabilityState w) (DUPLICATE_SKIP_COUNT w) (apiCallCount w)
    (API_DAILY_LIMIT w) (btnScanDisabled w) v (pendingCallbacks w)
    (inFlight w).

Definition set_pendingCallbacks (v : list (positive * Callback)) (w : World) : World :=
  mkWorld (scanState w) (currentMode w) (isSingleShot w) (retryTimerId w)
    (consecutiveErrorCount w) (continuousDelayTimerId w) (cooldownTimerId w)
    (cooldownRemaining w) (shouldRestartAfterCooldown w) (lastSentImageHash w)
    (lastResultFingerprint w) (duplicateCount w) (lastFrameData w)
    (stabilityCounter w) (lastToggleTime w) (scanFrameCount w) (scanRafId w)
    (lastStabilityState w) (DUPLICATE_SKIP_COUNT w) (apiCallCount w)
    (API_DAILY_LIMIT w) (btnScanDisabled w) (nextHandle w) v (inFlight w).

Definition set_inFlight (v : list Pending) (w : World) : World :=
  mkWorld (scanState w) (currentMode w) (isSingleShot w) (retryTimerId w)
    (consecutiveErrorCount w) (continuousDelayTimerId w) (cooldownTimerId w)
    (cooldownRemaining w) (shouldRestartAfterCooldown w) (lastSentImageHash w)
    (lastResultFingerprint w) (duplicateCount w) (lastFrameData w)
    (stabilityCounter w) (lastToggleTime w) (scanFrameCount w) (scanRafId w)
    (lastStabilityState w) (DUPLICATE_SKIP_COUNT w) (apiCallCount w)
    (API_DAILY_LIMIT w) (btnScanDisabled w) (nextHandle w)
    (pendingCallbacks w) v.

(** The state of a freshly loaded page. *)
Definition initial : World :=
  {| scanState := IDLE; currentMode := "text"; isSingleShot := true;
     retryTimerId := None; consecutiveErrorCount := 0;
     continuousDelayTimerId := None; cooldownTimerId := None;
     cooldownRemaining := 0%Z; shouldRestartAfterCooldown := false;
     lastSentImageHash := None; lastResultFingerprint := None;
     duplicateCount := 0; lastFrameData := None; stabilityCounter := 0;
     lastToggleTime := 0%Z; scanFrameCount := 0; scanRafId := None;
     lastStabilityState := BarIdle; DUPLICATE_SKIP_COUNT := 2;
     apiCallCount := 0; API_DAILY_LIMIT := 1000; btnScanDisabled := false;
     nextHandle := 1%positive; pendingCallbacks := []; inFlight := [] |}.

(** *** Host primitives

    [setTimeout], [setInterval] and [requestAnimationFrame] hand out a fresh
    handle and keep the callback; the three [clear]/[cancel] functions drop the
    callback with that handle.  A handle is an integer greater than zero, so a
    variable that holds one is truthy exactly when it is not [null]. *)
Definition register (cb : Callback) (w : World) : positive * World :=
  let h := nextHandle w in
  (h, set_nextHandle (Pos.succ h)
        (set_pendingCallbacks (pendingCallbacks w ++ [(h, cb)]) w)).

Definition cancel (h : positive) (w : World) : World :=
  set_pendingCallbacks
    (filter (fun e => negb (Pos.eqb (fst e) h)) (pendingCallbacks w)) w.

Definition setTimeout := register.
Definition setInterval := register.
Definition requestAnimationFrame := register CbScanLoop.
Definition clearTimeout := cancel.
Definition clearInterval := cancel.
Definition cancelAnimationFrame := cancel.

(* ------------------------------------------------------------------ *)
(** ** ui-manager.js: the scan button *)

(** [syncUI(state)], as far as the [disabled] attribute goes. *)
Definition syncUI (state : ScanState) (w : World) : World :=
  match state with
  | IDLE => set_btnScanDisabled false w
  | SCANNING => set_btnScanDisabled false w
  | ANALYZING => set_btnScanDisabled true w
  | PAUSED_ERROR | PAUSED_DUPLICATE => set_btnScanDisabled false w
  | COOLDOWN => set_btnScanDisabled true w
  end.

(** [disableScanButton(message)]. *)
Definition disableScanButton (w : World) : World := set_btnScanDisabled true w.

(* ------------------------------------------------------------------ *)
(** ** api-client.js *)

Definition isApiLimitReached (w : World) : bool :=
  ENFORCE_CLIENT_DAILY_LIMIT && (API_DAILY_LIMIT w <=? apiCallCount w)%nat.

Definition incrementApiCallCount (w : World) : World :=
  set_apiCallCount (S (apiCallCount w)) w.

(* ------------------------------------------------------------------ *)
(** ** scanner.js, section 3: the transition function *)

(** [transitionTo(newState)]: the answer and the state it leaves. *)
Definition transitionTo (newState : ScanState) (w : World) : bool * World :=
  if ScanState_eqb (scanState w) newState then (true, w)
  else
    let allowed := SCAN_TRANSITIONS (scanState w) in
    if negb (includes allowed newState) then (false, w)
    else
      let w := set_scanState newState w in
      let w := syncUI newState w in
      (true, w).

(* ------------------------------------------------------------------ *)
(** ** scanner.js, section 4: the image hash *)

(** [Math.round] on a rational. *)
Definition Math_round (q : Q) : Z := Qfloor (q + (1 # 2))%Q.

(** Storing a number into a [Uint8Array] cell. *)
Definition toUint8 (z : Z) : Z := (z mod 256)%Z.

(** [computeImageHash]: [pixels] is the RGBA data of the 8 x 8 hash canvas
    after the capture canvas has been drawn into it. *)
Definition computeImageHash (pixels : list Z) : list Z :=
  map (fun i =>
         toUint8 (Math_round
           (inject_Z (nth (i * 4) pixels 0%Z) * (299 # 1000) +
            inject_Z (nth (i * 4 + 1) pixels 0%Z) * (587 # 1000) +
            inject_Z (nth (i * 4 + 2) pixels 0%Z) * (114 # 1000))%Q))
      (seq 0 (IMAGE_HASH_SIZE * IMAGE_HASH_SIZE)).

(** The loop of [compareImageHash] over two arrays of one length. *)
Definition totalDiff (hashA hashB : list Z) : Z :=
  fold_left (fun acc ab => (acc + Z.abs (fst ab - snd ab))%Z)
            (combine hashA hashB) 0%Z.

(** [compareImageHash(hashA, hashB)].  An argument is [None] for [null]; the
    answer is [None] for [NaN], which the division gives for two empty
    arrays. *)
Definition compareImageHash (hashA hashB : option (list Z)) : option Q :=
  match hashA, hashB with
  | Some a, Some b =>
      if negb (Nat.eqb (List.length a) (List.length b)) then Some 0%Q
      else if Nat.eqb (List.length a) 0 then None
      else
        let avgDiff :=
          (inject_Z (totalDiff a b) / inject_Z (Z.of_nat (List.length a) * 255))%Q in
        Some (1 - avgDiff)%Q
  | _, _ => Some 0%Q
  end.

(** [similarity >= IMAGE_HASH_THRESHOLD]; a comparison with [NaN] is false. *)
Definition reachesThreshold (similarity : option Q) : bool :=
  match similarity with
  | Some q => Qle_bool IMAGE_HASH_THRESHOLD q
  | None => false
  end.

(** The test that guards the skip in [captureAndAnalyze]:
    [lastSentImageHash] is set and the similarity reaches the threshold. *)
Definition sameAsLastSent (current : list Z) (w : World) : bool :=
  match lastSentImageHash w with
  | Some last => reachesThreshold (compareImageHash (Some current) (Some last))
  | None => false
  end.

(* ------------------------------------------------------------------ *)
(** ** scanner.js, sections 8, 9, 12 and 14: start, stop, capture

    [stopScanning] calls [stopCooldownCountdown], which calls [startScanning],
    which calls [captureAndAnalyze], which calls [stopScanning].  Each body is
    written over the functions it calls; [ops] ties the knot with a bound on the
    depth of calls, and [None] is the answer of a call that ran out of it. *)

(** What the page shows at the time of a call: the source in use, the width of
    the image and video elements, and the pixels the hash canvas holds once the
    crop is drawn. *)
Record Env : Type := mkEnv {
  getCurrentSource : Source;
  naturalWidth : Z;
  videoWidth : Z;
  hashPixels : list Z
}.

Record Ops : Type := mkOps {
  op_stopScanning : Env -> World -> option World;
  op_stopCooldownCountdown : Env -> World -> option World;
  op_startScanning : Env -> World -> option World;
  op_captureAndAnalyze : Env -> World -> option World
}.

(** [if (x) { clear(x); x = null; }] for a handle variable [x]. *)
Definition clearHandle (get : World -> option positive)
    (set : option positive -> World -> World) (w : World) : World :=
  match get w with
  | Some h => set None (cancel h w)
  | None => w
  end.

(** [if (x) clear(x);], which leaves [x] as it is. *)
Definition cancelIfSet (get : World -> option positive) (w : World) : World :=
  match get w with
  | Some h => cancel h w
  | None => w
  end.

(** [scanRafId = requestAnimationFrame(scanLoop)]. *)
Definition requestScanLoop (w : World) : World :=
  let (h, w) := requestAnimationFrame w in
  set_scanRafId (Some h) w.

(** [stopCooldownCountdown] up to its last [if]: the interval is cleared and
    a running countdown in [COOLDOWN] ends in [IDLE]. *)
Definition haltCountdown (w : World) : World :=
  let wasActive :=
    match cooldownTimerId w with Some _ => true | None => false end in
  let w := clearHandle cooldownTimerId set_cooldownTimerId w in
  let w := set_cooldownRemaining 0%Z w in
  if wasActive && ScanState_eqb (scanState w) COOLDOWN
  then syncUI IDLE (set_scanState IDLE w)
  else w.

Section Bodies.
Variable rec : Ops.

Definition stopScanning_body (env : Env) (w : World) : option World :=
  let w := set_scanState IDLE w in
  let w := syncUI IDLE w in
  let w := clearHandle scanRafId set_scanRafId w in
  let w := clearHandle retryTimerId set_retryTimerId w in
  let w := clearHandle continuousDelayTimerId set_continuousDelayTimerId w in
  match op_stopCooldownCountdown rec env w with
  | None => None
  | Some w =>
      let w := set_lastFrameData None w in
      let w := set_stabilityCounter 0 w in
      let w := set_duplicateCount 0 w in
      let w := set_lastResultFingerprint None w in
      Some w
  end.

Definition stopCooldownCountdown_body (env : Env) (w : World) : option World :=
  let w := haltCountdown w in
  if shouldRestartAfterCooldown w then
    let w := set_shouldRestartAfterCooldown false w in
    op_startScanning rec env w
  else Some w.

Definition startScanning_body (env : Env) (w : World) : option World :=
  if isApiLimitReached w then Some (disableScanButton w)
  else
    let (ok, w) := transitionTo SCANNING w in
    if negb ok then Some w
    else
      let w := set_consecutiveErrorCount 0 w in
      let w := set_lastSentImageHash None w in
      if Source_eqb (getCurrentSource env) SrcImage then
        op_captureAndAnalyze rec env w
      else
        let w := set_scanFrameCount 0 w in
        let w := cancelIfSet scanRafId w in
        Some (requestScanLoop w).

(** [captureAndAnalyze] up to its first [await]: the request, if one is
    sent, is appended to [inFlight]. *)
Definition captureAndAnalyze_body (env : Env) (w : World) : option World :=
  let isImageSource := Source_eqb (getCurrentSource env) SrcImage in
  let sourceW := if isImageSource then naturalWidth env else videoWidth env in
  if (sourceW =? 0)%Z || ScanState_eqb (scanState w) ANALYZING
     || isApiLimitReached w
  then Some w
  else
    let w := snd (transitionTo ANALYZING w) in
    let currentHash := computeImageHash (hashPixels env) in
    if sameAsLastSent currentHash w then
      if negb (isSingleShot w) && Source_eqb (getCurrentSource env) SrcCamera
      then
        let w := snd (transitionTo SCANNING w) in
        let w := set_stabilityCounter 0 w in
        let w := set_lastFrameData None w in
        Some (requestScanLoop w)
      else op_stopScanning rec env w
    else
      let wasStreamingScan := Source_eqb (getCurrentSource env) SrcCamera in
      let w := clearHandle scanRafId set_scanRafId w in
      Some (set_inFlight
              (inFlight w ++ [mkPending currentHash wasStreamingScan]) w).
End Bodies.

(** No call is answered without fuel. *)
Definition noOps : Ops :=
  mkOps (fun _ _ => None) (fun _ _ => None) (fun _ _ => None) (fun _ _ => None).

Fixpoint ops (fuel : nat) : Ops :=
  match fuel with
  | O => noOps
  | S k =>
      mkOps (stopScanning_body (ops k)) (stopCooldownCountdown_body (ops k))
            (startScanning_body (ops k)) (captureAndAnalyze_body (ops k))
  end.

(** [callDepth] is more than any chain of calls needs: a chain goes through
    [stopCooldownCountdown] with the restart flag up once at most, for that
    call puts the flag down. *)
Definition callDepth : nat := 9.

Definition run (f : Ops -> Env -> World -> option World) (env : Env) (w : World)
  : World :=
  match f (ops callDepth) env w with
  | Some w' => w'
  | None => w
  end.

Definition stopScanning : Env -> World -> World := run op_stopScanning.
Definition stopCooldownCountdown : Env -> World -> World :=
  run op_stopCooldownCountdown.
Definition startScanning : Env -> World -> World := run op_startScanning.
Definition captureAndAnalyze : Env -> World -> World := run op_captureAndAnalyze.

(* ------------------------------------------------------------------ *)
(** ** scanner.js, section 13: the retry timer *)

(** [scheduleRetry()]; [random] is the value [Math.random()] returns. *)
Definition retryJitter (random : Q) : Q := ((75 # 100) + random * (1 # 2))%Q.

Definition retryDelay (n : nat) (random : Q) : Q :=
  Qmin (inject_Z RETRY_BASE_DELAY_MS * inject_Z (2 ^ (Z.of_nat n - 1))
        * retryJitter random)%Q
       (inject_Z RETRY_MAX_DELAY_MS).

Definition scheduleRetry (random : Q) (w : World) : World :=
  if negb (ScanState_eqb (scanState w) PAUSED_ERROR) then w
  else
    let w := cancelIfSet retryTimerId w in
    let w := set_consecutiveErrorCount (S (consecutiveErrorCount w)) w in
    let delay := retryDelay (consecutiveErrorCount w) random in
    let (h, w) := setTimeout (CbRetry delay) w in
    set_retryTimerId (Some h) w.

(** The callback of the retry timer. *)
Definition retryTimerFired (w : World) : World :=
  let w := set_retryTimerId None w in
  if ScanState_eqb (scanState w) PAUSED_ERROR then
    let w := snd (transitionTo SCANNING w) in
    let w := cancelIfSet scanRafId w in
    requestScanLoop w
  else w.

(* ------------------------------------------------------------------ *)
(** ** scanner.js, section 14: the cooldown countdown *)

Definition startCooldownCountdown (env : Env) (seconds : Z) (w : World) : World :=
  let w := stopCooldownCountdown env w in
  let w := set_cooldownRemaining seconds w in
  let (h, w) := setInterval (CbCooldownTick seconds) w in
  set_cooldownTimerId (Some h) w.

(** The callback of the countdown, once a second. *)
Definition cooldownTick (env : Env) (w : World) : World :=
  let w := set_cooldownRemaining (cooldownRemaining w - 1)%Z w in
  if (cooldownRemaining w <=? 0)%Z then stopCooldownCountdown env w else w.

(* ------------------------------------------------------------------ *)
(** ** scanner.js, section 15: the fingerprint of a result *)


(** The class [\s] on 8-bit characters: tab, line feed, vertical tab, form
    feed, carriage return, space. *)
Definition isSpace (c : ascii) : bool :=
  let n := nat_of_ascii c in
  ((9 <=? n) && (n <=? 13)) || (n =? 32).

(** The class [\d]. *)
Definition isDigit (c : ascii) : bool :=
  let n := nat_of_ascii c in
  (48 <=? n) && (n <=? 57).

Fixpoint skipSpaces (s : string) : string :=
  match s with
  | String c t => if isSpace c then skipSpaces t else s
  | EmptyString => s
  end.

Fixpoint skipDigits (s : string) : string :=
  match s with
  | String c t => if isDigit c then skipDigits t else s
  | EmptyString => s
  end.

(** One of the two dashes of the class [[-...]], if [s] starts with it: the
    hyphen, or the three bytes of the en dash. *)
Definition skipDash (s : string) : option string :=
  match s with
  | String c t =>
      if Ascii.eqb c "-" then Some t
      else
        match t with
        | String c2 (String c3 t') =>
            if (nat_of_ascii c =? 226) && (nat_of_ascii c2 =? 128)
               && (nat_of_ascii c3 =? 147)
            then Some t' else None
        | _ => None
        end
  | EmptyString => None
  end.

(** Does the whole of [s] match [\s*[-...]\s*\d+%\s*]?  Each class is followed
    by a character outside it, so the greedy reading is the only one. *)
Definition matchesConfidence (s : string) : bool :=
  match skipDash (skipSpaces s) with
  | None => false
  | Some s =>
      match skipSpaces s with
      | String d t =>
          if isDigit d then
            match skipDigits t with
            | String p r =>
                if Ascii.eqb p "%"
                then match skipSpaces r with EmptyString => true | _ => false end
                else false
            | EmptyString => false
            end
          else false
      | EmptyString => false
      end
  end.

(** [label.replace(/\s*[-...]\s*\d+%\s*$/, '')]: the match that starts
    leftmost and ends at the end of the string is removed. *)
Fixpoint stripConfidence (s : string) : string :=
  if matchesConfidence s then EmptyString
  else match s with
       | String c t => String c (stripConfidence t)
       | EmptyString => EmptyString
       end.

(** [String.prototype.trim]. *)
Fixpoint trimEnd (s : string) : string :=
  match s with
  | String c t =>
      match trimEnd t with
      | EmptyString => if isSpace c then EmptyString else String c EmptyString
      | t' => String c t'
      end
  | EmptyString => EmptyString
  end.

Definition trim (s : string) : string := trimEnd (skipSpaces s).

(** [String.prototype.toLowerCase] on the letters A to Z. *)
Definition lowerChar (c : ascii) : ascii :=
  let n := nat_of_ascii c in
  if (65 <=? n) && (n <=? 90) then ascii_of_nat (n + 32) else c.

Fixpoint toLowerCase (s : string) : string :=
  match s with
  | String c t => String (lowerChar c) (toLowerCase t)
  | EmptyString => EmptyString
  end.

(** [Array.prototype.sort] without a comparator: strings in the order of
    their code units. *)
Fixpoint insertSorted (x : string) (l : list string) : list string :=
  match l with
  | [] => [x]
  | y :: l' => if String.leb x y then x :: l else y :: insertSorted x l'
  end.

Definition sort (l : list string) : list string :=
  fold_right insertSorted [] l.

(** [Array.prototype.join(sep)]. *)
Definition join (sep : string) (l : list string) : string := String.concat sep l.

(** A number inside a template literal. *)
Definition decimal (n : nat) : string := NilEmpty.string_of_uint (Nat.to_uint n).

Record Item : Type := mkItem { label : option string }.

(** The body of a response, with the fields this module reads.  A field is
    [None] when it is missing or [null]. *)
Record ApiResult : Type := mkApiResult {
  ok : bool;
  data : list Item;
  best_guess : option string;      (* web_detail.best_guess *)
  label_detected : option bool;
  label_reason : option string;
  limit_type : option string;
  retry_after : option Z
}.

(** [x || ''] for a string or missing [x]. *)
Definition orEmpty (x : option string) : string :=
  match x with Some s => s | None => EmptyString end.

(** [x || null] for a string or missing [x]: the empty string is falsy. *)
Definition orNull (x : option string) : option string :=
  match x with
  | Some EmptyString => None
  | _ => x
  end.

Definition showBool (b : option bool) : string :=
  match b with
  | Some true => "true"
  | Some false => "false"
  | None => "undefined"
  end.

(** The arrow function mapped over [result.data]. *)
Definition normalizeLabel (item : Item) : string :=
  let label := trim (orEmpty (label item)) in
  let label := stripConfidence label in
  toLowerCase label.

Definition nonEmpty (s : string) : bool :=
  match s with EmptyString => false | _ => true end.

Definition computeResultFingerprint (w : World) (result : ApiResult)
  : option string :=
  if negb (ok result) then None
  else if String.eqb (currentMode w) "web" then orNull (best_guess result)
  else if String.eqb (currentMode w) "label" then
    Some ("label:" ++ showBool (label_detected result) ++ ":"
          ++ orEmpty (label_reason result))%string
  else
    match data result with
    | [] => None
    | _ =>
        let labels := sort (filter nonEmpty (map normalizeLabel (data result))) in
        match labels with
        | [] => None
        | _ => Some ("n" ++ decimal (List.length labels) ++ ":"
                     ++ join "|" labels)%string
        end
    end.

(* ------------------------------------------------------------------ *)
(** ** scanner.js, sections 10 and 11: the stability detector *)

(** The loop of [checkStabilityAndCapture] over the RGBA data of the current
    and the previous frame: four cells a step, the alpha cell skipped. *)
Fixpoint frameDiff (currentFrameData lastFrame : list Z) : Z :=
  match currentFrameData, lastFrame with
  | r :: g :: b :: _ :: cur', r' :: g' :: b' :: _ :: last' =>
      (Z.abs (r - r') + Z.abs (g - g') + Z.abs (b - b')
       + frameDiff cur' last')%Z
  | _, _ => 0%Z
  end.

(** [diff / (motionCanvas.width * motionCanvas.height)]. *)
Definition avgDiff (currentFrameData lastFrame : list Z) : Q :=
  (inject_Z (frameDiff currentFrameData lastFrame)
   / inject_Z (MOTION_CANVAS_WIDTH * MOTION_CANVAS_HEIGHT))%Q.

Definition Qltb (a b : Q) : bool := negb (Qle_bool b a).

(** The branch taken when motion is seen. *)
Definition onMotion (w : World) : World :=
  let w := set_stabilityCounter 0 w in
  let w :=
    if ScanState_eqb (scanState w) PAUSED_DUPLICATE || (0 <? duplicateCount w)
    then
      let w :=
        if ScanState_eqb (scanState w) PAUSED_DUPLICATE
        then snd (transitionTo SCANNING w) else w in
      let w := set_duplicateCount 0 w in
      set_lastResultFingerprint None w
    else w in
  set_lastStabilityState BarMoving w.

(** [checkStabilityAndCapture()].  [frame] is the RGBA data of the motion
    canvas, [None] while the video has no current data.  The second component
    tells whether this call started [captureAndAnalyze]. *)
Definition checkStabilityAndCapture (env : Env) (frame : option (list Z))
    (w : World) : World * bool :=
  match frame with
  | None => (w, false)
  | Some currentFrameData =>
      match lastFrameData w with
      | None => (set_lastFrameData (Some currentFrameData) w, false)
      | Some lastFrame =>
          if Qltb (avgDiff currentFrameData lastFrame) (inject_Z MOTION_THRESHOLD)
          then
            let w := set_stabilityCounter (S (stabilityCounter w)) w in
            let w := set_lastStabilityState BarStabilizing w in
            if STABILITY_THRESHOLD <=? stabilityCounter w then
              if ScanState_eqb (scanState w) PAUSED_DUPLICATE then
                (set_stabilityCounter STABILITY_THRESHOLD w, false)
              else
                let w := set_lastStabilityState BarCaptured w in
                let w := captureAndAnalyze env w in
                let w := set_stabilityCounter 0 w in
                let capturedMode := currentMode w in
                let w := snd (setTimeout (CbCaptureReset capturedMode) w) in
                (set_lastFrameData (Some currentFrameData) w, true)
            else (set_lastFrameData (Some currentFrameData) w, false)
          else
            let w := onMotion w in
            (set_lastFrameData (Some currentFrameData) w, false)
      end
  end.

(** The callback registered after a capture. *)
Definition captureResetFired (capturedMode : string) (w : World) : World :=
  if ScanState_eqb (scanState w) SCANNING
     && String.eqb (currentMode w) capturedMode
  then set_lastStabilityState BarIdle w
  else w.

(** [scanLoop()], the animation-frame callback. *)
Definition scanLoop (env : Env) (frame : option (list Z)) (w : World)
  : World * bool :=
  if negb (ScanState_eqb (scanState w) SCANNING)
     && negb (ScanState_eqb (scanState w) PAUSED_DUPLICATE)
  then (w, false)
  else
    let w := set_scanFrameCount (S (scanFrameCount w)) w in
    if ScanState_eqb (scanState w) PAUSED_DUPLICATE
       && negb (scanFrameCount w mod 15 =? 0)
    then (requestScanLoop w, false)
    else
      let (w, fired) := checkStabilityAndCapture env frame w in
      (requestScanLoop w, fired).

(* ------------------------------------------------------------------ *)
(** ** scanner.js, section 12: [captureAndAnalyze] after the [await] *)

(** What [await fetchWithRetry(...)] and [await response.json()] give. *)
Inductive FetchError : Set := AbortError | RetriesExhausted | OtherError.

Inductive NetOutcome : Type :=
| Threw (err : FetchError)
| Responded (status : Z) (body : option ApiResult) (retryAfterHeader : option Z).

(** The local variables [succeeded] and [_pendingDuplicatePause]. *)
Record Locals : Type := mkLocals {
  succeeded : bool;
  pendingDuplicatePause : bool
}.

(** The duplicate bookkeeping of a result with [ok] true. *)
Definition noteFingerprint (fingerprint : option string) (w : World)
  : World * bool :=
  let fingerprint := orNull fingerprint in   (* the empty string is falsy *)
  let same :=
    match fingerprint, lastResultFingerprint w with
    | Some f, Some l => String.eqb f l
    | _, _ => false
    end in
  let (w, pending) :=
    if same then
      let w := set_duplicateCount (S (duplicateCount w)) w in
      (w, DUPLICATE_SKIP_COUNT w <=? duplicateCount w)
    else
      (set_duplicateCount (match fingerprint with Some _ => 1 | None => 0 end) w,
       false) in
  let w :=
    match fingerprint with
    | Some f => set_lastResultFingerprint (Some f) w
    | None => w
    end in
  (w, pending).

(** [parseInt(result.retry_after || response.headers.get('Retry-After') || '10', 10)],
    the numbers taken as already parsed; [0] is falsy. *)
Definition retryAfterSeconds (result : ApiResult) (header : option Z) : Z :=
  match retry_after result with
  | Some z => if (z =? 0)%Z
              then match header with Some h => h | None => 10%Z end
              else z
  | None => match header with Some h => h | None => 10%Z end
  end.

(** [result.limit_type === 'daily']. *)
Definition isDaily (result : ApiResult) : bool :=
  match limit_type result with
  | Some t => String.eqb t "daily"
  | None => false
  end.

(** The [try] block once the response is there. *)
Definition tryBlock (p : Pending) (env : Env) (status : Z)
    (body : option ApiResult) (header : option Z) (w : World) : World * Locals :=
  match body with
  | None => (w, mkLocals false false)
  | Some result =>
      if (status =? 429)%Z then
        if isDaily result then (disableScanButton w, mkLocals false false)
        else
          let retryAfter := retryAfterSeconds result header in
          let w := snd (transitionTo COOLDOWN w) in
          (startCooldownCountdown env retryAfter w, mkLocals false false)
      else if ok result then
        let w := set_consecutiveErrorCount 0 w in
        let w := set_lastSentImageHash (Some (currentHash p)) w in
        let w := incrementApiCallCount w in
        let fingerprint := computeResultFingerprint w result in
        let (w, pending) := noteFingerprint fingerprint w in
        (w, mkLocals true pending)
      else (w, mkLocals false false)
  end.

(** The [catch] block. *)
Definition catchBlock (p : Pending) (random : Q) (w : World) : World * Locals :=
  if wasStreamingScan p then
    let w := snd (transitionTo PAUSED_ERROR w) in
    (scheduleRetry random w, mkLocals false false)
  else (w, mkLocals false false).

(** The [finally] block. *)
Definition finallyBlock (p : Pending) (l : Locals) (w : World) : World :=
  if ScanState_eqb (scanState w) ANALYZING then
    if pendingDuplicatePause l && wasStreamingScan p then
      let w := snd (transitionTo SCANNING w) in
      let w := snd (transitionTo PAUSED_DUPLICATE w) in
      requestScanLoop w
    else if negb (isSingleShot w) && wasStreamingScan p then
      let w := snd (transitionTo SCANNING w) in
      let (h, w) := setTimeout CbContinuousDelay w in
      set_continuousDelayTimerId (Some h) w
    else snd (transitionTo IDLE w)
  else w.

Definition Pending_eqb (p q : Pending) : bool :=
  (if list_eq_dec Z.eq_dec (currentHash p) (currentHash q) then true else false)
  && Bool.eqb (wasStreamingScan p) (wasStreamingScan q).

(** The host forgets a request once it has settled. *)
Fixpoint settle (p : Pending) (l : list Pending) : list Pending :=
  match l with
  | [] => []
  | q :: l' => if Pending_eqb p q then l' else q :: settle p l'
  end.

(** The rest of [captureAndAnalyze] for the request [p], run when the network
    call settles with [outcome]. *)
Definition captureAndAnalyze_resume (p : Pending) (outcome : NetOutcome)
    (random : Q) (env : Env) (w : World) : World :=
  let w := set_inFlight (settle p (inFlight w)) w in
  let (w, l) :=
    match outcome with
    | Threw _ => catchBlock p random w
    | Responded status body header => tryBlock p env status body header w
    end in
  finallyBlock p l w.

(** The callback of the timer set by the [finally] block. *)
Definition continuousDelayFired (w : World) : World :=
  let w := set_continuousDelayTimerId None w in
  if negb (ScanState_eqb (scanState w) SCANNING) then w
  else
    let w := set_stabilityCounter 0 w in
    let w := set_lastStabilityState BarIdle w in
    requestScanLoop w.

(* ------------------------------------------------------------------ *)
(** ** scanner.js, sections 5, 6, 7 and 16: the controls *)

Definition resetDuplicateState (w : World) : World :=
  set_lastResultFingerprint None (set_duplicateCount 0 w).

Definition toggleScanMode (w : World) : World :=
  set_isSingleShot (negb (isSingleShot w)) w.

(** [toggleScanning()]; [now] is [Date.now()]. *)
Definition toggleScanning (now : Z) (env : Env) (w : World) : World :=
  if (now - lastToggleTime w <? 300)%Z then w
  else
    let w := set_lastToggleTime now w in
    if ScanState_eqb (scanState w) ANALYZING then w
    else if ScanState_eqb (scanState w) COOLDOWN then
      set_shouldRestartAfterCooldown true w
    else if negb (ScanState_eqb (scanState w) IDLE) then stopScanning env w
    else startScanning env w.

Definition setMode (mode : string) (w : World) : World :=
  let w := set_currentMode mode w in
  let w :=
    if ScanState_eqb (scanState w) PAUSED_DUPLICATE
    then snd (transitionTo SCANNING w) else w in
  let w := set_duplicateCount 0 w in
  set_lastResultFingerprint None w.

(* ------------------------------------------------------------------ *)
(** ** The host fires a callback *)

Definition callbackOf (h : positive) (w : World) : option Callback :=
  option_map snd (find (fun e => Pos.eqb (fst e) h) (pendingCallbacks w)).

(** The callback with handle [h] runs.  A timeout or an animation frame is
    forgotten as it runs; an interval stays.  [frame] is what the motion canvas
    shows if the callback is [scanLoop]. *)
Definition fire (h : positive) (env : Env) (frame : option (list Z)) (w : World)
  : World :=
  match callbackOf h w with
  | None => w
  | Some CbScanLoop => fst (scanLoop env frame (cancel h w))
  | Some (CbRetry _) => retryTimerFired (cancel h w)
  | Some CbContinuousDelay => continuousDelayFired (cancel h w)
  | Some (CbCooldownTick _) => cooldownTick env w
  | Some (CbCaptureReset capturedMode) => captureResetFired capturedMode (cancel h w)
  end.

(* ------------------------------------------------------------------ *)
(** ** app.js: what happens to the page *)

Definition setDuplicateSkipCount (val : nat) (w : World) : World :=
  set_DUPLICATE_SKIP_COUNT val w.

(** The [input] listener of the duplicate-skip slider. *)
Definition onSliderInput (val : nat) (w : World) : World :=
  let w := setDuplicateSkipCount val w in
  let w :=
    if ScanState_eqb (scanState w) PAUSED_DUPLICATE
    then snd (transitionTo SCANNING w) else w in
  resetDuplicateState w.

(** The [visibilitychange] listener when the page is hidden, and the
    [change] listener of the file input before it loads the file. *)
Definition onLeave (env : Env) (w : World) : World :=
  if negb (ScanState_eqb (scanState w) IDLE) then stopScanning env w else w.

(** The listeners of app.js, the callbacks of the host and the settling of a
    request. *)
Inductive Event : Type :=
| ClickScan (now : Z)
| ClickScanMode
| ClickMode (mode : string)
| SlideDuplicateSkip (val : nat)
| Leave
| Fire (h : positive) (frame : option (list Z))
| Settle (p : Pending) (outcome : NetOutcome) (random : Q).

(** One event on the page [env]. *)
Definition step (env : Env) (ev : Event) (w : World) : World :=
  match ev with
  | ClickScan now => toggleScanning now env w
  | ClickScanMode => toggleScanMode w
  | ClickMode mode => setMode mode w
  | SlideDuplicateSkip val => onSliderInput val w
  | Leave => onLeave env w
  | Fire h frame => fire h env frame w
  | Settle p outcome random =>
      if existsb (Pending_eqb p) (inFlight w)
      then captureAndAnalyze_resume p outcome random env w
      else w
  end.

(** The states the scanner goes through from the load of the page, its
    exported functions being called at any time: [toggleScanning] whether
    the scan button is disabled or not. *)
Inductive reachable : World -> Prop :=
| reachable_initial : reachable initial
| reachable_step env ev w : reachable w -> reachable (step env ev w).

(** A restart is queued only while the state is [COOLDOWN]. *)
Definition queuedOnlyInCooldown (w : World) : Prop :=
  shouldRestartAfterCooldown w = true -> scanState w = COOLDOWN.

(** A disabled button gets no click: the event can happen on the page as
    [w] has it. *)
Definition happens (ev : Event) (w : World) : bool :=
  match ev with
  | ClickScan _ => negb (btnScanDisabled w)
  | _ => true
  end.

(** The states the page goes through when [toggleScanning] runs on clicks of
    the scan button alone. *)
Inductive reachableByClicks : World -> Prop :=
| clicks_initial : reachableByClicks initial
| clicks_step env ev w :
    reachableByClicks w -> happens ev w = true ->
    reachableByClicks (step env ev w).

(** In [COOLDOWN] the scan button is disabled. *)
Definition disabledInCooldown (w : World) : Prop :=
  scanState w = COOLDOWN -> btnScanDisabled w = true.

(** A call keeps the button disabled in [COOLDOWN]. *)
Definition keepsDisabled (f : Env -> World -> option World) : Prop :=
  forall env w w',
    disabledInCooldown w -> f env w = Some w' -> disabledInCooldown w'.

(* ------------------------------------------------------------------ *)
(** ** Notions used in the statements *)

(** No start request is queued behind a cooldown. *)
Definition flagDown (w : World) : Prop := shouldRestartAfterCooldown w = false.

(** A call is answered (it does not run out of depth) from every state with
    the flag down, and leaves the flag down; or from every state. *)
Definition answersDown (f : Env -> World -> option World) : Prop :=
  forall env w, flagDown w -> exists w', f env w = Some w' /\ flagDown w'.

Definition answersAll (f : Env -> World -> option World) : Prop :=
  forall env w, exists w', f env w = Some w'.

(** Every answer of [r1] is an answer of [r2]. *)
Definition below (r1 r2 : Ops) : Prop :=
  (forall env w r, op_stopScanning r1 env w = Some r ->
                   op_stopScanning r2 env w = Some r) /\
  (forall env w r, op_stopCooldownCountdown r1 env w = Some r ->
                   op_stopCooldownCountdown r2 env w = Some r) /\
  (forall env w r, op_startScanning r1 env w = Some r ->
                   op_startScanning r2 env w = Some r) /\
  (forall env w r, op_captureAndAnalyze r1 env w = Some r ->
                   op_captureAndAnalyze r2 env w = Some r).

(** The countdown without a queued restart, for [stopScanning_body]. *)
Definition haltOps : Ops :=
  mkOps (fun _ _ => None) (fun _ w => Some (haltCountdown w))
        (fun _ _ => None) (fun _ _ => None).

(** The four functions, as total functions, for the bodies to call. *)
Definition theOps : Ops :=
  mkOps (fun env w => Some (stopScanning env w))
        (fun env w => Some (stopCooldownCountdown env w))
        (fun env w => Some (startScanning env w))
        (fun env w => Some (captureAndAnalyze env w)).

(** The four handle variables hold no handle. *)
Definition noHandles (w : World) : Prop :=
  scanRafId w = None /\ retryTimerId w = None /\
  continuousDelayTimerId w = None /\ cooldownTimerId w = None.

(** The width [captureAndAnalyze] reads is not zero. *)
Definition sourceReady (env : Env) : Prop :=
  (if Source_eqb (getCurrentSource env) SrcImage
   then naturalWidth env else videoWidth env) <> 0%Z.

(** The request [captureAndAnalyze] sends on the page [env]. *)
Definition requestOf (env : Env) : Pending :=
  mkPending (computeImageHash (hashPixels env))
            (Source_eqb (getCurrentSource env) SrcCamera).




(* ------------------------------------------------------------------ *)
(** ** The image hash in the words of the specification *)

(** [sumTo g n] is g(0) + ... + g(n-1). *)
Fixpoint sumTo (g : nat -> Z) (n : nat) : Z :=
  match n with
  | O => 0%Z
  | S k => (sumTo g k + g k)%Z
  end.

(** The sum of |a_i - b_i| over the first [n] cells of two hashes. *)
Definition sumAbsDiff (a b : list Z) (n : nat) : Z :=
  sumTo (fun i => Z.abs (nth i a 0%Z - nth i b 0%Z)) n.

(** The similarity as the specification writes it, for hashes of N x N
    cells: 1 - (sum of |a_i - b_i|) / (N * N * 255). *)
Definition specSimilarity (a b : list Z) : Q :=
  (1 - inject_Z (sumAbsDiff a b (IMAGE_HASH_SIZE * IMAGE_HASH_SIZE))
       / inject_Z (Z.of_nat (IMAGE_HASH_SIZE * IMAGE_HASH_SIZE) * 255))%Q.

(* ------------------------------------------------------------------ *)
(** ** The stability detector in the words of the specification *)







(** [scanLoop] once for each frame; the list tells which calls started a
    capture. *)
Fixpoint runLoop (env : Env) (frames : list (list Z)) (w : World)
  : World * list bool :=
  match frames with
  | [] => (w, [])
  | f :: fs =>
      let (w1, fired) := scanLoop env (Some f) w in
      let (w2, rest) := runLoop env fs w1 in
      (w2, fired :: rest)
  end.


(* ------------------------------------------------------------------ *)
(** ** The result fingerprint in words *)


(** What a string starts with is outside the class [P], or it is empty. *)
Definition stops (P : ascii -> bool) (s : string) : Prop :=
  match s with
  | String c _ => P c = false
  | EmptyString => True
  end.



(** The order [sort] puts strings in. *)
Definition lebTrue (a b : string) : Prop := String.leb a b = true.





(* ------------------------------------------------------------------ *)
(** ** Concrete pages, responses and runs *)

(** A camera page with a ready 1280-wide video and a black crop. *)
Definition cameraEnv : Env :=
  mkEnv SrcCamera 0%Z 1280%Z (repeat 0%Z 256).

(** A black frame of the motion canvas. *)
Definition blackFrame : list Z := repeat 0%Z (4 * (64 * 48)).

(** The request a capture of the black crop awaits. *)
Definition blackCrop : Pending := requestOf cameraEnv.

(** The body of a 429 answer of the per-minute limit. *)
Definition minuteQuotaBody : ApiResult :=
  mkApiResult false [] None None None (Some "minute"%string) (Some 12%Z).

(** The body of a 429 answer of the per-day limit. *)
Definition dailyQuotaBody : ApiResult :=
  mkApiResult false [] None None None (Some "daily"%string) None.

(** A body with [ok] true and one labelled item. *)
Definition appleBody : ApiResult :=
  mkApiResult true [mkItem (Some "Apple - 95%"%string)] None None None None None.


(** The host runs the animation-frame callback the scanner holds, [n] times,
    the camera showing [frame]. *)
Definition animationFrame (env : Env) (frame : list Z) (w : World) : World :=
  match scanRafId w with
  | Some h => step env (Fire h (Some frame)) w
  | None => w
  end.

Fixpoint animate (env : Env) (n : nat) (frame : list Z) (w : World) : World :=
  match n with
  | O => w
  | S k => animate env k frame (animationFrame env frame w)
  end.

(** The host runs the timer whose handle the variable [get] holds. *)
Definition timerFires (get : World -> option positive) (env : Env) (w : World)
  : World :=
  match get w with
  | Some h => step env (Fire h None) w
  | None => w
  end.


(** The scan button is pressed on the camera page, the loop sees the first
    black frame and twenty quiet pairs, and the capture awaits its request. *)
Definition analyzingCamera : World :=
  animate cameraEnv 21 blackFrame (step cameraEnv (ClickScan 1000%Z) initial).

(** The per-minute limit answers that capture: the countdown runs. *)
Definition coolingDown : World :=
  step cameraEnv
    (Settle blackCrop (Responded 429%Z (Some minuteQuotaBody) None) 0%Q)
    analyzingCamera.

(** The scan button is pressed during the countdown. *)
Definition restartQueued : World :=
  step cameraEnv (ClickScan 5000%Z) coolingDown.

(** The per-day limit answers the capture of [analyzingCamera]. *)
Definition dailyLimited : World :=
  step cameraEnv
    (Settle blackCrop (Responded 429%Z (Some dailyQuotaBody) None) 0%Q)
    analyzingCamera.

(** The page is hidden while the request of [analyzingCamera] is awaited,
    which stops the scan; the scan button is pressed again; then the answer
    to that request arrives, with [ok] true. *)
Definition hiddenDuringRequest : World := step cameraEnv Leave analyzingCamera.

Definition secondScan : World :=
  step cameraEnv (ClickScan 5000%Z) hiddenDuringRequest.

Definition lateAnswer : World :=
  step cameraEnv (Settle blackCrop (Responded 200%Z (Some appleBody) None) 0%Q)
    secondScan.

(** The request of [analyzingCamera] fails in transport; the retry timer
    fires and twenty more quiet pairs bring the next capture, which fails
    again; [twiceFailed] awaits the third request. *)
Definition onceFailed : World :=
  step cameraEnv (Settle blackCrop (Threw OtherError) (1 # 2)%Q) analyzingCamera.

Definition retried (w : World) : World :=
  animate cameraEnv 20 blackFrame (timerFires retryTimerId cameraEnv w).

Definition twiceFailed : World :=
  retried (step cameraEnv (Settle blackCrop (Threw RetriesExhausted) (1 # 2)%Q)
             (retried onceFailed)).

(** A continuous camera scan before a still black scene: the scan is started,
    the first capture is sent (the loop ends at the frame after it) and
    answered with [ok] true, and the timer of the interval has fired. *)
Definition stillScene : World :=
  timerFires continuousDelayTimerId cameraEnv
    (step cameraEnv (Settle blackCrop (Responded 200%Z (Some appleBody) None) 0%Q)
       (animate cameraEnv 22 blackFrame
          (step cameraEnv (ClickScan 1000%Z) (step cameraEnv ClickScanMode initial)))).

(** The same with a crop that is 5 brighter in every cell than the black one
    when the first capture is taken, and black afterwards. *)
Definition greyEnv : Env :=
  mkEnv SrcCamera 0%Z 1280%Z (repeat 5%Z 256).

Definition unchangedScene : World :=
  timerFires continuousDelayTimerId cameraEnv
    (step cameraEnv
       (Settle (requestOf greyEnv) (Responded 200%Z (Some appleBody) None) 0%Q)
       (animate greyEnv 22 blackFrame
          (step greyEnv (ClickScan 1000%Z) (step greyEnv ClickScanMode initial)))).

(* ================================================================== *)
(** * More of the scanner *)

From Stdlib Require DecimalNat.

(** ** Notions used in the further statements *)

(** A value a [Uint8Array] or an [ImageData] cell holds. *)
Definition isByte (x : Z) : Prop := (0 <= x <= 255)%Z.


(** The [disabled] attribute [syncUI] gives the scan button in a state. *)
Definition disabledIn (s : ScanState) : bool :=
  match s with
  | ANALYZING | COOLDOWN => true
  | _ => false
  end.

(** A camera page whose crop is bright. *)
Definition brightEnv : Env :=
  mkEnv SrcCamera 0%Z 1280%Z (repeat 200%Z 256).

(** The continuous scan of [stillScene] goes on: twenty more quiet pairs, a
    capture of a crop that has changed, and the same answer as before, which
    pauses the scan as a duplicate. *)
Definition pausedScene : World :=
  step brightEnv
    (Settle (requestOf brightEnv) (Responded 200%Z (Some appleBody) None) 0%Q)
    (animate brightEnv 21 blackFrame stillScene).

(** A frame of the motion canvas that is white. *)
Definition whiteFrame : list Z := repeat 255%Z (4 * (64 * 48)).

(** Three frames later the frame counter is at 44: the next frame is the
    one in fifteen that the paused loop looks at. *)
Definition pausedBeforeCheck : World := animate brightEnv 3 blackFrame pausedScene.

(** A call leaves [lastToggleTime] as it is. *)
Definition keepsToggleTime (f : Env -> World -> option World) : Prop :=
  forall env w w', f env w = Some w' -> lastToggleTime w' = lastToggleTime w.

(** The handles the four handle variables hold. *)
Definition heldHandles (w : World) : list (option positive) :=
  [scanRafId w; retryTimerId w; continuousDelayTimerId w; cooldownTimerId w].

(** The handles of the callbacks the host holds. *)
Definition pendingHandles (w : World) : list positive :=
  map fst (pendingCallbacks w).

(** The countdown interval fires [n] times. *)
Fixpoint ticks (env : Env) (n : nat) (w : World) : World :=
  match n with
  | O => w
  | S k => ticks env k (cooldownTick env w)
  end.


(** The response is no quota rejection and brings no result: its body
    cannot be read, or has [ok] false. *)
Definition rejected (outcome : NetOutcome) : bool :=
  match outcome with
  | Responded status (Some result) _ => negb (status =? 429)%Z && negb (ok result)
  | Responded _ None _ => true
  | Threw _ => false
  end.

(** The labels a fingerprint is made of, before they are sorted. *)
Definition fingerprintLabels (result : ApiResult) : list string :=
  filter nonEmpty (map normalizeLabel (data result)).

(** The duplicate bookkeeping of [n] answers in a row with the fingerprint
    [f]; the flag is the one of the last answer. *)
Fixpoint noteRepeated (f : string) (n : nat) (w : World) : World * bool :=
  match n with
  | O => (w, false)
  | S k => noteFingerprint (Some f) (fst (noteRepeated f k w))
  end.

(** Two answers with the labels of one scene: in another order, in another
    case, with and without the confidence. *)
Definition fruitBody : ApiResult :=
  mkApiResult true
    [mkItem (Some "Banana - 90%"%string); mkItem (Some "apple"%string)]
    None None None None None.

Definition fruitBodyAgain : ApiResult :=
  mkApiResult true
    [mkItem (Some " APPLE"%string); mkItem None; mkItem (Some "banana"%string)]
    None None None None None.

(* ------------------------------------------------------------------ *)
(** ** api-client.js: [fetchWithRetry] *)

(** What one call of [fetch] comes to: it resolves with a response, or it
    rejects with an error whose name is ['AbortError'], or with any other
    error. *)
Inductive Attempt (R : Type) : Type :=
| Resolved (response : R)
| RejectedAbort
| RejectedOther.

Arguments RejectedAbort {R}.
Arguments RejectedOther {R}.

(** How [fetchWithRetry] ends: it returns the response, or it throws the
    error of the last attempt, flagged [_retriesExhausted] or named
    ['AbortError']; [ThrownLast] is the [throw lastError] after the loop. *)
Inductive Fetched (R : Type) : Type :=
| Returned (response : R)
| Thrown (err : FetchError)
| ThrownLast.

Arguments Thrown {R}.
Arguments ThrownLast {R}.

(** The loop [for (attempt = 0; attempt <= maxRetries; attempt++)];
    [remaining] counts the rounds the loop condition still lets through.
    [fetch i] is what the call of [fetch] in round [i] comes to.  The
    second component lists the delays waited with [setTimeout], in order. *)
Fixpoint fetchLoop (R : Type) (fetch : nat -> Attempt R) (maxRetries : nat)
    (baseDelay : Z) (remaining attempt : nat) : Fetched R * list Z :=
  match remaining with
  | O => (ThrownLast, [])
  | S k =>
      match fetch attempt with
      | Resolved response => (Returned response, [])
      | RejectedAbort => (Thrown AbortError, [])
      | RejectedOther =>
          if maxRetries <=? attempt then (Thrown RetriesExhausted, [])
          else
            let delay := (baseDelay * 2 ^ Z.of_nat attempt)%Z in
            let (res, waits) := fetchLoop fetch maxRetries baseDelay k (S attempt) in
            (res, delay :: waits)
      end
  end.

(** [fetchWithRetry(url, options, maxRetries, baseDelay)]. *)
Definition fetchWithRetry (R : Type) (fetch : nat -> Attempt R)
    (maxRetries : nat) (baseDelay : Z) : Fetched R * list Z :=
  fetchLoop fetch maxRetries baseDelay (S maxRetries) 0.

(** The defaults of the two last parameters, which [captureAndAnalyze]
    leaves out. *)
Definition DEFAULT_MAX_RETRIES : nat := 3.
Definition DEFAULT_BASE_DELAY : Z := 2000%Z.

(** [l[0] + l[1] + ...]. *)
Definition total (l : list Z) : Z := fold_right Z.add 0%Z l.

(** A network that fails twice and then answers. *)
Definition twoFailures (i : nat) : Attempt nat :=
  if i <? 2 then RejectedOther else Resolved i.

(* ------------------------------------------------------------------ *)
(** ** constants.js: the image sent by mode and by network *)








(** The target box: the three [let]s of constants.js that [initTargetBox]
    fills from the style sheet. *)
Record TargetBox : Type := mkTargetBox {
  TARGET_BOX_RATIO : Q;
  TARGET_BOX_TOP : Q;
  TARGET_BOX_HEIGHT : Q
}.

(** The values the three [let]s start with. *)
Definition defaultBox : TargetBox := mkTargetBox (98 # 100) (1 # 100) (97 # 100).

(** The rectangle [captureAndAnalyze] cuts out of the source. *)
Record Rect : Type := mkRect { srcX : Q; srcY : Q; srcW : Q; srcH : Q }.

Definition cropRect (box : TargetBox) (sourceW sourceH : Z) : Rect :=
  mkRect (inject_Z sourceW * (1 - TARGET_BOX_RATIO box) / 2)
         (inject_Z sourceH * TARGET_BOX_TOP box)
         (inject_Z sourceW * TARGET_BOX_RATIO box)
         (inject_Z sourceH * TARGET_BOX_HEIGHT box).




(* ------------------------------------------------------------------ *)
(** ** What the page keeps in [localStorage] *)

(** [localStorage]: the value under each key, [None] for [null]. *)
Definition Storage : Type := string -> option string.

Definition getItem (key : string) (s : Storage) : option string := s key.

Definition setItem (key value : string) (s : Storage) : Storage :=
  fun k => if String.eqb k key then Some value else s k.

(** A storage that holds nothing. *)
Definition emptyStorage : Storage := fun _ => None.

(** The digits [parseInt] reads, from the left, up to the first character
    that is no digit. *)
Fixpoint parseDigits (s : string) (acc : nat) : nat :=
  match s with
  | String c t =>
      if isDigit c then parseDigits t (10 * acc + (nat_of_ascii c - 48)) else acc
  | EmptyString => acc
  end.

(** [parseInt(s, 10)]: white space, a sign, digits; [None] is [NaN]. *)
Definition parseInt (s : string) : option Z :=
  let s := skipSpaces s in
  let (negative, s) :=
    match s with
    | String c t =>
        if Ascii.eqb c "-" then (true, t)
        else if Ascii.eqb c "+" then (false, t)
        else (false, s)
    | EmptyString => (false, s)
    end in
  match s with
  | String c _ =>
      if isDigit c then
        let n := Z.of_nat (parseDigits s 0) in
        Some (if negative then (- n)%Z else n)
      else None
  | EmptyString => None
  end.

(** The functions of the page that write to [localStorage] or read from it,
    on the state and the storage. *)
Module Stored.

(** [toggleScanMode()] of scanner.js. *)
Definition toggleScanMode (ws : World * Storage) : World * Storage :=
  let (w, s) := ws in
  let w := set_isSingleShot (negb (isSingleShot w)) w in
  (w, setItem "isSingleShot" (if isSingleShot w then "1" else "0") s).

(** [restoreScanMode()] of scanner.js. *)
Definition restoreScanMode (ws : World * Storage) : World * Storage :=
  let (w, s) := ws in
  match getItem "isSingleShot" s with
  | Some saved => (set_isSingleShot (negb (String.eqb saved "0")) w, s)
  | None => (w, s)
  end.

(** The block of [init()] of app.js that restores the setting of the
    duplicate-skip slider. *)
Definition restoreDuplicateSkipCount (ws : World * Storage) : World * Storage :=
  let (w, s) := ws in
  match getItem "duplicateSkipCount" s with
  | Some saved =>
      if nonEmpty saved then
        match parseInt saved with
        | Some parsed =>
            if (1 <=? parsed)%Z && (parsed <=? 5)%Z
            then (setDuplicateSkipCount (Z.to_nat parsed) w, s)
            else (w, s)
        | None => (w, s)
        end
      else (w, s)
  | None => (w, s)
  end.

(** The [input] listener of the slider; [val] is the number [parseInt]
    reads from the value of the slider. *)
Definition onSliderInput (val : nat) (ws : World * Storage) : World * Storage :=
  let (w, s) := ws in
  (onSliderInput val w, setItem "duplicateSkipCount" (decimal val) s).

(** The page is loaded again: the module state starts afresh, the storage
    is kept, and [init()] restores the two settings. *)
Definition reload (s : Storage) : World * Storage :=
  restoreScanMode (restoreDuplicateSkipCount (initial, s)).

End Stored.

(** The continuous scan of [stillScene] after 19 more quiet pairs, as the
    host runs the callback of the next frame: the callback is off the list
    of the host and [scanLoop] is about to be called. *)
Definition beforeSkippedCapture : World :=
  let w := animate cameraEnv 19 blackFrame stillScene in
  match scanRafId w with
  | Some h => cancel h w
  | None => w
  end.

(** The callbacks of [scanLoop] among the pending ones. *)
Definition pendingLoops (w : World) : list (positive * Callback) :=
  filter (fun e => match snd e with CbScanLoop => true | _ => false end)
         (pendingCallbacks w).

(* ================================================================== *)
(** * Properties *)

(** ** Equality of states *)

Lemma ScanState_eqb_spec (a b : ScanState) : reflect (a = b) (ScanState_eqb a b).
Proof. destruct a, b; simpl; constructor; congruence. Qed.

Lemma ScanState_eqb_refl (a : ScanState) : ScanState_eqb a a = true.
Proof. now destruct a. Qed.

Lemma ScanState_eqb_eq (a b : ScanState) : ScanState_eqb a b = true <-> a = b.
Proof. destruct (ScanState_eqb_spec a b); split; congruence. Qed.

Lemma ScanState_eqb_neq (a b : ScanState) : ScanState_eqb a b = false <-> a <> b.
Proof. destruct (ScanState_eqb_spec a b); split; congruence. Qed.

(** ** Termination of start, stop, capture and countdown *)

Ltac break_if :=
  match goal with
  | |- context [if ?c then _ else _] => destruct c eqn:?
  end.

(** *** The restart flag through the leaves *)

Lemma clearHandle_flag get set w :
  (forall v w', shouldRestartAfterCooldown (set v w') = shouldRestartAfterCooldown w') ->
  shouldRestartAfterCooldown (clearHandle get set w) = shouldRestartAfterCooldown w.
Proof.
  intros Hset. unfold clearHandle.
  destruct (get w) as [n|]; try reflexivity.
  now rewrite Hset.
Qed.

Lemma haltCountdown_flag w :
  shouldRestartAfterCooldown (haltCountdown w) = shouldRestartAfterCooldown w.
Proof.
  unfold haltCountdown, clearHandle.
  destruct (cooldownTimerId w) as [n|]; simpl;
    repeat break_if; reflexivity.
Qed.

Lemma transitionTo_flag t w :
  shouldRestartAfterCooldown (snd (transitionTo t w)) = shouldRestartAfterCooldown w.
Proof.
  unfold transitionTo. repeat break_if; simpl; try reflexivity.
  destruct t; reflexivity.
Qed.

Lemma requestScanLoop_flag w :
  shouldRestartAfterCooldown (requestScanLoop w) = shouldRestartAfterCooldown w.
Proof. reflexivity. Qed.

Lemma isApiLimitReached_false w : isApiLimitReached w = false.
Proof. reflexivity. Qed.

Lemma countdown_down rec : answersDown (stopCooldownCountdown_body rec).
Proof.
  intros env w Hw. unfold stopCooldownCountdown_body.
  rewrite haltCountdown_flag, Hw. eexists; split; [reflexivity|].
  unfold flagDown. now rewrite haltCountdown_flag.
Qed.

Lemma stop_down rec :
  answersDown (op_stopCooldownCountdown rec) -> answersDown (stopScanning_body rec).
Proof.
  intros Hrec env w Hw. unfold stopScanning_body.
  match goal with |- context [op_stopCooldownCountdown rec env ?x] =>
    destruct (Hrec env x) as (w' & -> & Hw') end.
  - unfold flagDown.
    rewrite !clearHandle_flag by reflexivity. exact Hw.
  - eexists; split; [reflexivity|]. exact Hw'.
Qed.

Lemma capture_down rec :
  answersDown (op_stopScanning rec) -> answersDown (captureAndAnalyze_body rec).
Proof.
  intros Hrec env w Hw. unfold captureAndAnalyze_body.
  repeat break_if; try (eexists; split; [reflexivity|]; unfold flagDown;
    cbn; rewrite ?clearHandle_flag, ?transitionTo_flag by reflexivity; exact Hw).
  apply Hrec. unfold flagDown. now rewrite transitionTo_flag.
Qed.

Lemma start_down rec :
  answersDown (op_captureAndAnalyze rec) -> answersDown (startScanning_body rec).
Proof.
  intros Hrec env w Hw. unfold startScanning_body.
  rewrite isApiLimitReached_false.
  destruct (transitionTo SCANNING w) as [okb w1] eqn:Ht.
  assert (Hw1 : flagDown w1).
  { unfold flagDown. rewrite <- Hw, <- (transitionTo_flag SCANNING w), Ht. reflexivity. }
  destruct okb; simpl.
  - break_if.
    + apply Hrec. exact Hw1.
    + eexists; split; [reflexivity|]. unfold flagDown, cancelIfSet.
      destruct (scanRafId _) as [n|]; exact Hw1.
  - eexists; split; [reflexivity|exact Hw1].
Qed.

Lemma countdown_all rec :
  answersDown (op_startScanning rec) -> answersAll (stopCooldownCountdown_body rec).
Proof.
  intros Hrec env w. unfold stopCooldownCountdown_body.
  break_if.
  - destruct (Hrec env (set_shouldRestartAfterCooldown false (haltCountdown w)))
      as (w' & Hw' & _); [reflexivity|]. eauto.
  - eauto.
Qed.

Lemma stop_all rec :
  answersAll (op_stopCooldownCountdown rec) -> answersAll (stopScanning_body rec).
Proof.
  intros Hrec env w. unfold stopScanning_body.
  match goal with |- context [op_stopCooldownCountdown rec env ?x] =>
    destruct (Hrec env x) as (w' & ->) end.
  eauto.
Qed.

Lemma capture_all rec :
  answersAll (op_stopScanning rec) -> answersAll (captureAndAnalyze_body rec).
Proof.
  intros Hrec env w. unfold captureAndAnalyze_body.
  repeat break_if; eauto.
Qed.

Lemma start_all rec :
  answersAll (op_captureAndAnalyze rec) -> answersAll (startScanning_body rec).
Proof.
  intros Hrec env w. unfold startScanning_body.
  destruct (transitionTo SCANNING w) as [okb w1].
  repeat break_if; eauto.
Qed.

(** From depth four on, a call from a state with the flag down is answered
    and leaves the flag down. *)
Lemma ops_answer_down k :
  answersDown (op_stopScanning (ops (4 + k))) /\
  answersDown (op_stopCooldownCountdown (ops (4 + k))) /\
  answersDown (op_startScanning (ops (4 + k))) /\
  answersDown (op_captureAndAnalyze (ops (4 + k))).
Proof.
  assert (H1 : forall k, answersDown (op_stopCooldownCountdown (ops (1 + k))))
    by (intro; apply countdown_down).
  assert (H2 : forall k, answersDown (op_stopScanning (ops (2 + k))))
    by (intro j; apply stop_down, (H1 j)).
  assert (H3 : forall k, answersDown (op_captureAndAnalyze (ops (3 + k))))
    by (intro j; apply capture_down, (H2 j)).
  assert (H4 : forall k, answersDown (op_startScanning (ops (4 + k))))
    by (intro j; apply start_down, (H3 j)).
  repeat split.
  - apply (H2 (2 + k)).
  - apply (H1 (3 + k)).
  - apply (H4 k).
  - apply (H3 (1 + k)).
Qed.

(** Every call is answered at depth eight. *)
Lemma ops_answer_all :
  answersAll (op_stopScanning (ops 8)) /\
  answersAll (op_stopCooldownCountdown (ops 8)) /\
  answersAll (op_startScanning (ops 8)) /\
  answersAll (op_captureAndAnalyze (ops 8)).
Proof.
  assert (H4 : forall k, answersDown (op_startScanning (ops (4 + k))))
    by (intro k; apply (ops_answer_down k)).
  assert (H5 : forall k, answersAll (op_stopCooldownCountdown (ops (5 + k))))
    by (intro k; apply countdown_all, (H4 k)).
  assert (H6 : forall k, answersAll (op_stopScanning (ops (6 + k))))
    by (intro k; apply stop_all, (H5 k)).
  assert (H7 : forall k, answersAll (op_captureAndAnalyze (ops (7 + k))))
    by (intro k; apply capture_all, (H6 k)).
  assert (H8 : forall k, answersAll (op_startScanning (ops (8 + k))))
    by (intro k; apply start_all, (H7 k)).
  repeat split.
  - apply (H6 2).
  - apply (H5 3).
  - apply (H8 0).
  - apply (H7 1).
Qed.

(** More fuel never changes an answer. *)
Lemma bodies_below r1 r2 :
  below r1 r2 ->
  below (mkOps (stopScanning_body r1) (stopCooldownCountdown_body r1)
               (startScanning_body r1) (captureAndAnalyze_body r1))
        (mkOps (stopScanning_body r2) (stopCooldownCountdown_body r2)
               (startScanning_body r2) (captureAndAnalyze_body r2)).
Proof.
  intros (Hstop & Hcount & Hstart & Hcap).
  repeat split; cbn [op_stopScanning op_stopCooldownCountdown op_startScanning
                     op_captureAndAnalyze]; intros env w r.
  - unfold stopScanning_body.
    match goal with |- context [op_stopCooldownCountdown r1 env ?x] =>
      destruct (op_stopCooldownCountdown r1 env x) eqn:E end; [|discriminate].
    now rewrite (Hcount _ _ _ E).
  - unfold stopCooldownCountdown_body. break_if; auto.
  - unfold startScanning_body.
    destruct (transitionTo SCANNING w) as [okb w1]. repeat break_if; auto.
  - unfold captureAndAnalyze_body. repeat break_if; auto.
Qed.

Lemma ops_below_S n : below (ops n) (ops (S n)).
Proof.
  induction n as [|n IH].
  - repeat split; intros; discriminate.
  - apply (bodies_below IH).
Qed.

Lemma below_refl r : below r r.
Proof. repeat split; auto. Qed.

Lemma below_trans r1 r2 r3 : below r1 r2 -> below r2 r3 -> below r1 r3.
Proof.
  intros (A1 & A2 & A3 & A4) (B1 & B2 & B3 & B4). repeat split; eauto.
Qed.

Lemma ops_below n m : n <= m -> below (ops n) (ops m).
Proof.
  induction 1 as [|m _ IH].
  - apply below_refl.
  - apply (below_trans IH (ops_below_S m)).
Qed.

Lemma ops_run n env w : 8 <= n ->
  op_stopScanning (ops n) env w = Some (stopScanning env w) /\
  op_stopCooldownCountdown (ops n) env w = Some (stopCooldownCountdown env w) /\
  op_startScanning (ops n) env w = Some (startScanning env w) /\
  op_captureAndAnalyze (ops n) env w = Some (captureAndAnalyze env w).
Proof.
  intros Hn.
  destruct ops_answer_all as (A1 & A2 & A3 & A4).
  destruct (A1 env w) as (w1 & E1), (A2 env w) as (w2 & E2),
           (A3 env w) as (w3 & E3), (A4 env w) as (w4 & E4).
  destruct (ops_below Hn) as (B1 & B2 & B3 & B4).
  assert (H9 : 8 <= callDepth) by (unfold callDepth; lia).
  destruct (ops_below H9) as (C1 & C2 & C3 & C4).
  unfold stopScanning, stopCooldownCountdown, startScanning, captureAndAnalyze, run.
  rewrite (C1 _ _ _ E1), (C2 _ _ _ E2), (C3 _ _ _ E3), (C4 _ _ _ E4).
  rewrite (B1 _ _ _ E1), (B2 _ _ _ E2), (B3 _ _ _ E3), (B4 _ _ _ E4).
  repeat split.
Qed.

Lemma ops8_theOps env w :
  op_stopScanning (ops 8) env w = op_stopScanning theOps env w /\
  op_stopCooldownCountdown (ops 8) env w = op_stopCooldownCountdown theOps env w /\
  op_startScanning (ops 8) env w = op_startScanning theOps env w /\
  op_captureAndAnalyze (ops 8) env w = op_captureAndAnalyze theOps env w.
Proof. apply ops_run. lia. Qed.

(** The equations of the source hold of the total functions. *)
Lemma stopScanning_eq env w :
  stopScanning_body theOps env w = Some (stopScanning env w).
Proof.
  destruct (@ops_run 9 env w) as (<- & _); [lia|].
  change (op_stopScanning (ops 9)) with (stopScanning_body (ops 8)).
  unfold stopScanning_body.
  match goal with |- context [op_stopCooldownCountdown theOps env ?x] =>
    destruct (ops8_theOps env x) as (_ & -> & _) end.
  reflexivity.
Qed.

Lemma stopCooldownCountdown_eq env w :
  stopCooldownCountdown_body theOps env w = Some (stopCooldownCountdown env w).
Proof.
  destruct (@ops_run 9 env w) as (_ & <- & _); [lia|].
  change (op_stopCooldownCountdown (ops 9)) with (stopCooldownCountdown_body (ops 8)).
  unfold stopCooldownCountdown_body.
  break_if; [|reflexivity].
  match goal with |- context [op_startScanning theOps env ?x] =>
    destruct (ops8_theOps env x) as (_ & _ & -> & _) end.
  reflexivity.
Qed.

Lemma startScanning_eq env w :
  startScanning_body theOps env w = Some (startScanning env w).
Proof.
  destruct (@ops_run 9 env w) as (_ & _ & <- & _); [lia|].
  change (op_startScanning (ops 9)) with (startScanning_body (ops 8)).
  unfold startScanning_body.
  destruct (transitionTo SCANNING w) as [okb w1].
  repeat break_if; try reflexivity.
  match goal with |- context [op_captureAndAnalyze theOps env ?x] =>
    destruct (ops8_theOps env x) as (_ & _ & _ & ->) end.
  reflexivity.
Qed.

Lemma captureAndAnalyze_eq env w :
  captureAndAnalyze_body theOps env w = Some (captureAndAnalyze env w).
Proof.
  destruct (@ops_run 9 env w) as (_ & _ & _ & <-); [lia|].
  change (op_captureAndAnalyze (ops 9)) with (captureAndAnalyze_body (ops 8)).
  unfold captureAndAnalyze_body.
  repeat break_if; try reflexivity.
  match goal with |- context [op_stopScanning theOps env ?x] =>
    destruct (ops8_theOps env x) as (-> & _) end.
  reflexivity.
Qed.

(* ------------------------------------------------------------------ *)
(** ** The transition function *)

Lemma includes_In (l : list ScanState) (x : ScanState) :
  includes l x = true <-> In x l.
Proof.
  unfold includes. rewrite existsb_exists. split.
  - intros (y & Hy & E). apply ScanState_eqb_eq in E. now subst.
  - intros H. exists x. split; [assumption|apply ScanState_eqb_refl].
Qed.

Lemma syncUI_scanState t w : scanState (syncUI t w) = scanState w.
Proof. now destruct t. Qed.

(** C1. [transitionTo(target)] answers [true] and changes nothing when the
    target is the current state; answers [false] and changes nothing when the
    target is not in the row of [SCAN_TRANSITIONS] for the current state (so
    [IDLE] to [ANALYZING] fails and the state stays [IDLE]); otherwise it
    answers [true] and the current state is the target. *)
Theorem transitionTo_spec (w : World) (target : ScanState) :
  (target = scanState w -> transitionTo target w = (true, w)) /\
  (target <> scanState w ->
   ~ In target (SCAN_TRANSITIONS (scanState w)) ->
   transitionTo target w = (false, w)) /\
  (scanState w = IDLE -> transitionTo ANALYZING w = (false, w)) /\
  (target <> scanState w ->
   In target (SCAN_TRANSITIONS (scanState w)) ->
   fst (transitionTo target w) = true /\
   scanState (snd (transitionTo target w)) = target).
Proof.
  unfold transitionTo. repeat split.
  - intros ->. now rewrite ScanState_eqb_refl.
  - intros Hne Hnot.
    destruct (ScanState_eqb_spec (scanState w) target) as [E|_]; [congruence|].
    destruct (includes _ target) eqn:Hin; [|reflexivity].
    apply includes_In in Hin. contradiction.
  - intros ->. reflexivity.
  - destruct (ScanState_eqb_spec (scanState w) target) as [E|_]; [congruence|].
    apply includes_In in H0. now rewrite H0.
  - destruct (ScanState_eqb_spec (scanState w) target) as [E|_]; [congruence|].
    apply includes_In in H0. rewrite H0. simpl.
    now rewrite syncUI_scanState.
Qed.

(** The three cases of C1 on the initial state and on a scanning one. *)
Lemma transitionTo_spec_witness :
  transitionTo IDLE initial = (true, initial) /\
  transitionTo PAUSED_ERROR initial = (false, initial) /\
  transitionTo ANALYZING initial = (false, initial) /\
  (fst (transitionTo ANALYZING (set_scanState SCANNING initial)) = true /\
   scanState (snd (transitionTo ANALYZING (set_scanState SCANNING initial)))
   = ANALYZING).
Proof.
  destruct (transitionTo_spec initial IDLE) as (H1 & _).
  destruct (transitionTo_spec initial PAUSED_ERROR) as (_ & H2 & _).
  destruct (transitionTo_spec initial ANALYZING) as (_ & _ & H3 & _).
  destruct (transitionTo_spec (set_scanState SCANNING initial) ANALYZING)
    as (_ & _ & _ & H4).
  split; [apply H1; reflexivity|].
  split; [apply H2; simpl; [discriminate|intuition discriminate]|].
  split; [apply H3; reflexivity|].
  apply H4; simpl; [discriminate|auto].
Defined.

(** C2. The row of [ANALYZING] in [SCAN_TRANSITIONS] lists
    [PAUSED_DUPLICATE]: asked for it while analyzing, [transitionTo] answers
    [true] and commits it. *)
Theorem transitionTo_analyzing_paused_duplicate :
  fst (transitionTo PAUSED_DUPLICATE (set_scanState ANALYZING initial)) = true /\
  scanState (snd (transitionTo PAUSED_DUPLICATE (set_scanState ANALYZING initial)))
  = PAUSED_DUPLICATE.
Proof. split; reflexivity. Qed.

(* ------------------------------------------------------------------ *)
(** ** Stopping *)

(** Name the fields of a state. *)
Ltac open_world w :=
  destruct w as [st mode single rt errs cdt ct remaining flag sent fp dups
                 frame0 stable toggled frames raf bar skip calls limit btn
                 next cbs flight].

Lemma stopCooldownCountdown_down env w :
  flagDown w -> stopCooldownCountdown env w = haltCountdown w.
Proof.
  intros Hw. pose proof (stopCooldownCountdown_eq env w) as E.
  unfold stopCooldownCountdown_body in E.
  rewrite haltCountdown_flag, Hw in E. congruence.
Qed.

Lemma stopScanning_down env w :
  flagDown w -> stopScanning_body haltOps env w = Some (stopScanning env w).
Proof.
  intros Hw. rewrite <- stopScanning_eq. unfold stopScanning_body.
  cbn [op_stopCooldownCountdown theOps haltOps].
  rewrite stopCooldownCountdown_down; [reflexivity|].
  unfold flagDown. now rewrite !clearHandle_flag.
Qed.

(** With no restart queued, [stopScanning] ends in [IDLE] with the four
    handles cleared, whatever the state before. *)
Lemma stopScanning_down_idle env w :
  flagDown w ->
  scanState (stopScanning env w) = IDLE /\ noHandles (stopScanning env w) /\
  flagDown (stopScanning env w) /\
  lastSentImageHash (stopScanning env w) = lastSentImageHash w /\
  inFlight (stopScanning env w) = inFlight w.
Proof.
  intros Hw. pose proof (stopScanning_down env Hw) as E.
  unfold stopScanning_body, haltOps, haltCountdown, clearHandle in E.
  cbn [op_stopCooldownCountdown] in E.
  injection E as <-. unfold noHandles, flagDown in *.
  open_world w. cbn in Hw. subst.
  destruct raf, rt, cdt, ct; cbn; auto 10.
Qed.

(* ------------------------------------------------------------------ *)
(** ** The concrete states are states of the page *)

Lemma clicks_reachable w : reachableByClicks w -> reachable w.
Proof. induction 1; [apply reachable_initial|now apply reachable_step]. Qed.

Lemma clicks_animationFrame env frame w :
  reachableByClicks w -> reachableByClicks (animationFrame env frame w).
Proof.
  intros H. unfold animationFrame.
  destruct (scanRafId w); [now apply clicks_step | exact H].
Qed.

Lemma clicks_animate env n frame w :
  reachableByClicks w -> reachableByClicks (animate env n frame w).
Proof.
  revert w. induction n as [|n IH]; intros w H; cbn [animate]; [exact H|].
  apply IH. now apply clicks_animationFrame.
Qed.

Lemma clicks_timerFires get env w :
  reachableByClicks w -> reachableByClicks (timerFires get env w).
Proof.
  intros H. unfold timerFires.
  destruct (get w); [now apply clicks_step | exact H].
Qed.


Lemma clicks_analyzingCamera : reachableByClicks analyzingCamera.
Proof.
  unfold analyzingCamera.
  apply clicks_animate, clicks_step; [apply clicks_initial|reflexivity].
Qed.

Lemma clicks_coolingDown : reachableByClicks coolingDown.
Proof.
  unfold coolingDown.
  apply clicks_step; [apply clicks_analyzingCamera|reflexivity].
Qed.

(** [restartQueued] is reached by a call of [toggleScanning] during the
    countdown, not by a click: the button is disabled then. *)
Lemma reachable_restartQueued : reachable restartQueued.
Proof.
  unfold restartQueued. apply reachable_step, clicks_reachable, clicks_coolingDown.
Qed.

Lemma clicks_dailyLimited : reachableByClicks dailyLimited.
Proof.
  unfold dailyLimited.
  apply clicks_step; [apply clicks_analyzingCamera|reflexivity].
Qed.

Lemma clicks_retried w : reachableByClicks w -> reachableByClicks (retried w).
Proof.
  intros H. unfold retried. now apply clicks_animate, clicks_timerFires.
Qed.

Lemma clicks_twiceFailed : reachableByClicks twiceFailed.
Proof.
  unfold twiceFailed, onceFailed.
  apply clicks_retried, clicks_step; [|reflexivity].
  apply clicks_retried, clicks_step; [apply clicks_analyzingCamera|reflexivity].
Qed.

Lemma clicks_stillScene : reachableByClicks stillScene.
Proof.
  unfold stillScene.
  apply clicks_timerFires, clicks_step; [|reflexivity].
  apply clicks_animate, clicks_step; [|reflexivity].
  apply clicks_step; [apply clicks_initial|reflexivity].
Qed.

Lemma clicks_unchangedScene : reachableByClicks unchangedScene.
Proof.
  unfold unchangedScene.
  apply clicks_timerFires, clicks_step; [|reflexivity].
  apply clicks_animate, clicks_step; [|reflexivity].
  apply clicks_step; [apply clicks_initial|reflexivity].
Qed.

Lemma clicks_secondScan : reachableByClicks secondScan.
Proof.
  unfold secondScan, hiddenDuringRequest.
  apply clicks_step; [|vm_compute; reflexivity].
  apply clicks_step; [apply clicks_analyzingCamera|reflexivity].
Qed.

Lemma clicks_lateAnswer : reachableByClicks lateAnswer.
Proof.
  unfold lateAnswer. apply clicks_step; [apply clicks_secondScan|reflexivity].
Qed.

(* ------------------------------------------------------------------ *)
(** ** A forced stop during a countdown *)

(** C3, at the state [restartQueued]: a camera scan was answered by the
    per-minute limit, the countdown runs and [toggleScanning] was called
    during it, which queues a restart.  [stopScanning] leaves the state
    [SCANNING] with an animation frame requested; a second call in a row
    leaves [IDLE] with no handle.  With no restart queued [stopScanning]
    does end in [IDLE] with the four handles cleared
    ([stopScanning_down_idle]); that is so on every state the page reaches
    by clicks, for the scan button is disabled during the countdown
    ([stopScanning_idle_by_clicks]). *)
Theorem stopScanning_restarts_queued_scan :
  reachable restartQueued /\
  scanState restartQueued = COOLDOWN /\
  shouldRestartAfterCooldown restartQueued = true /\
  scanState (stopScanning cameraEnv restartQueued) = SCANNING /\
  scanRafId (stopScanning cameraEnv restartQueued) = Some 25%positive /\
  In (25%positive, CbScanLoop)
     (pendingCallbacks (stopScanning cameraEnv restartQueued)) /\
  scanState (stopScanning cameraEnv (stopScanning cameraEnv restartQueued)) = IDLE /\
  scanRafId (stopScanning cameraEnv (stopScanning cameraEnv restartQueued)) = None.
Proof.
  split; [exact reachable_restartQueued|].
  vm_compute. repeat split. right. now left.
Qed.

(* ------------------------------------------------------------------ *)
(** ** The image hash *)

Lemma computeImageHash_length pixels :
  List.length (computeImageHash pixels) = IMAGE_HASH_SIZE * IMAGE_HASH_SIZE.
Proof. unfold computeImageHash. now rewrite length_map, length_seq. Qed.

Lemma computeImageHash_byte pixels x :
  In x (computeImageHash pixels) -> (0 <= x < 256)%Z.
Proof.
  unfold computeImageHash. rewrite in_map_iff. intros (i & <- & _).
  unfold toUint8. apply Z.mod_pos_bound. lia.
Qed.

Lemma sumTo_head g n : sumTo g (S n) = (g O + sumTo (fun i => g (S i)) n)%Z.
Proof.
  induction n as [|n IH]; [simpl; lia|].
  change (sumTo g (S (S n))) with (sumTo g (S n) + g (S n))%Z.
  rewrite IH. simpl. lia.
Qed.


Lemma totalDiff_acc a b acc :
  List.length a = List.length b ->
  fold_left (fun acc ab => (acc + Z.abs (fst ab - snd ab))%Z) (combine a b) acc
  = (acc + sumAbsDiff a b (List.length a))%Z.
Proof.
  revert b acc. induction a as [|x a IH]; intros [|y b] acc Hlen;
    try discriminate; [unfold sumAbsDiff; simpl; lia|].
  injection Hlen as Hlen. cbn [combine fold_left List.length fst snd].
  rewrite (IH b _ Hlen). unfold sumAbsDiff. rewrite sumTo_head. simpl. lia.
Qed.

(** The loop of [compareImageHash] adds up |a_i - b_i| over the cells. *)
Lemma totalDiff_sum a b :
  List.length a = List.length b ->
  totalDiff a b = sumAbsDiff a b (List.length a).
Proof. intros H. unfold totalDiff. now rewrite totalDiff_acc. Qed.

Lemma compareImageHash_64 a b :
  List.length a = 64 -> List.length b = 64 ->
  compareImageHash (Some a) (Some b) = Some (specSimilarity a b).
Proof.
  intros Ha Hb. unfold compareImageHash, specSimilarity.
  rewrite totalDiff_sum by congruence. rewrite Ha, Hb. reflexivity.
Qed.

Lemma sumTo_const g c n :
  (forall i, i < n -> g i = c) -> sumTo g n = (Z.of_nat n * c)%Z.
Proof.
  induction n as [|n IH]; intros H; [reflexivity|].
  cbn [sumTo]. rewrite IH, (H n) by auto. lia.
Qed.

Lemma specSimilarity_delta5 a b :
  (forall i, i < 64 -> Z.abs (nth i a 0%Z - nth i b 0%Z) = 5%Z) ->
  (specSimilarity a b == 50 # 51)%Q.
Proof.
  intros H. unfold specSimilarity, sumAbsDiff.
  change (IMAGE_HASH_SIZE * IMAGE_HASH_SIZE) with 64.
  rewrite (sumTo_const _ H). reflexivity.
Qed.

(* ------------------------------------------------------------------ *)
(** ** Capture up to the request *)

(** [transitionTo] touches the current state and the scan button only. *)
Lemma transitionTo_cases t w :
  snd (transitionTo t w) = w \/
  exists b, snd (transitionTo t w) = set_btnScanDisabled b (set_scanState t w).
Proof.
  unfold transitionTo. repeat break_if; auto.
  right. destruct t; simpl; eauto.
Qed.

Lemma transitionTo_lastSentImageHash t w :
  lastSentImageHash (snd (transitionTo t w)) = lastSentImageHash w.
Proof. destruct (transitionTo_cases t w) as [->|(b & ->)]; reflexivity. Qed.

Lemma transitionTo_isSingleShot t w :
  isSingleShot (snd (transitionTo t w)) = isSingleShot w.
Proof. destruct (transitionTo_cases t w) as [->|(b & ->)]; reflexivity. Qed.

Lemma transitionTo_inFlight t w :
  inFlight (snd (transitionTo t w)) = inFlight w.
Proof. destruct (transitionTo_cases t w) as [->|(b & ->)]; reflexivity. Qed.

Lemma transitionTo_scanRafId t w :
  scanRafId (snd (transitionTo t w)) = scanRafId w.
Proof. destruct (transitionTo_cases t w) as [->|(b & ->)]; reflexivity. Qed.

Lemma sameAsLastSent_transitionTo cur t w :
  sameAsLastSent cur (snd (transitionTo t w)) = sameAsLastSent cur w.
Proof. unfold sameAsLastSent. now rewrite transitionTo_lastSentImageHash. Qed.

(** From every state but [IDLE] the table allows [SCANNING] or the state is
    [SCANNING]; from [IDLE] it allows it too. *)
Lemma transitionTo_SCANNING w : scanState (snd (transitionTo SCANNING w)) = SCANNING.
Proof.
  unfold transitionTo. destruct (scanState w) eqn:E; simpl; try exact E;
    reflexivity.
Qed.

Lemma sourceReady_eqb env :
  sourceReady env ->
  ((if Source_eqb (getCurrentSource env) SrcImage
    then naturalWidth env else videoWidth env) =? 0)%Z = false.
Proof. unfold sourceReady. apply Z.eqb_neq. Qed.

(** The three ways through [captureAndAnalyze] once the source is ready and
    no analysis runs. *)
Lemma capture_skip_continuous env w :
  sourceReady env -> scanState w <> ANALYZING ->
  sameAsLastSent (computeImageHash (hashPixels env)) w = true ->
  isSingleShot w = false -> getCurrentSource env = SrcCamera ->
  captureAndAnalyze env w
  = requestScanLoop (set_lastFrameData None (set_stabilityCounter 0
      (snd (transitionTo SCANNING (snd (transitionTo ANALYZING w)))))).
Proof.
  intros Hr Hs Hsame Hsingle Hsrc.
  pose proof (captureAndAnalyze_eq env w) as E.
  unfold captureAndAnalyze_body in E.
  rewrite (sourceReady_eqb Hr), (proj2 (ScanState_eqb_neq _ _) Hs),
    isApiLimitReached_false, sameAsLastSent_transitionTo, Hsame,
    transitionTo_isSingleShot, Hsingle, Hsrc in E.
  cbn [orb negb andb Source_eqb] in E. congruence.
Qed.

Lemma capture_skip_stop env w :
  sourceReady env -> scanState w <> ANALYZING ->
  sameAsLastSent (computeImageHash (hashPixels env)) w = true ->
  isSingleShot w = true \/ getCurrentSource env <> SrcCamera ->
  captureAndAnalyze env w = stopScanning env (snd (transitionTo ANALYZING w)).
Proof.
  intros Hr Hs Hsame Hor.
  pose proof (captureAndAnalyze_eq env w) as E.
  unfold captureAndAnalyze_body in E.
  rewrite (sourceReady_eqb Hr), (proj2 (ScanState_eqb_neq _ _) Hs),
    isApiLimitReached_false, sameAsLastSent_transitionTo, Hsame,
    transitionTo_isSingleShot in E.
  cbn [orb] in E.
  destruct Hor as [Hsingle|Hsrc].
  - rewrite Hsingle in E. cbn [negb andb op_stopScanning theOps] in E.
    congruence.
  - destruct (getCurrentSource env) eqn:Esrc; [congruence| |];
      rewrite andb_false_r in E; cbn [op_stopScanning theOps] in E; congruence.
Qed.

Lemma capture_submit env w :
  sourceReady env -> scanState w <> ANALYZING ->
  sameAsLastSent (computeImageHash (hashPixels env)) w = false ->
  captureAndAnalyze env w
  = let w1 := clearHandle scanRafId set_scanRafId (snd (transitionTo ANALYZING w)) in
    set_inFlight (inFlight w1 ++ [requestOf env]) w1.
Proof.
  intros Hr Hs Hsame.
  pose proof (captureAndAnalyze_eq env w) as E.
  unfold captureAndAnalyze_body in E.
  rewrite (sourceReady_eqb Hr), (proj2 (ScanState_eqb_neq _ _) Hs),
    isApiLimitReached_false, sameAsLastSent_transitionTo, Hsame in E.
  cbn [orb] in E. unfold requestOf. cbv zeta. congruence.
Qed.

Lemma capture_early env w :
  ~ sourceReady env \/ scanState w = ANALYZING -> captureAndAnalyze env w = w.
Proof.
  intros H. pose proof (captureAndAnalyze_eq env w) as E.
  unfold captureAndAnalyze_body in E.
  destruct H as [H|H].
  - unfold sourceReady in H.
    replace ((_ =? 0)%Z) with true in E; [cbn [orb] in E; congruence|].
    symmetry. apply Z.eqb_eq. lia.
  - rewrite H in E. cbn [ScanState_eqb] in E. rewrite orb_true_r in E.
    cbn [orb] in E. congruence.
Qed.

(** C5. With a last-sent hash, the similarity of the crop's 64-cell hash
    against it is 1 - (sum of |a_i - b_i|) / (64 * 255).  If it reaches 0.95
    no request is sent: a continuous camera scan is back in [SCANNING], every
    other scan goes through [stopScanning] (and is [IDLE] with no handle left
    when no restart is queued, as on every state the page reaches by clicks:
    [clicks_flagDown]).  A difference of 5 in every cell gives 50/51, about
    0.980, which reaches 0.95. *)
Theorem visual_dedup_gate (env : Env) (w : World) (last : list Z) :
  let cur := computeImageHash (hashPixels env) in
  lastSentImageHash w = Some last ->
  List.length last = 64 ->
  sourceReady env ->
  scanState w <> ANALYZING ->
  compareImageHash (Some cur) (Some last) = Some (specSimilarity cur last) /\
  ((95 # 100 <= specSimilarity cur last)%Q ->
     (isSingleShot w = false -> getCurrentSource env = SrcCamera ->
        scanState (captureAndAnalyze env w) = SCANNING /\
        inFlight (captureAndAnalyze env w) = inFlight w) /\
     (isSingleShot w = true \/ getCurrentSource env <> SrcCamera ->
        captureAndAnalyze env w = stopScanning env (snd (transitionTo ANALYZING w)) /\
        (flagDown w ->
           scanState (captureAndAnalyze env w) = IDLE /\
           noHandles (captureAndAnalyze env w) /\
           inFlight (captureAndAnalyze env w) = inFlight w))) /\
  ((forall i, i < 64 -> Z.abs (nth i cur 0%Z - nth i last 0%Z) = 5%Z) ->
     (specSimilarity cur last == 50 # 51)%Q /\
     (980 # 1000 <= specSimilarity cur last < 981 # 1000)%Q /\
     (95 # 100 <= specSimilarity cur last)%Q).
Proof.
  intros cur Hlast Hlen Hr Hs.
  assert (Hcmp : compareImageHash (Some cur) (Some last)
                 = Some (specSimilarity cur last)).
  { apply compareImageHash_64; [apply computeImageHash_length|exact Hlen]. }
  split; [exact Hcmp|]. split.
  - intros Hsim.
    assert (Hsame : sameAsLastSent cur w = true).
    { unfold sameAsLastSent. rewrite Hlast, Hcmp. simpl.
      now apply Qle_bool_iff. }
    split.
    + intros Hsingle Hsrc. rewrite (capture_skip_continuous w Hr Hs Hsame Hsingle Hsrc).
      split.
      * cbn. apply transitionTo_SCANNING.
      * cbn. now rewrite !transitionTo_inFlight.
    + intros Hor. rewrite (capture_skip_stop w Hr Hs Hsame Hor).
      split; [reflexivity|]. intros Hdown.
      assert (Hdown' : flagDown (snd (transitionTo ANALYZING w))).
      { unfold flagDown. now rewrite transitionTo_flag. }
      destruct (stopScanning_down_idle env Hdown') as (H1 & H2 & _ & _ & H5).
      rewrite H5, transitionTo_inFlight. auto.
  - intros H5. pose proof (specSimilarity_delta5 _ _ H5) as E.
    split; [exact E|]. rewrite E. repeat split; unfold Qle, Qlt; simpl; lia.
Qed.

(** C5 for a continuous camera scan on a scene 5 off in every cell from the
    one last sent. *)
Lemma visual_dedup_gate_witness :
  reachableByClicks unchangedScene /\
  lastSentImageHash unchangedScene = Some (repeat 5%Z 64) /\
  sourceReady cameraEnv /\
  scanState unchangedScene <> ANALYZING /\
  scanState (captureAndAnalyze cameraEnv unchangedScene) = SCANNING /\
  inFlight (captureAndAnalyze cameraEnv unchangedScene) = [].
Proof.
  assert (Hr : sourceReady cameraEnv) by (unfold sourceReady; simpl; lia).
  assert (Hl : lastSentImageHash unchangedScene = Some (repeat 5%Z 64))
    by (vm_compute; reflexivity).
  assert (Hs : scanState unchangedScene <> ANALYZING) by (vm_compute; discriminate).
  assert (Hc : isSingleShot unchangedScene = false) by (vm_compute; reflexivity).
  assert (Hf : inFlight unchangedScene = []) by (vm_compute; reflexivity).
  destruct (@visual_dedup_gate cameraEnv unchangedScene (repeat 5%Z 64)
              Hl eq_refl Hr Hs) as (_ & Hgate & Hfive).
  assert (Hsim : (95 # 100 <=
            specSimilarity (computeImageHash (hashPixels cameraEnv)) (repeat 5%Z 64))%Q).
  { apply Hfive. intros i Hi.
    do 64 (destruct i as [|i]; [reflexivity|]). lia. }
  destruct (Hgate Hsim) as (Hcont & _).
  destruct (Hcont Hc eq_refl) as (H1 & H2).
  rewrite Hf in H2. split; [exact clicks_unchangedScene|].
  repeat split; assumption.
Defined.

(* ------------------------------------------------------------------ *)
(** ** The last-sent hash *)











(* ------------------------------------------------------------------ *)
(** ** The retry timer *)

Lemma retryJitter_bounds random :
  (0 <= random < 1)%Q -> (75 # 100 <= retryJitter random < 125 # 100)%Q.
Proof. unfold retryJitter. intros [H0 H1]. split; lra. Qed.

Lemma retryDelay_le_max n random :
  (retryDelay n random <= inject_Z RETRY_MAX_DELAY_MS)%Q.
Proof. unfold retryDelay. apply Q.le_min_r. Qed.

Lemma retryDelay_third random :
  (0 <= random < 1)%Q ->
  (retryDelay 3 random == 20000 * retryJitter random)%Q /\
  (15000 <= retryDelay 3 random <= 25000)%Q.
Proof.
  intros Hr. destruct (retryJitter_bounds Hr) as [Hlo Hhi].
  assert (E : (retryDelay 3 random == 20000 * retryJitter random)%Q).
  { unfold retryDelay.
    change (inject_Z RETRY_BASE_DELAY_MS * inject_Z (2 ^ (Z.of_nat 3 - 1)))%Q
      with (inject_Z 5000 * inject_Z 4)%Q.
    rewrite Q.min_l.
    - unfold inject_Z. lra.
    - unfold RETRY_MAX_DELAY_MS, inject_Z. lra. }
  split; [exact E|]. rewrite E. split; lra.
Qed.

(** C8. A request of a camera scan fails in transport while the state is
    [ANALYZING]: the state becomes [PAUSED_ERROR], the error count goes up by
    one to [n], and the retry timer is set with the delay
    min(5000 * 2^(n-1) * jitter, 60000), where jitter = 0.75 + random / 2 lies
    in [0.75, 1.25).  The delay never exceeds 60000; at the third failure in
    a row 5000 * 2^2 is 20000 and the delay lies between 15000 and 25000. *)
Theorem retry_backoff
    (p : Pending) (err : FetchError) (random : Q) (env : Env) (w : World) :
  wasStreamingScan p = true ->
  scanState w = ANALYZING ->
  (0 <= random < 1)%Q ->
  let w' := captureAndAnalyze_resume p (Threw err) random env w in
  let n := S (consecutiveErrorCount w) in
  let jitter := ((75 # 100) + random * (1 # 2))%Q in
  let delay := Qmin (5000 * inject_Z (2 ^ (Z.of_nat n - 1)) * jitter)%Q 60000%Q in
  scanState w' = PAUSED_ERROR /\
  consecutiveErrorCount w' = n /\
  (exists h, retryTimerId w' = Some h /\
             In (h, CbRetry delay) (pendingCallbacks w')) /\
  (75 # 100 <= jitter < 125 # 100)%Q /\
  (delay <= 60000)%Q /\
  (n = 3 -> (5000 * inject_Z (2 ^ (Z.of_nat n - 1)) == 20000)%Q /\
            (15000 <= delay <= 25000)%Q).
Proof.
  intros Hp Hs Hr w' n jitter delay.
  assert (Hfields : scanState w' = PAUSED_ERROR /\ consecutiveErrorCount w' = n /\
            exists h, retryTimerId w' = Some h /\
                      In (h, CbRetry (retryDelay n random)) (pendingCallbacks w')).
  { subst w' n. unfold captureAndAnalyze_resume, catchBlock. rewrite Hp.
    open_world w. cbn in Hs. subst st.
    destruct rt; cbn; (split; [reflexivity|]); (split; [reflexivity|]);
      eexists; (split; [reflexivity|]); apply in_or_app; right; left;
      reflexivity. }
  destruct Hfields as (H1 & H2 & H3).
  split; [exact H1|]. split; [exact H2|]. split; [exact H3|].
  split; [apply (retryJitter_bounds Hr)|].
  split; [apply (retryDelay_le_max n random)|].
  intros Hn. split.
  - rewrite Hn. reflexivity.
  - unfold delay. rewrite Hn. apply (retryDelay_third Hr).
Qed.

(** C8 at the third failure in a row of a camera scan ([twiceFailed] awaits
    the third request), with jitter 1. *)
Lemma retry_backoff_witness :
  reachableByClicks twiceFailed /\
  wasStreamingScan blackCrop = true /\
  scanState twiceFailed = ANALYZING /\
  consecutiveErrorCount twiceFailed = 2 /\
  scanState (captureAndAnalyze_resume blackCrop (Threw AbortError) (1 # 2)%Q
               cameraEnv twiceFailed) = PAUSED_ERROR /\
  consecutiveErrorCount
    (captureAndAnalyze_resume blackCrop (Threw AbortError) (1 # 2)%Q
       cameraEnv twiceFailed) = 3.
Proof.
  assert (Hs : scanState twiceFailed = ANALYZING) by (vm_compute; reflexivity).
  assert (Hr : (0 <= 1 # 2 < 1)%Q) by (split; lra).
  destruct (@retry_backoff blackCrop AbortError (1 # 2)%Q cameraEnv twiceFailed
              eq_refl Hs Hr) as (H1 & H2 & _).
  split; [exact clicks_twiceFailed|].
  split; [reflexivity|]. split; [exact Hs|].
  split; [vm_compute; reflexivity|]. split; [exact H1|exact H2].
Defined.

(* ------------------------------------------------------------------ *)
(** ** The per-day limit *)

(** C9, at the state [analyzingCamera] (a one-shot camera scan awaits its
    request) and a 429 answer with [limit_type] ["daily"]: the [try] block
    disables the scan button, the [finally] block then moves to [IDLE] and
    [syncUI] enables the button again, so that the next press of the button
    starts a scan.  No countdown and no retry is started: the only callbacks
    left are the two of the capture itself. *)
Theorem daily_limit_button_enabled_again :
  reachableByClicks analyzingCamera /\
  scanState analyzingCamera = ANALYZING /\
  btnScanDisabled
    (fst (tryBlock blackCrop cameraEnv 429%Z (Some dailyQuotaBody) None
            analyzingCamera)) = true /\
  btnScanDisabled dailyLimited = false /\
  scanState dailyLimited = IDLE /\
  cooldownTimerId dailyLimited = None /\
  retryTimerId dailyLimited = None /\
  pendingCallbacks dailyLimited
  = [(22%positive, CbCaptureReset "text"%string); (23%positive, CbScanLoop)] /\
  scanState (step cameraEnv (ClickScan 5000%Z) dailyLimited) = SCANNING.
Proof.
  split; [exact clicks_analyzingCamera|].
  vm_compute. repeat split.
Qed.

(* ------------------------------------------------------------------ *)
(** ** The first capture of a scan *)

Lemma sameAsLastSent_none cur w :
  lastSentImageHash w = None -> sameAsLastSent cur w = false.
Proof. unfold sameAsLastSent. now intros ->. Qed.

Lemma clearHandle_scanRafId_frame w :
  lastSentImageHash (clearHandle scanRafId set_scanRafId w) = lastSentImageHash w /\
  inFlight (clearHandle scanRafId set_scanRafId w) = inFlight w /\
  scanState (clearHandle scanRafId set_scanRafId w) = scanState w.
Proof. unfold clearHandle. destruct (scanRafId w); repeat split. Qed.

Lemma capture_lastSent_none env w :
  lastSentImageHash w = None -> lastSentImageHash (captureAndAnalyze env w) = None.
Proof.
  intros Hn. pose proof (captureAndAnalyze_eq env w) as E.
  unfold captureAndAnalyze_body in E.
  rewrite sameAsLastSent_transitionTo, (sameAsLastSent_none _ _ Hn) in E.
  destruct (_ || _ || _) in E; injection E as <-; [exact Hn|].
  cbn. destruct (clearHandle_scanRafId_frame (snd (transitionTo ANALYZING w)))
    as (-> & _). now rewrite transitionTo_lastSentImageHash.
Qed.

Lemma transitionTo_ANALYZING_from_SCANNING w :
  scanState w = SCANNING -> scanState (snd (transitionTo ANALYZING w)) = ANALYZING.
Proof. intros H. unfold transitionTo. rewrite H. reflexivity. Qed.

Lemma transitionTo_ok_scanState t w :
  fst (transitionTo t w) = true -> scanState (snd (transitionTo t w)) = t.
Proof.
  unfold transitionTo.
  destruct (ScanState_eqb_spec (scanState w) t) as [E|_]; [intros _; exact E|].
  destruct (negb _); [discriminate|]. intros _. simpl. apply syncUI_scanState.
Qed.

(** A scan that starts has no last-sent hash; the loop leaves it so; and with
    no last-sent hash the gate is not evaluated: a capture whose source is
    ready sends its request.  Against a missing hash, or one of another
    length, [compareImageHash] answers 0. *)
Lemma capture_without_last_hash (env : Env) (w : World) :
  (fst (transitionTo SCANNING w) = true ->
   lastSentImageHash (startScanning env w) = None /\
   (getCurrentSource env = SrcImage -> sourceReady env ->
    inFlight (startScanning env w) = inFlight w ++ [requestOf env])) /\
  (lastSentImageHash w = None ->
   (forall frame, lastSentImageHash (fst (scanLoop env frame w)) = None) /\
   sameAsLastSent (computeImageHash (hashPixels env)) w = false /\
   (sourceReady env -> scanState w = SCANNING ->
    scanState (captureAndAnalyze env w) = ANALYZING /\
    inFlight (captureAndAnalyze env w) = inFlight w ++ [requestOf env])) /\
  (forall a, compareImageHash a None = Some 0%Q /\
             compareImageHash None a = Some 0%Q) /\
  (forall a b, List.length a <> List.length b ->
               compareImageHash (Some a) (Some b) = Some 0%Q).
Proof.
  assert (Hsubmit : forall w0, lastSentImageHash w0 = None -> sourceReady env ->
            scanState w0 = SCANNING ->
            scanState (captureAndAnalyze env w0) = ANALYZING /\
            inFlight (captureAndAnalyze env w0) = inFlight w0 ++ [requestOf env]).
  { intros w0 Hn Hr Hs.
    rewrite capture_submit;
      [|exact Hr|rewrite Hs; discriminate|now apply sameAsLastSent_none].
    cbn.
    destruct (clearHandle_scanRafId_frame (snd (transitionTo ANALYZING w0)))
      as (_ & -> & ->).
    now rewrite transitionTo_inFlight, transitionTo_ANALYZING_from_SCANNING. }
  split; [intros H; split|split; [intros H; split; [|split]|split]].
  - pose proof (startScanning_eq env w) as E. unfold startScanning_body in E.
    rewrite isApiLimitReached_false in E.
    pose proof (transitionTo_lastSentImageHash SCANNING w) as Hfr.
    destruct (transitionTo SCANNING w) as [okb w1]. cbn in H. subst okb.
    cbn [negb] in E. cbn in Hfr.
    destruct (Source_eqb (getCurrentSource env) SrcImage) eqn:Hsrc.
    + cbn [op_captureAndAnalyze theOps] in E. injection E as <-.
      now apply capture_lastSent_none.
    + injection E as <-. unfold cancelIfSet. destruct (scanRafId _); reflexivity.
  - intros Hsrc Hr.
    pose proof (startScanning_eq env w) as E. unfold startScanning_body in E.
    rewrite isApiLimitReached_false, Hsrc in E.
    pose proof (transitionTo_inFlight SCANNING w) as Hfl.
    pose proof (transitionTo_ok_scanState SCANNING w H) as Hst.
    destruct (transitionTo SCANNING w) as [okb w1]. cbn in H, Hfl, Hst. subst okb.
    cbn [negb Source_eqb op_captureAndAnalyze theOps] in E. injection E as <-.
    destruct (Hsubmit (set_lastSentImageHash None (set_consecutiveErrorCount 0 w1)))
      as (_ & ->); auto.
    cbn. now rewrite Hfl.
  - intros frame. unfold scanLoop, checkStabilityAndCapture, onMotion.
    repeat (first [break_if | match goal with
      | |- context [match ?x with Some _ => _ | None => _ end] => destruct x
      | |- context [let (_, _) := ?x in _] => destruct x eqn:?
      end]); cbn; rewrite ?transitionTo_lastSentImageHash; try assumption;
      try (apply capture_lastSent_none; cbn; assumption).
  - apply sameAsLastSent_none. exact H.
  - intros Hr Hs. apply Hsubmit; assumption.
  - intros a. split; destruct a; reflexivity.
  - intros a b Hne. unfold compareImageHash.
    apply Nat.eqb_neq in Hne. now rewrite Hne.
Qed.


(** On a fresh page with the camera. *)
Lemma capture_without_last_hash_fresh :
  fst (transitionTo SCANNING initial) = true /\
  lastSentImageHash (startScanning cameraEnv initial) = None /\
  sourceReady cameraEnv /\
  scanState (startScanning cameraEnv initial) = SCANNING /\
  inFlight (captureAndAnalyze cameraEnv (startScanning cameraEnv initial))
  = inFlight (startScanning cameraEnv initial) ++ [requestOf cameraEnv].
Proof.
  assert (Hr : sourceReady cameraEnv) by (unfold sourceReady; simpl; lia).
  destruct (capture_without_last_hash cameraEnv initial) as (Hstart & _).
  destruct (Hstart eq_refl) as (Hnone & _).
  destruct (capture_without_last_hash cameraEnv (startScanning cameraEnv initial))
    as (_ & Hfirst & _).
  destruct (Hfirst Hnone) as (_ & _ & Hsub).
  assert (Hs : scanState (startScanning cameraEnv initial) = SCANNING)
    by (vm_compute; reflexivity).
  destruct (Hsub Hr Hs) as (_ & Hfl).
  repeat split; assumption.
Defined.

(** C10 fails when the answer to a request of an earlier scan arrives after
    the next scan has started.  At [secondScan] the scan has just started:
    no last-sent hash is stored, and the request of the scan before, which
    the hidden page stopped, is still awaited.  Left alone, the loop sees 21
    black frames and the capture sends its request.  But when the awaited
    answer arrives first, with [ok] true, it stores the hash of its crop
    ([lateAnswer]); the capture at the 21st frame, the first of this scan,
    then finds the crop unchanged, sends nothing and stops the scan. *)
Theorem late_answer_suppresses_first_capture :
  reachableByClicks secondScan /\ reachableByClicks lateAnswer /\
  scanState secondScan = SCANNING /\
  lastSentImageHash secondScan = None /\
  inFlight secondScan = [blackCrop] /\
  snd (runLoop cameraEnv (repeat blackFrame 21) secondScan)
  = repeat false 20 ++ [true] /\
  inFlight (fst (runLoop cameraEnv (repeat blackFrame 21) secondScan))
  = [blackCrop; requestOf cameraEnv] /\
  scanState lateAnswer = SCANNING /\
  lastSentImageHash lateAnswer = Some (currentHash blackCrop) /\
  inFlight lateAnswer = [] /\
  snd (runLoop cameraEnv (repeat blackFrame 21) lateAnswer)
  = repeat false 20 ++ [true] /\
  scanState (fst (runLoop cameraEnv (repeat blackFrame 21) lateAnswer)) = IDLE /\
  inFlight (fst (runLoop cameraEnv (repeat blackFrame 21) lateAnswer)) = [].
Proof.
  split; [exact clicks_secondScan|]. split; [exact clicks_lateAnswer|].
  vm_compute. repeat split.
Qed.

(* ------------------------------------------------------------------ *)
(** ** The stability detector *)



Lemma Qltb_true a b : Qltb a b = true <-> (a < b)%Q.
Proof.
  unfold Qltb. rewrite negb_true_iff. split.
  - intros H. apply Qnot_le_lt. intros Hle.
    apply Qle_bool_iff in Hle. congruence.
  - intros H. destruct (Qle_bool b a) eqn:E; [|reflexivity].
    apply Qle_bool_iff in E. exfalso. apply (Qlt_not_le _ _ H E).
Qed.

Lemma Qltb_false a b : Qltb a b = false <-> (b <= a)%Q.
Proof.
  unfold Qltb. rewrite negb_false_iff. apply Qle_bool_iff.
Qed.






(** Outside [SCANNING] and [PAUSED_DUPLICATE] the loop does nothing. *)
Lemma scanLoop_off env frame w :
  scanState w <> SCANNING -> scanState w <> PAUSED_DUPLICATE ->
  scanLoop env frame w = (w, false).
Proof.
  intros H1 H2. unfold scanLoop.
  apply ScanState_eqb_neq in H1, H2. now rewrite H1, H2.
Qed.


Lemma runLoop_length env frames : forall w,
  List.length (snd (runLoop env frames w)) = List.length frames.
Proof.
  induction frames as [|f fs IH]; intros w; cbn [runLoop]; [reflexivity|].
  destruct (scanLoop env (Some f) w) as [w1 fired].
  specialize (IH w1). destruct (runLoop env fs w1). cbn in *. now rewrite IH.
Qed.








Lemma nth_repeat_false n i : nth i (repeat false n) false = false.
Proof. revert i. induction n; intros [|i]; cbn; auto. Qed.







(* ------------------------------------------------------------------ *)
(** ** The confidence suffix *)

Section ConfidenceSuffix.
Local Open Scope string_scope.

Lemma append_assoc (a b c : string) : (a ++ b) ++ c = a ++ b ++ c.
Proof. induction a as [|x a IH]; [reflexivity|]. cbn. now rewrite IH. Qed.



Lemma skipSpaces_stops s : stops isSpace (skipSpaces s).
Proof.
  induction s as [|c t IH]; [exact I|].
  cbn [skipSpaces]. destruct (isSpace c) eqn:Hc; [exact IH|exact Hc].
Qed.










End ConfidenceSuffix.

(* ------------------------------------------------------------------ *)
(** ** The result fingerprint *)

Lemma insertSorted_perm x l : Permutation (insertSorted x l) (x :: l).
Proof.
  induction l as [|y l IH]; cbn; [reflexivity|].
  destruct (String.leb x y); [reflexivity|].
  rewrite IH. apply perm_swap.
Qed.

Lemma sort_perm l : Permutation (sort l) l.
Proof.
  induction l as [|x l IH]; cbn; [reflexivity|].
  rewrite insertSorted_perm. now constructor.
Qed.

Lemma insertSorted_sorted x l :
  Sorted lebTrue l -> Sorted lebTrue (insertSorted x l).
Proof.
  induction 1 as [|y l Hs IH Hhd]; cbn; [repeat constructor|].
  destruct (String.leb x y) eqn:E.
  - constructor; [now constructor|now constructor].
  - constructor; [exact IH|].
    assert (Hyx : lebTrue y x)
      by (destruct (String.leb_total x y) as [H|H]; [congruence|exact H]).
    destruct l as [|z l]; cbn; [now constructor|].
    destruct (String.leb x z); constructor; [exact Hyx|].
    now inversion Hhd.
Qed.

Lemma sort_sorted l : Sorted lebTrue (sort l).
Proof.
  induction l as [|x l IH]; cbn; [constructor|].
  now apply insertSorted_sorted.
Qed.




Lemma noteFingerprint_repeat f w :
  orNull (Some f) = Some f -> lastResultFingerprint w = Some f ->
  duplicateCount (fst (noteFingerprint (Some f) w)) = S (duplicateCount w) /\
  lastResultFingerprint (fst (noteFingerprint (Some f) w)) = Some f /\
  snd (noteFingerprint (Some f) w)
  = (DUPLICATE_SKIP_COUNT w <=? S (duplicateCount w)).
Proof.
  intros Hf Hl. unfold noteFingerprint. rewrite Hf, Hl, String.eqb_refl.
  cbn. auto.
Qed.

Lemma noteFingerprint_new f w :
  orNull (Some f) = Some f -> lastResultFingerprint w <> Some f ->
  duplicateCount (fst (noteFingerprint (Some f) w)) = 1 /\
  lastResultFingerprint (fst (noteFingerprint (Some f) w)) = Some f /\
  snd (noteFingerprint (Some f) w) = false.
Proof.
  intros Hf Hl. unfold noteFingerprint. rewrite Hf.
  destruct (lastResultFingerprint w) as [l|]; cbn.
  - destruct (String.eqb_spec f l) as [->|_]; [congruence|]. cbn. auto.
  - auto.
Qed.







(* ------------------------------------------------------------------ *)
(** ** A restart is queued only during a cooldown *)

Lemma total_keep_down env w :
  flagDown w ->
  flagDown (stopScanning env w) /\ flagDown (stopCooldownCountdown env w) /\
  flagDown (startScanning env w) /\ flagDown (captureAndAnalyze env w).
Proof.
  intros Hw.
  destruct (ops_answer_down 5) as (A1 & A2 & A3 & A4).
  destruct (@ops_run 9 env w) as (E1 & E2 & E3 & E4); [lia|].
  destruct (A1 env w Hw) as (w1 & F1 & D1), (A2 env w Hw) as (w2 & F2 & D2),
           (A3 env w Hw) as (w3 & F3 & D3), (A4 env w Hw) as (w4 & F4 & D4).
  cbn [Nat.add] in F1, F2, F3, F4.
  rewrite E1 in F1. rewrite E2 in F2. rewrite E3 in F3. rewrite E4 in F4.
  injection F1 as <-. injection F2 as <-. injection F3 as <-. injection F4 as <-.
  auto.
Qed.

(** The countdown ends with the flag down, whatever the state before. *)
Lemma stopCooldownCountdown_flagDown env w :
  flagDown (stopCooldownCountdown env w).
Proof.
  pose proof (stopCooldownCountdown_eq env w) as E.
  unfold stopCooldownCountdown_body in E.
  destruct (shouldRestartAfterCooldown (haltCountdown w)) eqn:Hf.
  - cbn [op_startScanning theOps] in E. injection E as <-.
    now apply total_keep_down.
  - injection E as <-. exact Hf.
Qed.

Lemma stopScanning_flagDown env w : flagDown (stopScanning env w).
Proof.
  pose proof (stopScanning_eq env w) as E. unfold stopScanning_body in E.
  cbn [op_stopCooldownCountdown theOps] in E. injection E as <-.
  apply stopCooldownCountdown_flagDown.
Qed.

Lemma startCooldownCountdown_flagDown env seconds w :
  flagDown (startCooldownCountdown env seconds w).
Proof. unfold startCooldownCountdown. apply stopCooldownCountdown_flagDown. Qed.

Lemma scheduleRetry_flag random w :
  shouldRestartAfterCooldown (scheduleRetry random w) = shouldRestartAfterCooldown w.
Proof.
  unfold scheduleRetry, cancelIfSet. break_if; [reflexivity|].
  destruct (retryTimerId w); reflexivity.
Qed.

Lemma noteFingerprint_flag fp w :
  shouldRestartAfterCooldown (fst (noteFingerprint fp w))
  = shouldRestartAfterCooldown w /\
  scanState (fst (noteFingerprint fp w)) = scanState w.
Proof.
  unfold noteFingerprint.
  destruct (orNull fp), (lastResultFingerprint w); cbn;
    try break_if; auto.
Qed.

Lemma finallyBlock_flag p l w :
  shouldRestartAfterCooldown (finallyBlock p l w) = shouldRestartAfterCooldown w.
Proof.
  unfold finallyBlock. repeat break_if; cbn; rewrite ?transitionTo_flag;
    reflexivity.
Qed.

Lemma finallyBlock_off p l w :
  scanState w <> ANALYZING -> finallyBlock p l w = w.
Proof.
  intros H. unfold finallyBlock. apply ScanState_eqb_neq in H. now rewrite H.
Qed.

(** A state with a restart queued is in [COOLDOWN]; what the page does next
    either leaves the flag and the state alone or puts the flag down. *)
Lemma queued_keep (w w' : World) :
  queuedOnlyInCooldown w ->
  (shouldRestartAfterCooldown w' = shouldRestartAfterCooldown w /\
   scanState w' = scanState w) \/ flagDown w' ->
  queuedOnlyInCooldown w'.
Proof.
  unfold queuedOnlyInCooldown, flagDown. intros Hi [[Hf Hs]|Hd] H.
  - rewrite Hs. apply Hi. congruence.
  - congruence.
Qed.

Lemma transitionTo_from_cooldown t w :
  scanState w = COOLDOWN -> t <> IDLE -> t <> SCANNING ->
  snd (transitionTo t w) = w.
Proof.
  intros Hs H1 H2. unfold transitionTo. rewrite Hs.
  destruct t; try congruence; reflexivity.
Qed.

Lemma resume_queued p outcome random env w :
  queuedOnlyInCooldown w ->
  queuedOnlyInCooldown (captureAndAnalyze_resume p outcome random env w).
Proof.
  intros Hi. unfold captureAndAnalyze_resume.
  set (w0 := set_inFlight (settle p (inFlight w)) w).
  assert (Hi0 : queuedOnlyInCooldown w0) by exact Hi.
  clearbody w0. clear Hi w.
  destruct (shouldRestartAfterCooldown w0) eqn:Hf.
  - (* a restart is queued: the state is COOLDOWN *)
    pose proof (Hi0 Hf) as Hs.
    destruct outcome as [err|status body header].
    + unfold catchBlock. destruct (wasStreamingScan p).
      * rewrite transitionTo_from_cooldown by (assumption || discriminate).
        unfold scheduleRetry. rewrite Hs. cbn [ScanState_eqb negb fst snd].
        rewrite finallyBlock_off by (rewrite Hs; discriminate). exact Hi0.
      * rewrite finallyBlock_off by (rewrite Hs; discriminate). exact Hi0.
    + unfold tryBlock. destruct body as [result|].
      * destruct (status =? 429)%Z.
        -- destruct (isDaily result).
           ++ rewrite finallyBlock_off by (cbn; rewrite Hs; discriminate).
              apply (queued_keep Hi0). left. split; reflexivity.
           ++ intros H. rewrite finallyBlock_flag in H.
              rewrite startCooldownCountdown_flagDown in H. discriminate.
        -- destruct (ok result).
           ++ match goal with |- context [noteFingerprint ?f ?x] =>
                destruct (noteFingerprint_flag f x) as (Nf & Ns);
                destruct (noteFingerprint f x) as [w1 pending] end.
              cbn [fst snd] in *.
              rewrite finallyBlock_off by (rewrite Ns; cbn; rewrite Hs; discriminate).
              apply (queued_keep Hi0). left. split; assumption.
           ++ rewrite finallyBlock_off by (rewrite Hs; discriminate). exact Hi0.
      * rewrite finallyBlock_off by (rewrite Hs; discriminate). exact Hi0.
  - (* no restart is queued, and none is after *)
    apply (queued_keep Hi0). right. unfold flagDown.
    destruct outcome as [err|status body header].
    + unfold catchBlock. destruct (wasStreamingScan p); cbn [fst snd];
        rewrite finallyBlock_flag, ?scheduleRetry_flag, ?transitionTo_flag;
        exact Hf.
    + unfold tryBlock. destruct body as [result|].
      * destruct (status =? 429)%Z.
        -- destruct (isDaily result); rewrite finallyBlock_flag;
             [exact Hf|apply startCooldownCountdown_flagDown].
        -- destruct (ok result).
           ++ match goal with |- context [noteFingerprint ?f ?x] =>
                destruct (noteFingerprint_flag f x) as (Nf & Ns);
                destruct (noteFingerprint f x) as [w1 pending] end.
              cbn [fst snd] in *. rewrite finallyBlock_flag, Nf. exact Hf.
           ++ rewrite finallyBlock_flag. exact Hf.
      * rewrite finallyBlock_flag. exact Hf.
Qed.

Lemma queued_flag_cases w :
  queuedOnlyInCooldown w ->
  (shouldRestartAfterCooldown w = true /\ scanState w = COOLDOWN) \/ flagDown w.
Proof.
  intros Hi. unfold flagDown.
  destruct (shouldRestartAfterCooldown w) eqn:Hf; auto.
Qed.

Lemma cancel_frame h w :
  shouldRestartAfterCooldown (cancel h w) = shouldRestartAfterCooldown w /\
  scanState (cancel h w) = scanState w.
Proof. split; reflexivity. Qed.

Lemma onMotion_flag w :
  shouldRestartAfterCooldown (onMotion w) = shouldRestartAfterCooldown w.
Proof.
  unfold onMotion. repeat break_if; cbn; rewrite ?transitionTo_flag; reflexivity.
Qed.

Lemma scanLoop_keep_down env frame w :
  flagDown w -> flagDown (fst (scanLoop env frame w)).
Proof.
  intros Hw. unfold scanLoop, checkStabilityAndCapture, flagDown.
  repeat first
    [ break_if
    | match goal with
      | |- context [match ?x with Some _ => _ | None => _ end] => destruct x
      end ];
    cbn -[captureAndAnalyze onMotion]; rewrite ?onMotion_flag; try exact Hw.
  apply total_keep_down. exact Hw.
Qed.

Lemma scanLoop_queued env frame w :
  queuedOnlyInCooldown w -> queuedOnlyInCooldown (fst (scanLoop env frame w)).
Proof.
  intros Hi. destruct (queued_flag_cases Hi) as [[Hf Hs]|Hd].
  - rewrite scanLoop_off by (rewrite Hs; discriminate). exact Hi.
  - apply (queued_keep Hi). right. now apply scanLoop_keep_down.
Qed.

Lemma retryTimerFired_queued w :
  queuedOnlyInCooldown w -> queuedOnlyInCooldown (retryTimerFired w).
Proof.
  intros Hi. apply (queued_keep Hi). unfold retryTimerFired.
  destruct (queued_flag_cases Hi) as [[Hf Hs]|Hd].
  - left. cbn [scanState set_retryTimerId]. rewrite Hs.
    cbn [ScanState_eqb]. split; [reflexivity|exact Hs].
  - right. unfold flagDown, cancelIfSet. break_if; [|exact Hd].
    cbn. destruct (scanRafId _); cbn; rewrite transitionTo_flag; exact Hd.
Qed.

Lemma continuousDelayFired_queued w :
  queuedOnlyInCooldown w -> queuedOnlyInCooldown (continuousDelayFired w).
Proof.
  intros Hi. apply (queued_keep Hi). left. unfold continuousDelayFired.
  break_if; split; reflexivity.
Qed.

Lemma cooldownTick_queued env w :
  queuedOnlyInCooldown w -> queuedOnlyInCooldown (cooldownTick env w).
Proof.
  intros Hi. apply (queued_keep Hi). unfold cooldownTick. break_if.
  - right. apply stopCooldownCountdown_flagDown.
  - left. split; reflexivity.
Qed.

Lemma captureResetFired_queued capturedMode w :
  queuedOnlyInCooldown w -> queuedOnlyInCooldown (captureResetFired capturedMode w).
Proof.
  intros Hi. apply (queued_keep Hi). left. unfold captureResetFired.
  break_if; split; reflexivity.
Qed.

Lemma fire_queued h env frame w :
  queuedOnlyInCooldown w -> queuedOnlyInCooldown (fire h env frame w).
Proof.
  intros Hi. unfold fire.
  assert (Hc : queuedOnlyInCooldown (cancel h w)) by exact Hi.
  destruct (callbackOf h w) as [[| | | |]|];
    auto using scanLoop_queued, retryTimerFired_queued,
      continuousDelayFired_queued, cooldownTick_queued, captureResetFired_queued.
Qed.

Lemma toggleScanning_queued now env w :
  queuedOnlyInCooldown w -> queuedOnlyInCooldown (toggleScanning now env w).
Proof.
  intros Hi. unfold toggleScanning. break_if; [exact Hi|].
  cbn [scanState set_lastToggleTime].
  destruct (scanState w) eqn:Hs; cbn [ScanState_eqb negb].
  - (* IDLE: no restart is queued *)
    destruct (queued_flag_cases Hi) as [[_ Hc]|Hd]; [congruence|].
    intros H.
    assert (Hd' : flagDown (set_lastToggleTime now w)) by exact Hd.
    destruct (total_keep_down env Hd') as (_ & _ & E & _).
    rewrite E in H. discriminate.
  - intros H. rewrite stopScanning_flagDown in H. discriminate.
  - exact Hi.
  - intros H. rewrite stopScanning_flagDown in H. discriminate.
  - intros H. rewrite stopScanning_flagDown in H. discriminate.
  - intros _. exact Hs.
Qed.

Lemma setMode_queued mode w :
  queuedOnlyInCooldown w -> queuedOnlyInCooldown (setMode mode w).
Proof.
  intros Hi. unfold setMode.
  destruct (queued_flag_cases Hi) as [[Hf Hs]|Hd].
  - apply (queued_keep Hi). left. cbn [scanState set_currentMode].
    rewrite Hs. cbn. auto.
  - apply (queued_keep Hi). right. unfold flagDown.
    break_if; cbn; rewrite ?transitionTo_flag; exact Hd.
Qed.

Lemma onSliderInput_queued val w :
  queuedOnlyInCooldown w -> queuedOnlyInCooldown (onSliderInput val w).
Proof.
  intros Hi. unfold onSliderInput, setDuplicateSkipCount, resetDuplicateState.
  destruct (queued_flag_cases Hi) as [[Hf Hs]|Hd].
  - apply (queued_keep Hi). left. cbn [scanState set_DUPLICATE_SKIP_COUNT].
    rewrite Hs. cbn. auto.
  - apply (queued_keep Hi). right. unfold flagDown.
    break_if; cbn; rewrite ?transitionTo_flag; exact Hd.
Qed.

Lemma onLeave_queued env w :
  queuedOnlyInCooldown w -> queuedOnlyInCooldown (onLeave env w).
Proof.
  intros Hi. unfold onLeave. break_if; [|exact Hi].
  intros H. rewrite stopScanning_flagDown in H. discriminate.
Qed.

Lemma step_queued env ev w :
  queuedOnlyInCooldown w -> queuedOnlyInCooldown (step env ev w).
Proof.
  intros Hi. destruct ev; cbn [step].
  - now apply toggleScanning_queued.
  - exact Hi.
  - now apply setMode_queued.
  - now apply onSliderInput_queued.
  - now apply onLeave_queued.
  - now apply fire_queued.
  - break_if; [now apply resume_queued|exact Hi].
Qed.

(** Whatever happens to the page, a restart is queued only while the state is
    [COOLDOWN]: when a capture is started (from [SCANNING]) none is. *)
Lemma reachable_queued w : reachable w -> queuedOnlyInCooldown w.
Proof.
  induction 1 as [|env ev w _ IH]; [intros H; discriminate H|].
  now apply step_queued.
Qed.

Lemma reachable_flagDown w :
  reachable w -> scanState w <> COOLDOWN -> flagDown w.
Proof.
  intros Hr Hs. destruct (queued_flag_cases (reachable_queued Hr)) as [[_ E]|Hd];
    [contradiction|exact Hd].
Qed.

(* ------------------------------------------------------------------ *)
(** ** The scan button during a cooldown *)

Lemma disabled_off w : scanState w <> COOLDOWN -> disabledInCooldown w.
Proof. intros H E. contradiction. Qed.

Lemma disabled_keep w w' :
  disabledInCooldown w -> scanState w' = scanState w ->
  btnScanDisabled w' = btnScanDisabled w -> disabledInCooldown w'.
Proof. unfold disabledInCooldown. intros H -> ->. exact H. Qed.

Lemma transitionTo_disabled t w :
  disabledInCooldown w -> disabledInCooldown (snd (transitionTo t w)).
Proof.
  intros H. unfold transitionTo. repeat break_if; cbn [snd]; try exact H.
  unfold disabledInCooldown. destruct t; cbn; intros E;
    first [discriminate E | reflexivity].
Qed.

Lemma clearHandle_ui get set w :
  (forall v w', scanState (set v w') = scanState w') ->
  (forall v w', btnScanDisabled (set v w') = btnScanDisabled w') ->
  scanState (clearHandle get set w) = scanState w /\
  btnScanDisabled (clearHandle get set w) = btnScanDisabled w.
Proof.
  intros H1 H2. unfold clearHandle.
  destruct (get w); [rewrite H1, H2|]; split; reflexivity.
Qed.

Lemma cancelIfSet_ui get w :
  scanState (cancelIfSet get w) = scanState w /\
  btnScanDisabled (cancelIfSet get w) = btnScanDisabled w.
Proof. unfold cancelIfSet. destruct (get w); split; reflexivity. Qed.

Lemma clearHandle_disabled get set w :
  (forall v w', scanState (set v w') = scanState w') ->
  (forall v w', btnScanDisabled (set v w') = btnScanDisabled w') ->
  disabledInCooldown w -> disabledInCooldown (clearHandle get set w).
Proof.
  intros H1 H2 H. destruct (clearHandle_ui get set w H1 H2) as (E1 & E2).
  exact (disabled_keep _ H E1 E2).
Qed.

Lemma cancelIfSet_disabled get w :
  disabledInCooldown w -> disabledInCooldown (cancelIfSet get w).
Proof.
  intros H. destruct (cancelIfSet_ui get w) as (E1 & E2).
  exact (disabled_keep _ H E1 E2).
Qed.

Lemma haltCountdown_disabled w :
  disabledInCooldown w -> disabledInCooldown (haltCountdown w).
Proof.
  intros H. unfold haltCountdown. break_if.
  - apply disabled_off. cbn. discriminate.
  - unfold clearHandle. destruct (cooldownTimerId w);
      apply (disabled_keep _ H); reflexivity.
Qed.

Lemma stop_disabled rec :
  keepsDisabled (op_stopCooldownCountdown rec) -> keepsDisabled (stopScanning_body rec).
Proof.
  intros Hrec env w w' _. unfold stopScanning_body.
  match goal with |- context [op_stopCooldownCountdown rec env ?x] =>
    assert (H0 : disabledInCooldown x);
      [|destruct (op_stopCooldownCountdown rec env x) as [w1|] eqn:E1;
        [pose proof (Hrec env x w1 H0 E1) as H1|discriminate]]
  end.
  - apply disabled_off.
    rewrite (proj1 (@clearHandle_ui continuousDelayTimerId
                      set_continuousDelayTimerId _
                      ltac:(reflexivity) ltac:(reflexivity))).
    rewrite (proj1 (@clearHandle_ui retryTimerId set_retryTimerId _
                      ltac:(reflexivity) ltac:(reflexivity))).
    rewrite (proj1 (@clearHandle_ui scanRafId set_scanRafId _
                      ltac:(reflexivity) ltac:(reflexivity))).
    cbn. discriminate.
  - intros E. injection E as <-. apply (disabled_keep _ H1); reflexivity.
Qed.

Lemma countdown_disabled rec :
  keepsDisabled (op_startScanning rec) ->
  keepsDisabled (stopCooldownCountdown_body rec).
Proof.
  intros Hrec env w w' Hw E. unfold stopCooldownCountdown_body in E.
  pose proof (haltCountdown_disabled Hw) as H1.
  destruct (shouldRestartAfterCooldown (haltCountdown w)).
  - refine (Hrec env _ w' _ E). apply (disabled_keep _ H1); reflexivity.
  - injection E as <-. exact H1.
Qed.

Lemma requestScanLoop_disabled w :
  disabledInCooldown w -> disabledInCooldown (requestScanLoop w).
Proof. intros H. apply (disabled_keep _ H); reflexivity. Qed.

Lemma start_disabled rec :
  keepsDisabled (op_captureAndAnalyze rec) -> keepsDisabled (startScanning_body rec).
Proof.
  intros Hrec env w w' Hw E. unfold startScanning_body in E.
  rewrite isApiLimitReached_false in E.
  pose proof (transitionTo_disabled SCANNING Hw) as H1.
  destruct (transitionTo SCANNING w) as [okb w1]. cbn [snd] in H1.
  destruct okb; cbn [negb] in E.
  - destruct (Source_eqb (getCurrentSource env) SrcImage).
    + refine (Hrec env _ w' _ E). apply (disabled_keep _ H1); reflexivity.
    + injection E as <-. apply requestScanLoop_disabled, cancelIfSet_disabled.
      apply (disabled_keep _ H1); reflexivity.
  - injection E as <-. exact H1.
Qed.

Lemma capture_disabled rec :
  keepsDisabled (op_stopScanning rec) -> keepsDisabled (captureAndAnalyze_body rec).
Proof.
  intros Hrec env w w' Hw E. unfold captureAndAnalyze_body in E.
  pose proof (transitionTo_disabled ANALYZING Hw) as H1.
  destruct (_ || _ || _); [injection E as <-; exact Hw|].
  destruct (sameAsLastSent _ _).
  - destruct (_ && _).
    + injection E as <-. apply requestScanLoop_disabled.
      pose proof (transitionTo_disabled SCANNING H1) as H2.
      apply (disabled_keep _ H2); reflexivity.
    + exact (Hrec env _ w' H1 E).
  - injection E as <-.
    pose proof (@clearHandle_disabled scanRafId set_scanRafId _
                  ltac:(reflexivity) ltac:(reflexivity) H1) as H2.
    apply (disabled_keep _ H2); reflexivity.
Qed.

Lemma ops_disabled k :
  keepsDisabled (op_stopScanning (ops k)) /\
  keepsDisabled (op_stopCooldownCountdown (ops k)) /\
  keepsDisabled (op_startScanning (ops k)) /\
  keepsDisabled (op_captureAndAnalyze (ops k)).
Proof.
  induction k as [|k (I1 & I2 & I3 & I4)].
  - repeat split; intros env w w' _ E; discriminate E.
  - cbn [ops op_stopScanning op_stopCooldownCountdown op_startScanning
         op_captureAndAnalyze].
    auto using stop_disabled, countdown_disabled, start_disabled, capture_disabled.
Qed.

Lemma run_disabled f env w :
  keepsDisabled (f (ops callDepth)) ->
  disabledInCooldown w -> disabledInCooldown (run f env w).
Proof.
  intros Hf Hw. unfold run.
  destruct (f (ops callDepth) env w) as [w'|] eqn:E; [exact (Hf env w w' Hw E)|exact Hw].
Qed.

Lemma total_disabled env w :
  disabledInCooldown w ->
  disabledInCooldown (stopScanning env w) /\
  disabledInCooldown (stopCooldownCountdown env w) /\
  disabledInCooldown (startScanning env w) /\
  disabledInCooldown (captureAndAnalyze env w).
Proof.
  intros Hw. destruct (ops_disabled callDepth) as (I1 & I2 & I3 & I4).
  repeat split; apply run_disabled; assumption.
Qed.

Ltac keep H := apply (disabled_keep _ H); reflexivity.

Ltac keep_transition H :=
  match goal with
  | |- context [transitionTo ?t ?x] =>
      let H0 := fresh in
      let H1 := fresh in
      assert (H0 : disabledInCooldown x) by keep H;
      pose proof (transitionTo_disabled t H0) as H1; keep H1
  end.

Lemma scheduleRetry_disabled random w :
  disabledInCooldown w -> disabledInCooldown (scheduleRetry random w).
Proof.
  intros H. unfold scheduleRetry. break_if; [exact H|].
  unfold cancelIfSet. destruct (retryTimerId w); keep H.
Qed.

Lemma noteFingerprint_disabled fp w :
  disabledInCooldown w -> disabledInCooldown (fst (noteFingerprint fp w)).
Proof.
  intros H. apply (disabled_keep _ H); unfold noteFingerprint;
    destruct (orNull fp), (lastResultFingerprint w); cbn; try break_if;
    reflexivity.
Qed.

Lemma startCooldownCountdown_disabled env seconds w :
  disabledInCooldown w -> disabledInCooldown (startCooldownCountdown env seconds w).
Proof.
  intros H. unfold startCooldownCountdown.
  destruct (total_disabled env H) as (_ & H1 & _). keep H1.
Qed.

Lemma tryBlock_disabled p env status body header w :
  disabledInCooldown w ->
  disabledInCooldown (fst (tryBlock p env status body header w)).
Proof.
  intros H. unfold tryBlock. destruct body as [result|]; [|exact H].
  destruct (status =? 429)%Z.
  - destruct (isDaily result); cbn [fst].
    + intros _. reflexivity.
    + apply startCooldownCountdown_disabled, transitionTo_disabled, H.
  - destruct (ok result); [|exact H].
    match goal with |- context [noteFingerprint ?f ?x] =>
      assert (H1 : disabledInCooldown (fst (noteFingerprint f x)))
        by (apply noteFingerprint_disabled; keep H);
      destruct (noteFingerprint f x) end.
    exact H1.
Qed.

Lemma catchBlock_disabled p random w :
  disabledInCooldown w -> disabledInCooldown (fst (catchBlock p random w)).
Proof.
  intros H. unfold catchBlock. break_if; [|exact H].
  apply scheduleRetry_disabled, transitionTo_disabled, H.
Qed.

Lemma finallyBlock_disabled p l w :
  disabledInCooldown w -> disabledInCooldown (finallyBlock p l w).
Proof.
  intros H. unfold finallyBlock. repeat break_if; try exact H.
  - apply requestScanLoop_disabled; do 2 apply transitionTo_disabled; exact H.
  - pose proof (transitionTo_disabled SCANNING H) as H1. keep H1.
  - apply transitionTo_disabled, H.
Qed.

Lemma resume_disabled p outcome random env w :
  disabledInCooldown w ->
  disabledInCooldown (captureAndAnalyze_resume p outcome random env w).
Proof.
  intros H. unfold captureAndAnalyze_resume.
  assert (H0 : disabledInCooldown (set_inFlight (settle p (inFlight w)) w))
    by keep H.
  destruct outcome as [err|status body header].
  - pose proof (catchBlock_disabled p random H0) as H1.
    destruct (catchBlock _ _ _). now apply finallyBlock_disabled.
  - pose proof (tryBlock_disabled p env status body header H0) as H1.
    destruct (tryBlock _ _ _ _ _ _). now apply finallyBlock_disabled.
Qed.

Lemma onMotion_disabled w : disabledInCooldown w -> disabledInCooldown (onMotion w).
Proof.
  intros H. unfold onMotion. repeat break_if; try keep H; keep_transition H.
Qed.

Lemma checkStabilityAndCapture_disabled env frame w :
  disabledInCooldown w ->
  disabledInCooldown (fst (checkStabilityAndCapture env frame w)).
Proof.
  intros H. unfold checkStabilityAndCapture.
  destruct frame; [|exact H]. destruct (lastFrameData w); [|keep H].
  repeat break_if; cbn [fst]; try keep H.
  - match goal with |- context [captureAndAnalyze env ?x] =>
      assert (Hc : disabledInCooldown (captureAndAnalyze env x))
        by (apply total_disabled; keep H) end.
    keep Hc.
  - pose proof (onMotion_disabled H) as H1. keep H1.
Qed.

Lemma scanLoop_disabled env frame w :
  disabledInCooldown w -> disabledInCooldown (fst (scanLoop env frame w)).
Proof.
  intros H. unfold scanLoop. repeat break_if; cbn [fst]; try exact H; try keep H.
  match goal with |- context [checkStabilityAndCapture env frame ?x] =>
    assert (Hc : disabledInCooldown (fst (checkStabilityAndCapture env frame x)))
      by (apply checkStabilityAndCapture_disabled; keep H);
    destruct (checkStabilityAndCapture env frame x) end.
  cbn [fst] in *. keep Hc.
Qed.

Lemma fire_disabled h env frame w :
  disabledInCooldown w -> disabledInCooldown (fire h env frame w).
Proof.
  intros H. unfold fire.
  assert (Hc : disabledInCooldown (cancel h w)) by keep H.
  destruct (callbackOf h w) as [[| | | |]|]; try exact H.
  - now apply scanLoop_disabled.
  - unfold retryTimerFired. break_if; [|keep Hc].
    apply requestScanLoop_disabled, cancelIfSet_disabled, transitionTo_disabled.
    keep Hc.
  - unfold continuousDelayFired. break_if; keep Hc.
  - unfold cooldownTick. break_if; [|keep H].
    apply total_disabled. keep H.
  - unfold captureResetFired. break_if; [keep Hc|exact Hc].
Qed.

Lemma toggleScanning_disabled now env w :
  disabledInCooldown w -> disabledInCooldown (toggleScanning now env w).
Proof.
  intros H. unfold toggleScanning. break_if; [exact H|].
  assert (H1 : disabledInCooldown (set_lastToggleTime now w)) by keep H.
  repeat break_if; try exact H1; try keep H1; now apply total_disabled.
Qed.

Lemma setMode_disabled mode w :
  disabledInCooldown w -> disabledInCooldown (setMode mode w).
Proof.
  intros H. unfold setMode.
  assert (H1 : disabledInCooldown (set_currentMode mode w)) by keep H.
  break_if; [|keep H1].
  pose proof (transitionTo_disabled SCANNING H1) as H2. keep H2.
Qed.

Lemma onSliderInput_disabled val w :
  disabledInCooldown w -> disabledInCooldown (onSliderInput val w).
Proof.
  intros H. unfold onSliderInput, setDuplicateSkipCount, resetDuplicateState.
  assert (H1 : disabledInCooldown (set_DUPLICATE_SKIP_COUNT val w)) by keep H.
  break_if; [|keep H1].
  pose proof (transitionTo_disabled SCANNING H1) as H2. keep H2.
Qed.

Lemma step_disabled env ev w :
  disabledInCooldown w -> disabledInCooldown (step env ev w).
Proof.
  intros H. destruct ev; cbn [step].
  - now apply toggleScanning_disabled.
  - keep H.
  - now apply setMode_disabled.
  - now apply onSliderInput_disabled.
  - unfold onLeave. break_if; [now apply total_disabled|exact H].
  - now apply fire_disabled.
  - break_if; [now apply resume_disabled|exact H].
Qed.

(** *** No restart is queued by clicks *)

Lemma resume_keep_down p outcome random env w :
  flagDown w -> flagDown (captureAndAnalyze_resume p outcome random env w).
Proof.
  intros Hf. unfold captureAndAnalyze_resume, flagDown.
  set (w0 := set_inFlight (settle p (inFlight w)) w).
  assert (Hf0 : shouldRestartAfterCooldown w0 = false) by exact Hf.
  clearbody w0.
  destruct outcome as [err|status body header].
  - unfold catchBlock. destruct (wasStreamingScan p); cbn [fst snd];
      rewrite finallyBlock_flag, ?scheduleRetry_flag, ?transitionTo_flag;
      exact Hf0.
  - unfold tryBlock. destruct body as [result|].
    + destruct (status =? 429)%Z.
      * destruct (isDaily result); rewrite finallyBlock_flag;
          [exact Hf0|apply startCooldownCountdown_flagDown].
      * destruct (ok result).
        -- match goal with |- context [noteFingerprint ?f ?x] =>
             destruct (noteFingerprint_flag f x) as (Nf & Ns);
             destruct (noteFingerprint f x) as [w1 pending] end.
           cbn [fst snd] in *. rewrite finallyBlock_flag, Nf. exact Hf0.
        -- rewrite finallyBlock_flag. exact Hf0.
    + rewrite finallyBlock_flag. exact Hf0.
Qed.

Lemma fire_keep_down h env frame w : flagDown w -> flagDown (fire h env frame w).
Proof.
  intros Hf. unfold fire.
  assert (Hc : flagDown (cancel h w)) by exact Hf.
  destruct (callbackOf h w) as [[| | | |]|]; try exact Hf.
  - now apply scanLoop_keep_down.
  - unfold retryTimerFired, flagDown, cancelIfSet. break_if; [|exact Hc].
    cbn. destruct (scanRafId _); cbn; rewrite transitionTo_flag; exact Hc.
  - unfold continuousDelayFired. break_if; exact Hc.
  - unfold cooldownTick. break_if; [apply stopCooldownCountdown_flagDown|exact Hf].
  - unfold captureResetFired. break_if; exact Hc.
Qed.

Lemma step_keep_down env ev w :
  flagDown w -> disabledInCooldown w -> happens ev w = true ->
  flagDown (step env ev w).
Proof.
  intros Hf Hd He. destruct ev; cbn [step].
  - unfold toggleScanning. break_if; [exact Hf|].
    cbn [scanState set_lastToggleTime].
    destruct (scanState w) eqn:Hs; cbn [ScanState_eqb negb];
      try apply stopScanning_flagDown; try exact Hf.
    + apply total_keep_down. exact Hf.
    + cbn [happens] in He. rewrite (Hd Hs) in He. discriminate He.
  - exact Hf.
  - unfold setMode, flagDown. break_if; cbn; rewrite ?transitionTo_flag; exact Hf.
  - unfold onSliderInput, setDuplicateSkipCount, resetDuplicateState, flagDown.
    break_if; cbn; rewrite ?transitionTo_flag; exact Hf.
  - unfold onLeave. break_if; [apply stopScanning_flagDown|exact Hf].
  - now apply fire_keep_down.
  - break_if; [now apply resume_keep_down|exact Hf].
Qed.

(** On the page, where a disabled button gets no click, no restart is ever
    queued and the button is disabled throughout a cooldown. *)
Lemma clicks_flagDown w :
  reachableByClicks w -> flagDown w /\ disabledInCooldown w.
Proof.
  induction 1 as [|env ev w _ (Hf & Hd) He].
  - split; [reflexivity|intros E; discriminate E].
  - split; [now apply step_keep_down|now apply step_disabled].
Qed.

(** Hence on the page [stopScanning] is the forced stop of its comment: it
    ends in [IDLE] with the four handles cleared, and so does a second call
    in a row. *)
Lemma stopScanning_idle_by_clicks env w :
  reachableByClicks w ->
  scanState (stopScanning env w) = IDLE /\ noHandles (stopScanning env w) /\
  scanState (stopScanning env (stopScanning env w)) = IDLE /\
  noHandles (stopScanning env (stopScanning env w)).
Proof.
  intros Hr. destruct (clicks_flagDown Hr) as (Hf & _).
  destruct (stopScanning_down_idle env Hf) as (H1 & H2 & H3 & _).
  destruct (stopScanning_down_idle env H3) as (H4 & H5 & _).
  auto.
Qed.

(* ================================================================== *)
(** * Further properties *)

(** ** The transition table *)

(** X1. A call of [transitionTo] that changes the state ends in the state
    asked for, with the scan button disabled exactly in [ANALYZING] and
    [COOLDOWN].  [ANALYZING] is entered from [SCANNING] only,
    [PAUSED_ERROR] and [COOLDOWN] from [ANALYZING] only, and [IDLE] is left
    for [SCANNING] only. *)
Theorem transition_entries (t : ScanState) (w : World) :
  scanState (snd (transitionTo t w)) <> scanState w ->
  fst (transitionTo t w) = true /\
  scanState (snd (transitionTo t w)) = t /\
  btnScanDisabled (snd (transitionTo t w)) = disabledIn t /\
  (t = ANALYZING -> scanState w = SCANNING) /\
  (t = PAUSED_ERROR \/ t = COOLDOWN -> scanState w = ANALYZING) /\
  (scanState w = IDLE -> t = SCANNING).
Proof.
  unfold transitionTo. open_world w. cbn [scanState].
  destruct st, t; cbn; intros H; try (exfalso; apply H; reflexivity);
    repeat split; try reflexivity; try discriminate;
    intros [E|E]; discriminate E.
Qed.

Lemma transition_entries_witness :
  scanState (snd (transitionTo SCANNING initial)) = SCANNING /\
  btnScanDisabled (snd (transitionTo SCANNING initial)) = false.
Proof.
  assert (H : scanState (snd (transitionTo SCANNING initial)) <> scanState initial)
    by (vm_compute; discriminate).
  destruct (transition_entries SCANNING initial H) as (_ & H1 & H2 & _).
  split; [exact H1|exact H2].
Defined.

(* ------------------------------------------------------------------ *)
(** ** The image hash *)

Lemma totalDiff_from acc l :
  fold_left (fun acc ab => (acc + Z.abs (fst ab - snd ab))%Z) l acc
  = (acc + fold_left (fun acc ab => (acc + Z.abs (fst ab - snd ab))%Z) l 0)%Z.
Proof.
  revert acc. induction l as [|x l IH]; intros acc; cbn [fold_left].
  - lia.
  - rewrite IH, (IH (0 + _)%Z). lia.
Qed.

Lemma totalDiff_cons x y a b :
  totalDiff (x :: a) (y :: b) = (Z.abs (x - y) + totalDiff a b)%Z.
Proof.
  unfold totalDiff. cbn [combine fold_left fst snd]. now rewrite totalDiff_from.
Qed.

Lemma totalDiff_sym a : forall b, totalDiff a b = totalDiff b a.
Proof.
  induction a as [|x a IH]; intros [|y b]; try reflexivity.
  rewrite !totalDiff_cons, IH. f_equal. lia.
Qed.

Lemma totalDiff_bounds a : forall b,
  Forall isByte a -> Forall isByte b -> List.length a = List.length b ->
  (0 <= totalDiff a b <= 255 * Z.of_nat (List.length a))%Z /\
  (totalDiff a b = 0%Z <-> a = b).
Proof.
  induction a as [|x a IH]; intros [|y b] Ha Hb Hl; try discriminate Hl.
  - cbn. split; [lia|tauto].
  - inversion Ha as [|? ? Hx Ha']; inversion Hb as [|? ? Hy Hb']; subst.
    injection Hl as Hl. destruct (IH b Ha' Hb' Hl) as (Hr & Hz).
    rewrite totalDiff_cons. unfold isByte in Hx, Hy. cbn [List.length].
    split; [lia|]. split.
    + intros H. assert (x = y) by lia. assert (totalDiff a b = 0%Z) by lia.
      f_equal; [assumption|now apply Hz].
    + intros H. injection H as -> ->. replace (totalDiff b b) with 0%Z
        by (symmetry; now apply Hz). lia.
Qed.

(** X2. The similarity of two hashes does not depend on their order.  For
    two hashes of bytes of one length, not empty, it is a number from 0 to 1,
    and it is 1 exactly when the hashes are equal. *)
Theorem compareImageHash_similarity (a b : list Z) :
  compareImageHash (Some a) (Some b) = compareImageHash (Some b) (Some a) /\
  (Forall isByte a -> Forall isByte b ->
   List.length a = List.length b -> a <> [] ->
   exists q, compareImageHash (Some a) (Some b) = Some q /\
             (0 <= q <= 1)%Q /\ ((q == 1)%Q <-> a = b)).
Proof.
  split.
  - unfold compareImageHash. rewrite (Nat.eqb_sym (List.length b)).
    destruct (Nat.eqb_spec (List.length a) (List.length b)) as [E|_];
      [|reflexivity].
    cbn [negb]. rewrite <- E, (totalDiff_sym a b). reflexivity.
  - intros Ha Hb Hl Hne. unfold compareImageHash.
    rewrite Hl, Nat.eqb_refl. cbn [negb]. rewrite <- Hl.
    destruct (Nat.eqb_spec (List.length a) 0) as [E|E].
    { destruct a; [contradiction|discriminate E]. }
    destruct (totalDiff_bounds Ha Hb Hl) as ((H0 & H1) & Hz).
    set (n := Z.of_nat (List.length a)) in *.
    set (t := totalDiff a b) in *.
    assert (Hn : (0 < n)%Z) by (subst n; lia).
    assert (Hd : (0 < inject_Z (n * 255))%Q)
      by (change 0%Q with (inject_Z 0); rewrite <- Zlt_Qlt; lia).
    eexists. split; [reflexivity|].
    assert (Hq : (0 <= inject_Z t / inject_Z (n * 255) <= 1)%Q).
    { split.
      - apply Qle_shift_div_l; [exact Hd|]. rewrite Qmult_0_l.
        change 0%Q with (inject_Z 0). rewrite <- Zle_Qle. exact H0.
      - apply Qle_shift_div_r; [exact Hd|]. rewrite Qmult_1_l.
        rewrite <- Zle_Qle. lia. }
    split; [split; lra|].
    rewrite <- Hz. split.
    + intros H.
      assert (H2 : (inject_Z t / inject_Z (n * 255) == 0)%Q) by lra.
      assert (H3 : (inject_Z t == 0)%Q).
      { rewrite <- (@Qmult_div_r (inject_Z t) (inject_Z (n * 255))) by lra.
        rewrite H2. ring. }
      unfold Qeq in H3. cbn in H3. lia.
    + intros ->. unfold Qdiv. rewrite Qmult_0_l. ring.
Qed.

Lemma compareImageHash_similarity_witness :
  exists q, compareImageHash (Some [0; 255]%Z) (Some [255; 0]%Z) = Some q /\
            (0 <= q <= 1)%Q /\ ((q == 1)%Q <-> [0; 255]%Z = [255; 0]%Z).
Proof.
  apply (compareImageHash_similarity [0; 255]%Z [255; 0]%Z).
  - repeat constructor; unfold isByte; lia.
  - repeat constructor; unfold isByte; lia.
  - reflexivity.
  - discriminate.
Defined.




(* ------------------------------------------------------------------ *)
(** ** The loop while the scan is paused as a duplicate *)

Lemma clicks_pausedScene : reachableByClicks pausedScene.
Proof.
  unfold pausedScene.
  apply clicks_step; [|reflexivity]. apply clicks_animate, clicks_stillScene.
Qed.

Lemma clicks_pausedBeforeCheck : reachableByClicks pausedBeforeCheck.
Proof. unfold pausedBeforeCheck. apply clicks_animate, clicks_pausedScene. Qed.

Lemma register_pending cb w :
  In (nextHandle w, cb) (pendingCallbacks (snd (register cb w))).
Proof. cbn. apply in_or_app. right. now left. Qed.

(** X4. In [PAUSED_DUPLICATE] the loop looks at one frame in fifteen: at a
    call whose frame count is no multiple of 15 it only counts the frame and
    asks for the next one; the reference frame, the stability counter and
    the duplicate count stay as they are, and no capture starts. *)
Theorem pause_throttles_loop (env : Env) (frame : option (list Z)) (w : World) :
  scanState w = PAUSED_DUPLICATE ->
  S (scanFrameCount w) mod 15 <> 0 ->
  snd (scanLoop env frame w) = false /\
  scanState (fst (scanLoop env frame w)) = PAUSED_DUPLICATE /\
  lastFrameData (fst (scanLoop env frame w)) = lastFrameData w /\
  stabilityCounter (fst (scanLoop env frame w)) = stabilityCounter w /\
  duplicateCount (fst (scanLoop env frame w)) = duplicateCount w /\
  inFlight (fst (scanLoop env frame w)) = inFlight w /\
  scanFrameCount (fst (scanLoop env frame w)) = S (scanFrameCount w) /\
  scanRafId (fst (scanLoop env frame w)) = Some (nextHandle w) /\
  In (nextHandle w, CbScanLoop) (pendingCallbacks (fst (scanLoop env frame w))).
Proof.
  intros Hs Hm. unfold scanLoop. rewrite Hs. cbn [ScanState_eqb negb andb].
  cbn [scanState set_scanFrameCount scanFrameCount]. rewrite Hs.
  cbn [ScanState_eqb andb].
  destruct (Nat.eqb_spec (S (scanFrameCount w) mod 15) 0) as [E|_];
    [contradiction|].
  cbn [negb fst snd]. repeat split; try assumption.
  apply (register_pending CbScanLoop (set_scanFrameCount (S (scanFrameCount w)) w)).
Qed.

Lemma pause_throttles_loop_witness :
  reachableByClicks pausedScene /\
  scanState pausedScene = PAUSED_DUPLICATE /\
  snd (scanLoop brightEnv (Some whiteFrame) pausedScene) = false /\
  lastFrameData (fst (scanLoop brightEnv (Some whiteFrame) pausedScene))
  = lastFrameData pausedScene.
Proof.
  assert (Hs : scanState pausedScene = PAUSED_DUPLICATE) by (vm_compute; reflexivity).
  assert (Hm : S (scanFrameCount pausedScene) mod 15 <> 0)
    by (vm_compute; discriminate).
  destruct (pause_throttles_loop brightEnv (Some whiteFrame) pausedScene Hs Hm)
    as (H1 & _ & H3 & _).
  split; [exact clicks_pausedScene|]. split; [exact Hs|]. split; assumption.
Defined.

(** X5. In [PAUSED_DUPLICATE] the loop never starts a capture.  At a frame
    it looks at, a quiet pair counts as in [SCANNING] until the counter
    reaches the threshold; from then on the counter is pinned at the
    threshold and the reference frame is no longer replaced. *)
Theorem pause_never_captures (env : Env) (frame : option (list Z)) (w : World) :
  scanState w = PAUSED_DUPLICATE ->
  snd (scanLoop env frame w) = false /\
  inFlight (fst (scanLoop env frame w)) = inFlight w /\
  lastSentImageHash (fst (scanLoop env frame w)) = lastSentImageHash w /\
  (forall f prev,
     frame = Some f -> lastFrameData w = Some prev ->
     S (scanFrameCount w) mod 15 = 0 ->
     (avgDiff f prev < inject_Z MOTION_THRESHOLD)%Q ->
     scanState (fst (scanLoop env frame w)) = PAUSED_DUPLICATE /\
     (S (stabilityCounter w) < STABILITY_THRESHOLD ->
      stabilityCounter (fst (scanLoop env frame w)) = S (stabilityCounter w) /\
      lastFrameData (fst (scanLoop env frame w)) = Some f) /\
     (STABILITY_THRESHOLD <= S (stabilityCounter w) ->
      stabilityCounter (fst (scanLoop env frame w)) = STABILITY_THRESHOLD /\
      lastFrameData (fst (scanLoop env frame w)) = Some prev)).
Proof.
  intros Hs. unfold scanLoop. rewrite Hs. cbn [ScanState_eqb negb andb].
  cbn [scanState set_scanFrameCount scanFrameCount]. rewrite Hs.
  cbn [ScanState_eqb andb].
  destruct (Nat.eqb_spec (S (scanFrameCount w) mod 15) 0) as [E|E]; cbn [negb].
  2:{ repeat split; try reflexivity; intros; contradiction. }
  unfold checkStabilityAndCapture.
  destruct frame as [f|]; [|repeat split; try reflexivity; discriminate].
  cbn [lastFrameData set_scanFrameCount].
  destruct (lastFrameData w) as [prev|] eqn:Hl;
    [|repeat split; try reflexivity; discriminate].
  destruct (Qltb (avgDiff f prev) (inject_Z MOTION_THRESHOLD)) eqn:Hq.
  - cbn [stabilityCounter set_stabilityCounter set_lastStabilityState
         scanState set_scanFrameCount].
    rewrite Hs. cbn [ScanState_eqb].
    destruct (Nat.leb_spec STABILITY_THRESHOLD (S (stabilityCounter w))) as [Hc|Hc];
      cbn [fst snd]; (split; [reflexivity|]); (split; [reflexivity|]);
      (split; [reflexivity|]);
      intros f0 prev0 Ef Ep _ _; injection Ef as <-; injection Ep as <-;
      (split; [exact Hs|]); split; intros Hc'; try lia; split;
      cbn -[STABILITY_THRESHOLD]; first [reflexivity|exact Hl].
  - cbn [fst snd]. unfold onMotion.
    cbn [scanState set_stabilityCounter set_scanFrameCount]. rewrite Hs.
    cbn [ScanState_eqb orb]. split; [reflexivity|].
    split; [cbn; now rewrite transitionTo_inFlight|].
    split; [cbn; now rewrite transitionTo_lastSentImageHash|].
    intros f0 prev0 Ef Ep _ Hlt. injection Ef as <-. injection Ep as <-.
    apply Qltb_true in Hlt. congruence.
Qed.

Lemma pause_never_captures_witness :
  reachableByClicks pausedBeforeCheck /\
  snd (scanLoop brightEnv (Some blackFrame) pausedBeforeCheck) = false /\
  inFlight (fst (scanLoop brightEnv (Some blackFrame) pausedBeforeCheck)) = [] /\
  stabilityCounter (fst (scanLoop brightEnv (Some blackFrame) pausedBeforeCheck)) = 1.
Proof.
  assert (Hs : scanState pausedBeforeCheck = PAUSED_DUPLICATE)
    by (vm_compute; reflexivity).
  destruct (pause_never_captures brightEnv (Some blackFrame) pausedBeforeCheck Hs)
    as (H1 & H2 & _ & H4).
  assert (Hl : lastFrameData pausedBeforeCheck = Some blackFrame)
    by (vm_compute; reflexivity).
  destruct (H4 blackFrame blackFrame eq_refl Hl) as (_ & H5 & _);
    [vm_compute; reflexivity|vm_compute; reflexivity|].
  assert (Hf : inFlight pausedBeforeCheck = []) by (vm_compute; reflexivity).
  assert (Hc : stabilityCounter pausedBeforeCheck = 0) by (vm_compute; reflexivity).
  rewrite Hf in H2. rewrite Hc in H5. destruct H5 as (H5 & _);
    [unfold STABILITY_THRESHOLD; lia|].
  split; [exact clicks_pausedBeforeCheck|]. repeat split; assumption.
Defined.

(** X6. Motion ends the pause: when the paused loop looks at a frame that
    differs from the reference frame by the motion threshold or more, the
    scan is back in [SCANNING] with the button enabled, the stability
    counter at 0 and the duplicate bookkeeping cleared; the last-sent hash
    stays. *)
Theorem motion_ends_pause (env : Env) (f prev : list Z) (w : World) :
  scanState w = PAUSED_DUPLICATE ->
  S (scanFrameCount w) mod 15 = 0 ->
  lastFrameData w = Some prev ->
  (inject_Z MOTION_THRESHOLD <= avgDiff f prev)%Q ->
  snd (scanLoop env (Some f) w) = false /\
  scanState (fst (scanLoop env (Some f) w)) = SCANNING /\
  btnScanDisabled (fst (scanLoop env (Some f) w)) = false /\
  stabilityCounter (fst (scanLoop env (Some f) w)) = 0 /\
  duplicateCount (fst (scanLoop env (Some f) w)) = 0 /\
  lastResultFingerprint (fst (scanLoop env (Some f) w)) = None /\
  lastFrameData (fst (scanLoop env (Some f) w)) = Some f /\
  lastSentImageHash (fst (scanLoop env (Some f) w)) = lastSentImageHash w.
Proof.
  intros Hs Hm Hl Hq. unfold scanLoop. rewrite Hs. cbn [ScanState_eqb negb andb].
  cbn [scanState set_scanFrameCount scanFrameCount]. rewrite Hs, Hm.
  cbn [ScanState_eqb andb Nat.eqb negb].
  unfold checkStabilityAndCapture. cbn [lastFrameData set_scanFrameCount].
  rewrite Hl. apply Qltb_false in Hq. rewrite Hq. unfold onMotion.
  cbn [scanState set_stabilityCounter set_scanFrameCount]. rewrite Hs.
  cbn [ScanState_eqb orb fst snd]. unfold transitionTo.
  cbn [scanState set_stabilityCounter set_scanFrameCount]. rewrite Hs.
  cbn. repeat split.
Qed.

Lemma motion_ends_pause_witness :
  reachableByClicks pausedBeforeCheck /\
  scanState (fst (scanLoop brightEnv (Some whiteFrame) pausedBeforeCheck)) = SCANNING /\
  duplicateCount (fst (scanLoop brightEnv (Some whiteFrame) pausedBeforeCheck)) = 0.
Proof.
  destruct (@motion_ends_pause brightEnv whiteFrame blackFrame pausedBeforeCheck)
    as (_ & H2 & _ & _ & H5 & _); try (vm_compute; reflexivity).
  - vm_compute. discriminate.
  - split; [exact clicks_pausedBeforeCheck|]. split; assumption.
Defined.

(* ------------------------------------------------------------------ *)
(** ** The scan button: a double click *)

Lemma transitionTo_lastToggleTime t w :
  lastToggleTime (snd (transitionTo t w)) = lastToggleTime w.
Proof.
  destruct (transitionTo_cases t w) as [->|(b & ->)]; reflexivity.
Qed.

Lemma clearHandle_lastToggleTime get set w :
  (forall v w', lastToggleTime (set v w') = lastToggleTime w') ->
  lastToggleTime (clearHandle get set w) = lastToggleTime w.
Proof.
  intros H. unfold clearHandle. destruct (get w); [now rewrite H|reflexivity].
Qed.

Lemma haltCountdown_lastToggleTime w :
  lastToggleTime (haltCountdown w) = lastToggleTime w.
Proof.
  unfold haltCountdown, clearHandle.
  destruct (cooldownTimerId w); repeat break_if; reflexivity.
Qed.

Lemma ops_lastToggleTime k :
  keepsToggleTime (op_stopScanning (ops k)) /\
  keepsToggleTime (op_stopCooldownCountdown (ops k)) /\
  keepsToggleTime (op_startScanning (ops k)) /\
  keepsToggleTime (op_captureAndAnalyze (ops k)).
Proof.
  induction k as [|k (I1 & I2 & I3 & I4)].
  - repeat split; intros env w w' E; discriminate E.
  - cbn [ops op_stopScanning op_stopCooldownCountdown op_startScanning
         op_captureAndAnalyze].
    repeat split; intros env w w'.
    + unfold stopScanning_body.
      match goal with |- context [op_stopCooldownCountdown (ops k) env ?x] =>
        destruct (op_stopCooldownCountdown (ops k) env x) as [w1|] eqn:E1;
          [pose proof (I2 env x w1 E1) as H1|discriminate]
      end.
      intros E. injection E as <-. cbn. rewrite H1.
      rewrite !clearHandle_lastToggleTime by reflexivity. reflexivity.
    + unfold stopCooldownCountdown_body. break_if.
      * intros E. rewrite (I3 env _ _ E). cbn.
        apply haltCountdown_lastToggleTime.
      * intros E. injection E as <-. apply haltCountdown_lastToggleTime.
    + unfold startScanning_body. rewrite isApiLimitReached_false.
      pose proof (transitionTo_lastToggleTime SCANNING w) as Ht.
      destruct (transitionTo SCANNING w) as [okb w1]. cbn [snd] in Ht.
      destruct okb; cbn [negb].
      * break_if.
        -- intros E. rewrite (I4 env _ _ E). exact Ht.
        -- intros E. injection E as <-. unfold cancelIfSet.
           destruct (scanRafId _); exact Ht.
      * intros E. injection E as <-. exact Ht.
    + unfold captureAndAnalyze_body. repeat break_if; intros E;
        try (injection E as <-); cbn;
        rewrite ?clearHandle_lastToggleTime, ?transitionTo_lastToggleTime
          by reflexivity; try reflexivity.
      rewrite (I1 env _ _ E). apply transitionTo_lastToggleTime.
Qed.

Lemma run_lastToggleTime f env w :
  keepsToggleTime (f (ops callDepth)) ->
  lastToggleTime (run f env w) = lastToggleTime w.
Proof.
  intros Hf. unfold run.
  destruct (f (ops callDepth) env w) as [w'|] eqn:E; [exact (Hf env w w' E)|reflexivity].
Qed.

(** X7. [toggleScanning] takes a call at least 300 ms after the last one it
    took, whatever it then does with it, and drops a call that comes
    earlier: of two calls less than 300 ms apart the second one changes
    nothing, so a double click starts (or stops) the scan once. *)
Theorem double_click_toggles_once (t1 t2 : Z) (env : Env) (w : World) :
  (300 <= t1 - lastToggleTime w)%Z ->
  (t1 <= t2 < t1 + 300)%Z ->
  lastToggleTime (toggleScanning t1 env w) = t1 /\
  toggleScanning t2 env (toggleScanning t1 env w) = toggleScanning t1 env w.
Proof.
  intros H1 H2.
  assert (Ht : lastToggleTime (toggleScanning t1 env w) = t1).
  { unfold toggleScanning.
    destruct (Z.ltb_spec (t1 - lastToggleTime w) 300) as [E|_]; [lia|].
    destruct (ops_lastToggleTime callDepth) as (I1 & _ & I3 & _).
    repeat break_if; try reflexivity.
    - unfold stopScanning. now rewrite run_lastToggleTime.
    - unfold startScanning. now rewrite run_lastToggleTime. }
  split; [exact Ht|].
  unfold toggleScanning at 1. rewrite Ht.
  destruct (Z.ltb_spec (t2 - t1) 300) as [_|E]; [reflexivity|lia].
Qed.

Lemma double_click_toggles_once_witness :
  scanState (toggleScanning 1000%Z cameraEnv initial) = SCANNING /\
  toggleScanning 1100%Z cameraEnv (toggleScanning 1000%Z cameraEnv initial)
  = toggleScanning 1000%Z cameraEnv initial.
Proof.
  destruct (@double_click_toggles_once 1000%Z 1100%Z cameraEnv initial)
    as (_ & H); [cbn; lia|lia|].
  split; [vm_compute; reflexivity|exact H].
Defined.

(* ------------------------------------------------------------------ *)
(** ** What a stop cancels *)

Lemma clearHandle_pending get set w e :
  (forall v w', pendingCallbacks (set v w') = pendingCallbacks w') ->
  In e (pendingCallbacks (clearHandle get set w)) ->
  In e (pendingCallbacks w) /\ get w <> Some (fst e).
Proof.
  intros Hset. unfold clearHandle. destruct (get w) as [h|].
  - rewrite Hset. cbn. rewrite filter_In. intros (Hin & Hne).
    split; [exact Hin|]. intros E. injection E as ->.
    now rewrite Pos.eqb_refl in Hne.
  - intros Hin. split; [exact Hin|discriminate].
Qed.

Lemma clearHandle_other (A : Type) (g : World -> A) get set w :
  (forall v w', g (set v w') = g w') ->
  (forall h w', g (cancel h w') = g w') ->
  g (clearHandle get set w) = g w.
Proof.
  intros H1 H2. unfold clearHandle. destruct (get w); [now rewrite H1, H2|reflexivity].
Qed.

Lemma haltCountdown_pending w e :
  In e (pendingCallbacks (haltCountdown w)) ->
  In e (pendingCallbacks w) /\ cooldownTimerId w <> Some (fst e).
Proof.
  intros H. apply (@clearHandle_pending cooldownTimerId set_cooldownTimerId w e);
    [reflexivity|].
  unfold haltCountdown in H.
  match type of H with context [if ?c then _ else _] => destruct c end; exact H.
Qed.

(** Under [flagDown], what is pending after [stopScanning] was pending
    before, under a handle that none of the four handle variables held. *)
Lemma stopScanning_down_pending (env : Env) (w : World) :
  flagDown w ->
  forall e, In e (pendingCallbacks (stopScanning env w)) ->
    In e (pendingCallbacks w) /\ ~ In (Some (fst e)) (heldHandles w).
Proof.
  intros Hw. pose proof (stopScanning_down env Hw) as E.
  unfold stopScanning_body, haltOps in E.
  cbn [op_stopCooldownCountdown] in E. injection E as <-.
  set (w1 := syncUI IDLE (set_scanState IDLE w)).
  set (w2 := clearHandle scanRafId set_scanRafId w1).
  set (w3 := clearHandle retryTimerId set_retryTimerId w2).
  set (w4 := clearHandle continuousDelayTimerId set_continuousDelayTimerId w3).
  assert (Hall : forall e, In e (pendingCallbacks (haltCountdown w4)) ->
            In e (pendingCallbacks w) /\
            ~ In (Some (fst e)) (heldHandles w)); [|exact Hall].
  intros e H5.
  apply haltCountdown_pending in H5. destruct H5 as (H4 & N4).
  apply clearHandle_pending in H4; [|reflexivity]. destruct H4 as (H3 & N3).
  apply clearHandle_pending in H3; [|reflexivity]. destruct H3 as (H2 & N2).
  apply clearHandle_pending in H2; [|reflexivity]. destruct H2 as (H1 & N1).
  split; [exact H1|].
  assert (E2 : retryTimerId w2 = retryTimerId w)
    by (unfold w2; now rewrite clearHandle_other by reflexivity).
  assert (E3 : continuousDelayTimerId w3 = continuousDelayTimerId w)
    by (unfold w3, w2; now rewrite !clearHandle_other by reflexivity).
  assert (E4 : cooldownTimerId w4 = cooldownTimerId w)
    by (unfold w4, w3, w2; now rewrite !clearHandle_other by reflexivity).
  rewrite E2 in N2. rewrite E3 in N3. rewrite E4 in N4.
  change (scanRafId w1) with (scanRafId w) in N1.
  unfold heldHandles. cbn [In]. intros [F|[F|[F|[F|[]]]]]; congruence.
Qed.

(** X8. With no restart queued, [stopScanning] leaves no callback pending
    under a handle that one of the four handle variables held, and adds
    none: what is still pending was pending before. *)
Theorem stopScanning_cancels (env : Env) (w : World) :
  flagDown w ->
  (forall h cb, In (Some h) (heldHandles w) ->
     ~ In (h, cb) (pendingCallbacks (stopScanning env w))) /\
  (forall e, In e (pendingCallbacks (stopScanning env w)) ->
     In e (pendingCallbacks w)).
Proof.
  intros Hw. pose proof (stopScanning_down_pending env Hw) as Hall.
  split.
  - intros h cb Hin Hp. destruct (Hall (h, cb) Hp) as (_ & N). now apply N.
  - intros e He. now apply Hall.
Qed.

Lemma stopScanning_cancels_witness :
  reachableByClicks onceFailed /\
  retryTimerId onceFailed = Some 24%positive /\
  In (24%positive, CbRetry (2000000 # 400)) (pendingCallbacks onceFailed) /\
  ~ In (24%positive, CbRetry (2000000 # 400))
       (pendingCallbacks (stopScanning cameraEnv onceFailed)).
Proof.
  assert (Hw : flagDown onceFailed) by (vm_compute; reflexivity).
  destruct (stopScanning_cancels cameraEnv Hw) as (H & _).
  split; [unfold onceFailed; apply clicks_step;
          [exact clicks_analyzingCamera|reflexivity]|].
  split; [vm_compute; reflexivity|].
  split; [vm_compute; right; right; now left|].
  apply H. vm_compute. right. now left.
Defined.

(* ------------------------------------------------------------------ *)
(** ** The countdown of a cooldown *)

Lemma cooldownTick_running env w :
  (1 < cooldownRemaining w)%Z ->
  cooldownTick env w = set_cooldownRemaining (cooldownRemaining w - 1)%Z w.
Proof.
  intros H. unfold cooldownTick. cbn [cooldownRemaining set_cooldownRemaining].
  destruct (Z.leb_spec (cooldownRemaining w - 1) 0); [lia|reflexivity].
Qed.

Lemma cooldownTick_last env w :
  (cooldownRemaining w <= 1)%Z ->
  cooldownTick env w
  = stopCooldownCountdown env (set_cooldownRemaining (cooldownRemaining w - 1)%Z w).
Proof.
  intros H. unfold cooldownTick. cbn [cooldownRemaining set_cooldownRemaining].
  destruct (Z.leb_spec (cooldownRemaining w - 1) 0); [reflexivity|lia].
Qed.

Lemma ticks_S env j : forall w,
  ticks env (S j) w = cooldownTick env (ticks env j w).
Proof.
  induction j as [|j IH]; intros w; [reflexivity|].
  cbn [ticks] in *. now rewrite IH.
Qed.

(** X9. A countdown of [n] seconds that runs in [COOLDOWN] with no restart
    queued: each of the first [n - 1] ticks takes one second off and leaves
    the state, the interval and the button as they are; the [n]-th tick ends
    in [IDLE] with the interval cleared, nothing left on the clock and the
    button enabled.  A countdown of 0 seconds ends at its first tick too. *)
Theorem countdown_runs_out (env : Env) (n : nat) (h : positive) (w : World) :
  scanState w = COOLDOWN ->
  cooldownTimerId w = Some h ->
  flagDown w ->
  cooldownRemaining w = Z.of_nat n ->
  (forall k, k < n ->
     scanState (ticks env k w) = COOLDOWN /\
     cooldownRemaining (ticks env k w) = (Z.of_nat n - Z.of_nat k)%Z /\
     cooldownTimerId (ticks env k w) = Some h /\
     btnScanDisabled (ticks env k w) = btnScanDisabled w) /\
  scanState (ticks env (Nat.max n 1) w) = IDLE /\
  cooldownTimerId (ticks env (Nat.max n 1) w) = None /\
  cooldownRemaining (ticks env (Nat.max n 1) w) = 0%Z /\
  btnScanDisabled (ticks env (Nat.max n 1) w) = false /\
  (forall cb, ~ In (h, cb) (pendingCallbacks (ticks env (Nat.max n 1) w))).
Proof.
  intros Hs Ht Hf Hr.
  assert (Hrun : forall k w0, k < n ->
            scanState w0 = COOLDOWN -> cooldownTimerId w0 = Some h ->
            flagDown w0 -> cooldownRemaining w0 = Z.of_nat n ->
            scanState (ticks env k w0) = COOLDOWN /\
            cooldownRemaining (ticks env k w0) = (Z.of_nat n - Z.of_nat k)%Z /\
            cooldownTimerId (ticks env k w0) = Some h /\
            btnScanDisabled (ticks env k w0) = btnScanDisabled w0 /\
            flagDown (ticks env k w0)).
  { clear w Hs Ht Hf Hr. induction n as [|n IH]; intros k w0 Hk; [lia|].
    intros Hs Ht Hf Hr. destruct k as [|k].
    - cbn [ticks]. repeat split; try assumption; lia.
    - cbn [ticks]. rewrite cooldownTick_running by lia.
      destruct (IH k (set_cooldownRemaining (cooldownRemaining w0 - 1)%Z w0))
        as (H1 & H2 & H3 & H4 & H5); try assumption; [lia|cbn; lia|].
      repeat split; try assumption; lia. }
  assert (Hlast : forall w0,
            scanState w0 = COOLDOWN -> cooldownTimerId w0 = Some h ->
            flagDown w0 -> (cooldownRemaining w0 <= 1)%Z ->
            scanState (cooldownTick env w0) = IDLE /\
            cooldownTimerId (cooldownTick env w0) = None /\
            cooldownRemaining (cooldownTick env w0) = 0%Z /\
            btnScanDisabled (cooldownTick env w0) = false /\
            (forall cb, ~ In (h, cb) (pendingCallbacks (cooldownTick env w0)))).
  { intros w0 Hs0 Ht0 Hf0 Hr0. rewrite cooldownTick_last by exact Hr0.
    rewrite stopCooldownCountdown_down by exact Hf0.
    unfold haltCountdown, clearHandle.
    cbn [cooldownTimerId set_cooldownRemaining]. rewrite Ht0.
    cbn [scanState set_cooldownRemaining set_cooldownTimerId cancel
         set_pendingCallbacks]. rewrite Hs0. cbn [ScanState_eqb andb].
    repeat split. intros cb. cbn. rewrite filter_In. cbn.
    rewrite Pos.eqb_refl. intros (_ & F). discriminate F. }
  split.
  - intros k Hk. destruct (Hrun k w Hk Hs Ht Hf Hr) as (H1 & H2 & H3 & H4 & _).
    auto.
  - destruct n as [|n].
    + cbn [Nat.max ticks]. apply Hlast; try assumption. rewrite Hr. cbn. lia.
    + replace (Nat.max (S n) 1) with (S n) by lia.
      rewrite ticks_S.
      destruct (Hrun n w (Nat.lt_succ_diag_r n) Hs Ht Hf Hr)
        as (H1 & H2 & H3 & _ & H5).
      apply Hlast; try assumption. lia.
Qed.

Lemma countdown_runs_out_witness :
  reachableByClicks coolingDown /\
  cooldownRemaining coolingDown = 12%Z /\
  scanState (ticks cameraEnv 11 coolingDown) = COOLDOWN /\
  cooldownRemaining (ticks cameraEnv 11 coolingDown) = 1%Z /\
  scanState (ticks cameraEnv 12 coolingDown) = IDLE /\
  btnScanDisabled (ticks cameraEnv 12 coolingDown) = false.
Proof.
  assert (Hs : scanState coolingDown = COOLDOWN) by (vm_compute; reflexivity).
  assert (Ht : cooldownTimerId coolingDown = Some 24%positive)
    by (vm_compute; reflexivity).
  assert (Hf : flagDown coolingDown) by (vm_compute; reflexivity).
  assert (Hr : cooldownRemaining coolingDown = Z.of_nat 12)
    by (vm_compute; reflexivity).
  destruct (countdown_runs_out cameraEnv 12 Hs Ht Hf Hr)
    as (Hrun & H1 & _ & _ & H4 & _).
  destruct (Hrun 11) as (H5 & H6 & _); [lia|].
  split; [exact clicks_coolingDown|]. split; [exact Hr|].
  split; [exact H5|]. split; [rewrite H6; reflexivity|].
  split; [exact H1|exact H4].
Defined.

(** X10. When the countdown of a camera page runs out with a restart
    queued, the last tick starts the scan at once: the state is [SCANNING]
    with the loop requested and the button enabled, the restart is no longer
    queued, the interval is cleared, and the scan starts as any other, with
    no last-sent hash and no errors counted. *)
Theorem countdown_restarts_queued_scan (env : Env) (h : positive) (w : World) :
  scanState w = COOLDOWN ->
  cooldownTimerId w = Some h ->
  shouldRestartAfterCooldown w = true ->
  (cooldownRemaining w <= 1)%Z ->
  getCurrentSource env <> SrcImage ->
  scanState (cooldownTick env w) = SCANNING /\
  shouldRestartAfterCooldown (cooldownTick env w) = false /\
  cooldownTimerId (cooldownTick env w) = None /\
  btnScanDisabled (cooldownTick env w) = false /\
  lastSentImageHash (cooldownTick env w) = None /\
  consecutiveErrorCount (cooldownTick env w) = 0 /\
  (exists r, scanRafId (cooldownTick env w) = Some r /\
             In (r, CbScanLoop) (pendingCallbacks (cooldownTick env w))).
Proof.
  intros Hs Ht Hf Hr Hsrc. rewrite cooldownTick_last by exact Hr.
  set (w0 := set_cooldownRemaining (cooldownRemaining w - 1)%Z w).
  pose proof (stopCooldownCountdown_eq env w0) as E.
  unfold stopCooldownCountdown_body in E.
  rewrite haltCountdown_flag in E.
  change (shouldRestartAfterCooldown w0) with (shouldRestartAfterCooldown w) in E.
  rewrite Hf in E. cbn [op_startScanning theOps] in E. injection E as <-.
  set (w1 := set_shouldRestartAfterCooldown false (haltCountdown w0)).
  assert (H1 : scanState w1 = IDLE /\ cooldownTimerId w1 = None).
  { subst w1 w0. unfold haltCountdown, clearHandle.
    cbn [cooldownTimerId set_cooldownRemaining]. rewrite Ht.
    cbn [scanState set_cooldownRemaining set_cooldownTimerId cancel
         set_pendingCallbacks]. rewrite Hs. cbn. auto. }
  destruct H1 as (Hs1 & Ht1).
  pose proof (startScanning_eq env w1) as E. unfold startScanning_body in E.
  rewrite isApiLimitReached_false in E. unfold transitionTo in E.
  rewrite Hs1 in E. cbn [ScanState_eqb SCAN_TRANSITIONS includes existsb orb negb] in E.
  destruct (Source_eqb (getCurrentSource env) SrcImage) eqn:Hi.
  { destruct (getCurrentSource env); try discriminate Hi. contradiction. }
  injection E as <-. unfold cancelIfSet, requestScanLoop.
  destruct (scanRafId _) as [r|] eqn:Hraf; cbn; rewrite ?Ht1;
    repeat split; try reflexivity; try exact Ht1;
    eexists; (split; [reflexivity|]); apply in_or_app; right; now left.
Qed.

Lemma countdown_restarts_queued_scan_witness :
  reachable (ticks cameraEnv 11 restartQueued) /\
  scanState (ticks cameraEnv 11 restartQueued) = COOLDOWN /\
  scanState (ticks cameraEnv 12 restartQueued) = SCANNING /\
  shouldRestartAfterCooldown (ticks cameraEnv 12 restartQueued) = false.
Proof.
  assert (Hs : scanState (ticks cameraEnv 11 restartQueued) = COOLDOWN)
    by (vm_compute; reflexivity).
  destruct (@countdown_restarts_queued_scan cameraEnv 24%positive
              (ticks cameraEnv 11 restartQueued))
    as (H1 & H2 & _); try (vm_compute; reflexivity);
    [vm_compute; discriminate|discriminate|].
  rewrite <- ticks_S in H1, H2.
  split; [|split; [exact Hs|split; [exact H1|exact H2]]].
  assert (E : ticks cameraEnv 11 restartQueued
              = Nat.iter 11 (step cameraEnv (Fire 24%positive None)) restartQueued)
    by (vm_compute; reflexivity).
  rewrite E.
  assert (R : forall n, reachable
                (Nat.iter n (step cameraEnv (Fire 24%positive None)) restartQueued)).
  { induction n as [|n IH]; cbn [Nat.iter];
      [exact reachable_restartQueued|now apply reachable_step]. }
  apply R.
Defined.

(* ------------------------------------------------------------------ *)
(** ** The retry delay *)




(* ------------------------------------------------------------------ *)
(** ** After the answer: how the scan goes on *)

Lemma transitionTo_from_analyzing t w :
  scanState w = ANALYZING -> t <> ANALYZING ->
  snd (transitionTo t w) = syncUI t (set_scanState t w).
Proof.
  intros Hs Ht. unfold transitionTo. rewrite Hs.
  destruct t; try contradiction; reflexivity.
Qed.

(** X12. A camera scan whose request failed in transport comes back by
    itself: when the retry timer fires in [PAUSED_ERROR] the state is
    [SCANNING] again with the button enabled, the timer variable cleared and
    the loop requested; the count of failures and the last-sent hash are
    kept, so the scene that failed is not taken for one already sent.  In
    any other state the callback clears its variable and nothing else. *)
Theorem retry_resumes_scan (w : World) :
  (scanState w = PAUSED_ERROR ->
   scanState (retryTimerFired w) = SCANNING /\
   btnScanDisabled (retryTimerFired w) = false /\
   retryTimerId (retryTimerFired w) = None /\
   consecutiveErrorCount (retryTimerFired w) = consecutiveErrorCount w /\
   lastSentImageHash (retryTimerFired w) = lastSentImageHash w /\
   scanRafId (retryTimerFired w) = Some (nextHandle w) /\
   In (nextHandle w, CbScanLoop) (pendingCallbacks (retryTimerFired w)) /\
   (forall old cb, scanRafId w = Some old -> old <> nextHandle w ->
      ~ In (old, cb) (pendingCallbacks (retryTimerFired w)))) /\
  (scanState w <> PAUSED_ERROR -> retryTimerFired w = set_retryTimerId None w).
Proof.
  split.
  - intros Hs. unfold retryTimerFired.
    cbn [scanState set_retryTimerId]. rewrite Hs. cbn [ScanState_eqb].
    unfold transitionTo. cbn [scanState set_retryTimerId]. rewrite Hs.
    cbn [ScanState_eqb SCAN_TRANSITIONS includes existsb orb negb snd syncUI].
    unfold cancelIfSet. cbn [scanRafId set_btnScanDisabled set_scanState
                             set_retryTimerId].
    destruct (scanRafId w) as [old|] eqn:Hraf; cbn;
      repeat split; try (apply in_or_app; right; now left).
    + intros old0 cb E Hne. injection E as <-.
      rewrite in_app_iff, filter_In. cbn. rewrite Pos.eqb_refl.
      intros [(_ & F)|[F|[]]]; [discriminate F|].
      injection F as F _. congruence.
    + intros old0 cb E. discriminate E.
  - intros Hs. unfold retryTimerFired. cbn [scanState set_retryTimerId].
    apply ScanState_eqb_neq in Hs. now rewrite Hs.
Qed.

Lemma retry_resumes_scan_witness :
  reachableByClicks onceFailed /\
  scanState onceFailed = PAUSED_ERROR /\
  scanState (retryTimerFired onceFailed) = SCANNING /\
  consecutiveErrorCount (retryTimerFired onceFailed) = 1.
Proof.
  assert (Hs : scanState onceFailed = PAUSED_ERROR) by (vm_compute; reflexivity).
  destruct (retry_resumes_scan onceFailed) as (H & _).
  destruct (H Hs) as (H1 & _ & _ & H4 & _).
  split; [unfold onceFailed; apply clicks_step;
          [exact clicks_analyzingCamera|reflexivity]|].
  split; [exact Hs|]. split; [exact H1|].
  rewrite H4. vm_compute. reflexivity.
Defined.





(** X14. What does not count as a failure to retry.  An answer that is no
    quota rejection and brings no result (the body cannot be read, or has
    [ok] false), and a transport failure of a scan that is not a camera
    scan, never lead to [PAUSED_ERROR]: the error count, the retry timer
    and the last-sent hash stay as they are.  From [ANALYZING] a continuous
    camera scan goes on in [SCANNING] after the interval, every other scan
    ends in [IDLE]. *)
Theorem rejection_is_not_retried
    (p : Pending) (outcome : NetOutcome) (random : Q) (env : Env) (w : World) :
  scanState w = ANALYZING ->
  rejected outcome = true \/
  (wasStreamingScan p = false /\ exists err, outcome = Threw err) ->
  let w' := captureAndAnalyze_resume p outcome random env w in
  consecutiveErrorCount w' = consecutiveErrorCount w /\
  retryTimerId w' = retryTimerId w /\
  lastSentImageHash w' = lastSentImageHash w /\
  btnScanDisabled w' = false /\
  (wasStreamingScan p = true -> isSingleShot w = false ->
   scanState w' = SCANNING /\
   continuousDelayTimerId w' = Some (nextHandle w) /\
   In (nextHandle w, CbContinuousDelay) (pendingCallbacks w')) /\
  (wasStreamingScan p = false \/ isSingleShot w = true ->
   scanState w' = IDLE /\ pendingCallbacks w' = pendingCallbacks w).
Proof.
  intros Hs Hrej w'. subst w'. unfold captureAndAnalyze_resume.
  assert (Hblock :
    (match outcome with
     | Threw _ => catchBlock p random (set_inFlight (settle p (inFlight w)) w)
     | Responded status body header =>
         tryBlock p env status body header (set_inFlight (settle p (inFlight w)) w)
     end) = (set_inFlight (settle p (inFlight w)) w, mkLocals false false)).
  { destruct Hrej as [Hrej|(Hp & err & ->)].
    - destruct outcome as [err|status [result|] header]; cbn in Hrej;
        try discriminate Hrej; [|reflexivity].
      unfold tryBlock. destruct (status =? 429)%Z; [discriminate Hrej|].
      destruct (ok result); [discriminate Hrej|reflexivity].
    - unfold catchBlock. now rewrite Hp. }
  rewrite Hblock. clear Hblock Hrej.
  unfold finallyBlock, transitionTo. open_world w. cbn in Hs. subst.
  destruct (wasStreamingScan p), single; cbn;
    repeat split; try discriminate;
    try (match goal with
         | H : _ \/ _ |- _ => destruct H; discriminate
         end);
    try (intros; apply in_or_app; right; now left).
Qed.

Lemma rejection_is_not_retried_witness :
  reachableByClicks analyzingCamera /\
  scanState
    (captureAndAnalyze_resume blackCrop (Responded 500%Z None None) 0%Q
       cameraEnv analyzingCamera) = IDLE /\
  retryTimerId
    (captureAndAnalyze_resume blackCrop (Responded 500%Z None None) 0%Q
       cameraEnv analyzingCamera) = None.
Proof.
  assert (Hs : scanState analyzingCamera = ANALYZING) by (vm_compute; reflexivity).
  destruct (@rejection_is_not_retried blackCrop (Responded 500%Z None None) 0%Q
              cameraEnv analyzingCamera Hs) as (_ & H2 & _ & _ & _ & H6);
    [left; reflexivity|].
  destruct H6 as (H6 & _); [right; vm_compute; reflexivity|].
  split; [exact clicks_analyzingCamera|]. split; [exact H6|].
  rewrite H2. vm_compute. reflexivity.
Defined.

(* ------------------------------------------------------------------ *)
(** ** The fingerprint of a result *)

Lemma ascii_compare_N a b : Ascii.compare a b = N.compare (N_of_ascii a) (N_of_ascii b).
Proof. reflexivity. Qed.

Lemma string_compare_trans_lt : forall a b c,
  String.compare a b <> Gt -> String.compare b c <> Gt -> String.compare a c <> Gt.
Proof.
  induction a as [|x a IH]; intros [|y b] [|z c]; cbn; try congruence.
  rewrite !ascii_compare_N.
  destruct (N.compare_spec (N_of_ascii x) (N_of_ascii y)) as [E1|L1|G1];
    destruct (N.compare_spec (N_of_ascii y) (N_of_ascii z)) as [E2|L2|G2];
    try congruence;
    destruct (N.compare_spec (N_of_ascii x) (N_of_ascii z)) as [E3|L3|G3];
    try congruence; try lia.
  apply IH.
Qed.

Lemma lebTrue_trans a b c : lebTrue a b -> lebTrue b c -> lebTrue a c.
Proof.
  unfold lebTrue, String.leb. intros H1 H2.
  pose proof (@string_compare_trans_lt a b c) as T.
  destruct (String.compare a b); try discriminate H1;
    destruct (String.compare b c); try discriminate H2;
    destruct (String.compare a c); try reflexivity;
    exfalso; apply T; congruence.
Qed.

Lemma sorted_unique : forall l l',
  Sorted lebTrue l -> Sorted lebTrue l' -> Permutation l l' -> l = l'.
Proof.
  assert (Tr : Relations_1.Transitive lebTrue)
    by (intros a b c; apply lebTrue_trans).
  induction l as [|x l IH]; intros l' Hl Hl' Hp.
  - apply Permutation_nil in Hp. now subst.
  - destruct l' as [|y l'].
    { apply Permutation_sym, Permutation_nil in Hp. discriminate Hp. }
    apply (Sorted_StronglySorted Tr) in Hl, Hl'.
    apply StronglySorted_inv in Hl, Hl'.
    destruct Hl as (Sl & Fl), Hl' as (Sl' & Fl').
    rewrite Forall_forall in Fl, Fl'.
    assert (Exy : x = y).
    { assert (Hx : In x (y :: l'))
        by (eapply Permutation_in; [exact Hp|now left]).
      assert (Hy : In y (x :: l))
        by (eapply Permutation_in; [apply Permutation_sym; exact Hp|now left]).
      destruct Hx as [E|Hx]; [now symmetry|].
      destruct Hy as [E|Hy]; [now symmetry|].
      apply String.leb_antisym; [apply (Fl y Hy)|apply (Fl' x Hx)]. }
    subst y. f_equal. apply IH.
    + now apply StronglySorted_Sorted.
    + now apply StronglySorted_Sorted.
    + now apply Permutation_cons_inv in Hp.
Qed.

Lemma sort_canonical l l' : Permutation l l' -> sort l = sort l'.
Proof.
  intros Hp. apply sorted_unique; try apply sort_sorted.
  rewrite (sort_perm l), Hp. symmetry. apply sort_perm.
Qed.

Lemma filter_perm (A : Type) (f : A -> bool) l l' :
  Permutation l l' -> Permutation (filter f l) (filter f l').
Proof.
  induction 1 as [|x l l' _ IH|x y l|l l' l'' _ IH1 _ IH2]; cbn.
  - constructor.
  - destruct (f x); [now constructor|exact IH].
  - destruct (f x), (f y); try reflexivity. constructor.
  - now transitivity (filter f l').
Qed.

(** X15. The fingerprint of a result does not depend on the order of its
    items: two bodies that agree on [ok], on the best guess of the web mode
    and on the verdict and the reason of the label mode, and whose labels,
    once trimmed, stripped of the confidence, put in lower case and with
    the empty ones dropped, are the same up to their order, have the same
    fingerprint in every mode. *)
Theorem fingerprint_ignores_order (w : World) (r r' : ApiResult) :
  ok r = ok r' ->
  best_guess r = best_guess r' ->
  label_detected r = label_detected r' ->
  label_reason r = label_reason r' ->
  Permutation (fingerprintLabels r) (fingerprintLabels r') ->
  computeResultFingerprint w r = computeResultFingerprint w r'.
Proof.
  intros Hok Hb Hd Hr Hp. unfold computeResultFingerprint.
  rewrite Hok, Hb, Hd, Hr.
  destruct (negb (ok r')); [reflexivity|].
  destruct (String.eqb (currentMode w) "web"); [reflexivity|].
  destruct (String.eqb (currentMode w) "label"); [reflexivity|].
  unfold fingerprintLabels in Hp. apply sort_canonical in Hp.
  destruct (data r) as [|it1 l1] eqn:E, (data r') as [|it2 l2] eqn:E'.
  - reflexivity.
  - rewrite <- Hp. reflexivity.
  - rewrite Hp. reflexivity.
  - now rewrite Hp.
Qed.

Lemma fingerprint_ignores_order_witness :
  computeResultFingerprint initial fruitBody = Some "n2:apple|banana"%string /\
  computeResultFingerprint initial fruitBodyAgain
  = computeResultFingerprint initial fruitBody.
Proof.
  split; [vm_compute; reflexivity|].
  apply fingerprint_ignores_order; try reflexivity.
  vm_compute. apply perm_swap.
Defined.

(** X16. Answers with one and the same fingerprint, in a row, after a
    different (or no) fingerprint: the [j]-th of them brings the duplicate
    count to [j], and asks for the pause exactly when [j] is at least 2 and
    at least [DUPLICATE_SKIP_COUNT].  So the first answer never asks for it,
    and the settings 1 and 2 of the slider both ask for it at the second. *)
Theorem pause_requested_at (f : string) (j : nat) (w : World) :
  f <> EmptyString ->
  lastResultFingerprint w <> Some f ->
  1 <= j ->
  duplicateCount (fst (noteRepeated f j w)) = j /\
  lastResultFingerprint (fst (noteRepeated f j w)) = Some f /\
  DUPLICATE_SKIP_COUNT (fst (noteRepeated f j w)) = DUPLICATE_SKIP_COUNT w /\
  snd (noteRepeated f j w) = (2 <=? j) && (DUPLICATE_SKIP_COUNT w <=? j).
Proof.
  intros Hf Hl Hj.
  assert (Hn : orNull (Some f) = Some f) by (destruct f; [contradiction|reflexivity]).
  assert (Hk : forall x, DUPLICATE_SKIP_COUNT (fst (noteFingerprint (Some f) x))
                         = DUPLICATE_SKIP_COUNT x).
  { intros x. unfold noteFingerprint. rewrite Hn.
    destruct (lastResultFingerprint x); cbn; try break_if; reflexivity. }
  induction j as [|j IH]; [lia|]. cbn [noteRepeated].
  destruct j as [|j].
  - cbn [noteRepeated fst].
    destruct (noteFingerprint_new w Hn Hl) as (H1 & H2 & H3).
    rewrite Hk. cbn [Nat.leb andb]. auto.
  - destruct IH as (I1 & I2 & I3 & _); [lia|].
    set (x := fst (noteRepeated f (S j) w)) in *.
    destruct (noteFingerprint_repeat x Hn I2) as (H1 & H2 & H3).
    rewrite Hk, I3, H1, H2, H3, I1, I3. cbn [Nat.leb andb]. auto.
Qed.

Lemma pause_requested_at_witness :
  snd (noteRepeated "n1:apple" 2 (set_DUPLICATE_SKIP_COUNT 1 initial)) = true /\
  snd (noteRepeated "n1:apple" 2 initial) = true /\
  snd (noteRepeated "n1:apple" 2 (set_DUPLICATE_SKIP_COUNT 3 initial)) = false.
Proof.
  destruct (@pause_requested_at "n1:apple" 2 (set_DUPLICATE_SKIP_COUNT 1 initial))
    as (_ & _ & _ & H1); [discriminate|discriminate|lia|].
  destruct (@pause_requested_at "n1:apple" 2 initial)
    as (_ & _ & _ & H2); [discriminate|discriminate|lia|].
  destruct (@pause_requested_at "n1:apple" 2 (set_DUPLICATE_SKIP_COUNT 3 initial))
    as (_ & _ & _ & H3); [discriminate|discriminate|lia|].
  split; [exact H1|]. split; [exact H2|exact H3].
Defined.

(* ------------------------------------------------------------------ *)
(** ** What holds in every state of the page *)




(** X18. On the page, where [toggleScanning] runs on clicks of the scan
    button and a disabled button gets none, no restart is ever queued; so
    [stopScanning] is the forced stop its comment promises: from every such
    state it ends in [IDLE] with the four handle variables cleared and
    their callbacks cancelled, and a second call in a row changes none of
    this. *)
Theorem forced_stop_on_the_page (env : Env) (w : World) :
  reachableByClicks w ->
  shouldRestartAfterCooldown w = false /\
  scanState (stopScanning env w) = IDLE /\
  noHandles (stopScanning env w) /\
  btnScanDisabled (stopScanning env w) = false /\
  (forall h cb, In (Some h) (heldHandles w) ->
     ~ In (h, cb) (pendingCallbacks (stopScanning env w))) /\
  scanState (stopScanning env (stopScanning env w)) = IDLE /\
  noHandles (stopScanning env (stopScanning env w)) /\
  pendingCallbacks (stopScanning env (stopScanning env w))
  = pendingCallbacks (stopScanning env w).
Proof.
  intros Hr. destruct (clicks_flagDown Hr) as (Hf & _).
  destruct (stopScanning_down_idle env Hf) as (H1 & H2 & H3 & _).
  destruct (stopScanning_down_idle env H3) as (H4 & H5 & _).
  assert (H6 : forall h cb, In (Some h) (heldHandles w) ->
            ~ In (h, cb) (pendingCallbacks (stopScanning env w))).
  { intros h cb Hin Hp.
    destruct (stopScanning_down_pending env Hf (h, cb) Hp) as (_ & N).
    now apply N. }
  split; [exact Hf|]. split; [exact H1|]. split; [exact H2|].
  split.
  { pose proof (stopScanning_down env Hf) as E.
    unfold stopScanning_body, haltOps in E.
    cbn [op_stopCooldownCountdown] in E. injection E as <-.
    unfold haltCountdown. break_if; [reflexivity|].
    cbn [btnScanDisabled set_lastResultFingerprint set_duplicateCount
         set_stabilityCounter set_lastFrameData set_cooldownRemaining].
    now rewrite !(@clearHandle_other _ btnScanDisabled) by reflexivity. }
  split; [exact H6|]. split; [exact H4|]. split; [exact H5|].
  pose proof (stopScanning_down env H3) as E.
  unfold stopScanning_body, haltOps in E.
  cbn [op_stopCooldownCountdown] in E. injection E as <-.
  destruct H2 as (R1 & R2 & R3 & R4).
  set (x := stopScanning env w) in *.
  unfold haltCountdown, clearHandle. cbn. rewrite R1. cbn. rewrite R2. cbn.
  rewrite R3. cbn. rewrite R4. cbn. reflexivity.
Qed.

Lemma forced_stop_on_the_page_witness :
  reachableByClicks pausedScene /\
  scanState pausedScene = PAUSED_DUPLICATE /\
  scanState (stopScanning brightEnv pausedScene) = IDLE /\
  noHandles (stopScanning brightEnv pausedScene).
Proof.
  destruct (forced_stop_on_the_page brightEnv clicks_pausedScene)
    as (_ & H1 & H2 & _).
  split; [exact clicks_pausedScene|].
  split; [vm_compute; reflexivity|]. split; [exact H1|exact H2].
Defined.

(* ------------------------------------------------------------------ *)
(** ** The retrying fetch *)

Lemma total_doubling b n : forall a,
  total (map (fun i => (b * 2 ^ Z.of_nat i)%Z) (seq a n))
  = (b * 2 ^ Z.of_nat a * (2 ^ Z.of_nat n - 1))%Z.
Proof.
  induction n as [|n IH]; intros a.
  - cbn. lia.
  - cbn [seq map total fold_right]. fold (total (map (fun i => (b * 2 ^ Z.of_nat i)%Z)
                                                  (seq (S a) n))).
    rewrite IH. rewrite !Nat2Z.inj_succ, !Z.pow_succ_r by lia. ring.
Qed.

Lemma fetchLoop_spec (R : Type) (fetch : nat -> Attempt R) maxRetries baseDelay :
  forall remaining attempt,
    attempt + remaining = S maxRetries -> 0 < remaining ->
    let res := fst (fetchLoop fetch maxRetries baseDelay remaining attempt) in
    let waits := snd (fetchLoop fetch maxRetries baseDelay remaining attempt) in
    attempt + List.length waits <= maxRetries /\
    waits = map (fun i => (baseDelay * 2 ^ Z.of_nat i)%Z)
                (seq attempt (List.length waits)) /\
    (forall i, attempt <= i < attempt + List.length waits ->
               fetch i = RejectedOther) /\
    match res with
    | Returned response => fetch (attempt + List.length waits) = Resolved response
    | Thrown AbortError => fetch (attempt + List.length waits) = RejectedAbort
    | Thrown RetriesExhausted =>
        attempt + List.length waits = maxRetries /\
        fetch maxRetries = RejectedOther
    | Thrown OtherError => False
    | ThrownLast => False
    end.
Proof.
  induction remaining as [|k IH]; intros attempt Hsum Hpos; [lia|].
  cbn [fetchLoop].
  destruct (fetch attempt) as [response| |] eqn:Hf.
  - cbn. rewrite Nat.add_0_r. repeat split; try lia; try assumption;
      intros; lia.
  - cbn. rewrite Nat.add_0_r. repeat split; try lia; try assumption;
      intros; lia.
  - destruct (Nat.leb_spec maxRetries attempt) as [Hle|Hlt].
    + cbn. rewrite Nat.add_0_r.
      assert (attempt = maxRetries) by lia. subst attempt.
      repeat split; try lia; try assumption; intros; lia.
    + specialize (IH (S attempt) ltac:(lia) ltac:(lia)).
      destruct (fetchLoop fetch maxRetries baseDelay k (S attempt))
        as [res waits]. cbn [fst snd] in *.
      destruct IH as (I1 & I2 & I3 & I4). cbn [List.length].
      split; [lia|]. split; [cbn [seq map]; now rewrite <- I2|].
      split.
      { intros i Hi. destruct (Nat.eq_dec i attempt) as [->|Hne];
          [exact Hf|apply I3; lia]. }
      replace (attempt + S (List.length waits))
        with (S attempt + List.length waits) by lia.
      destruct res as [response|[| |]|]; assumption.
Qed.

(** X19. [fetchWithRetry] calls [fetch] once more after each failure that
    is no abort, [maxRetries] times at most, and waits before the retry
    number [i] (from 0) [baseDelay * 2^i] ms: after [k] waits it has waited
    [baseDelay * (2^k - 1)] ms.  It returns the first response; it throws an
    abort at once, without another call; and when the call after the last
    retry fails too it throws that error flagged as exhausted.  Nothing else
    is thrown: the [throw] after the loop is never reached. *)
Theorem fetchWithRetry_spec (R : Type) (fetch : nat -> Attempt R)
    (maxRetries : nat) (baseDelay : Z) :
  let res := fst (fetchWithRetry fetch maxRetries baseDelay) in
  let waits := snd (fetchWithRetry fetch maxRetries baseDelay) in
  List.length waits <= maxRetries /\
  waits = map (fun i => (baseDelay * 2 ^ Z.of_nat i)%Z) (seq 0 (List.length waits)) /\
  total waits = (baseDelay * (2 ^ Z.of_nat (List.length waits) - 1))%Z /\
  (forall i, i < List.length waits -> fetch i = RejectedOther) /\
  match res with
  | Returned response => fetch (List.length waits) = Resolved response
  | Thrown AbortError => fetch (List.length waits) = RejectedAbort
  | Thrown RetriesExhausted =>
      List.length waits = maxRetries /\ fetch maxRetries = RejectedOther
  | Thrown OtherError => False
  | ThrownLast => False
  end.
Proof.
  intros res waits. subst res waits. unfold fetchWithRetry.
  destruct (@fetchLoop_spec R fetch maxRetries baseDelay (S maxRetries) 0 eq_refl)
    as (H1 & H2 & H3 & H4); [lia|].
  cbn [Nat.add] in *.
  set (out := fetchLoop fetch maxRetries baseDelay (S maxRetries) 0) in *.
  split; [exact H1|]. split; [exact H2|].
  split.
  { rewrite H2 at 1. rewrite total_doubling. cbn [Z.of_nat]. ring. }
  split; [intros i Hi; apply H3; lia|].
  destruct (fst out) as [response|[| |]|]; assumption.
Qed.

(** X20. With the defaults that [captureAndAnalyze] uses (3 retries, 2000
    ms) a request is sent four times at most and the waits between the
    attempts add up to 14000 ms at most; in general to
    [baseDelay * (2^maxRetries - 1)]. *)
Theorem fetchWithRetry_waits_bounded (R : Type) (fetch : nat -> Attempt R)
    (maxRetries : nat) (baseDelay : Z) :
  (0 <= baseDelay)%Z ->
  let waits := snd (fetchWithRetry fetch maxRetries baseDelay) in
  (total waits <= baseDelay * (2 ^ Z.of_nat maxRetries - 1))%Z /\
  (maxRetries = DEFAULT_MAX_RETRIES -> baseDelay = DEFAULT_BASE_DELAY ->
   List.length waits <= 3 /\ (total waits <= 14000)%Z).
Proof.
  intros Hb waits.
  subst waits. unfold fetchWithRetry.
  destruct (@fetchLoop_spec R fetch maxRetries baseDelay (S maxRetries) 0 eq_refl)
    as (H1 & H2 & _); [lia|].
  cbn [Nat.add] in *.
  set (waits := snd (fetchLoop fetch maxRetries baseDelay (S maxRetries) 0)) in *.
  assert (H3 : total waits = (baseDelay * (2 ^ Z.of_nat (List.length waits) - 1))%Z).
  { rewrite H2 at 1. rewrite total_doubling. cbn [Z.of_nat]. ring. }
  assert (Hle : (total waits <= baseDelay * (2 ^ Z.of_nat maxRetries - 1))%Z).
  { rewrite H3. apply Z.mul_le_mono_nonneg_l; [exact Hb|].
    apply Z.sub_le_mono_r. apply Z.pow_le_mono_r; lia. }
  split; [exact Hle|]. intros -> ->. split; [exact H1|exact Hle].
Qed.

Lemma fetchWithRetry_waits_bounded_witness :
  fetchWithRetry twoFailures DEFAULT_MAX_RETRIES DEFAULT_BASE_DELAY
  = (Returned 2, [2000; 4000]%Z) /\
  (total (snd (fetchWithRetry twoFailures DEFAULT_MAX_RETRIES DEFAULT_BASE_DELAY))
   <= 14000)%Z.
Proof.
  split; [reflexivity|].
  destruct (@fetchWithRetry_waits_bounded nat twoFailures DEFAULT_MAX_RETRIES
              DEFAULT_BASE_DELAY) as (_ & H); [unfold DEFAULT_BASE_DELAY; lia|].
  destruct (H eq_refl eq_refl) as (_ & H2). exact H2.
Defined.

(* ------------------------------------------------------------------ *)
(** ** The image that is sent *)









(** X23. With a target box inside the unit square (its width ratio
    between 0 and 1, its top and height not negative and together at most
    1) the crop lies inside the source and is centred from left to right.
    The box the page starts with is such a box. *)
Theorem crop_inside_source (box : TargetBox) (sourceW sourceH : Z) :
  (0 <= sourceW)%Z -> (0 <= sourceH)%Z ->
  (0 <= TARGET_BOX_RATIO box <= 1)%Q ->
  (0 <= TARGET_BOX_TOP box)%Q -> (0 <= TARGET_BOX_HEIGHT box)%Q ->
  (TARGET_BOX_TOP box + TARGET_BOX_HEIGHT box <= 1)%Q ->
  let r := cropRect box sourceW sourceH in
  (0 <= srcX r)%Q /\ (0 <= srcW r)%Q /\
  (srcX r + srcW r <= inject_Z sourceW)%Q /\
  (inject_Z sourceW - (srcX r + srcW r) == srcX r)%Q /\
  (0 <= srcY r)%Q /\ (0 <= srcH r)%Q /\
  (srcY r + srcH r <= inject_Z sourceH)%Q.
Proof.
  intros HW HH (Hr0 & Hr1) Ht Hh Hth r. subst r. unfold cropRect.
  cbn [srcX srcY srcW srcH].
  set (W := inject_Z sourceW). set (H := inject_Z sourceH).
  assert (HW' : (0 <= W)%Q)
    by (subst W; change 0%Q with (inject_Z 0); now rewrite <- Zle_Qle).
  assert (HH' : (0 <= H)%Q)
    by (subst H; change 0%Q with (inject_Z 0); now rewrite <- Zle_Qle).
  set (a := TARGET_BOX_RATIO box) in *. set (t := TARGET_BOX_TOP box) in *.
  set (h := TARGET_BOX_HEIGHT box) in *.
  assert (P1 : (0 <= W * (1 - a))%Q) by (apply Qmult_le_0_compat; lra).
  assert (P2 : (0 <= W * a)%Q) by (apply Qmult_le_0_compat; lra).
  assert (P3 : (0 <= H * t)%Q) by (apply Qmult_le_0_compat; lra).
  assert (P4 : (0 <= H * h)%Q) by (apply Qmult_le_0_compat; lra).
  assert (P5 : (0 <= H * (1 - (t + h)))%Q) by (apply Qmult_le_0_compat; lra).
  assert (E1 : (W * (1 - a) == W - W * a)%Q) by ring.
  assert (E5 : (H * (1 - (t + h)) == H - (H * t + H * h))%Q) by ring.
  assert (E6 : (W * (1 - a) / 2 == (W - W * a) * (1 # 2))%Q) by (field).
  repeat split; try lra.
Qed.

Lemma crop_inside_source_witness :
  (srcX (cropRect defaultBox 1280 720) + srcW (cropRect defaultBox 1280 720)
   <= 1280)%Q /\
  (srcW (cropRect defaultBox 1280 720) == 12544 # 10)%Q.
Proof.
  destruct (@crop_inside_source defaultBox 1280%Z 720%Z)
    as (_ & _ & H & _); try lia; try (cbn; split; lra); try (cbn; lra).
  split; [exact H|]. vm_compute. reflexivity.
Defined.

(* ------------------------------------------------------------------ *)
(** ** Settings kept across a reload *)

Lemma parseDigits_uint d : forall acc,
  parseDigits (NilEmpty.string_of_uint d) acc = Nat.of_uint_acc d acc.
Proof.
  induction d as [|d IH|d IH|d IH|d IH|d IH|d IH|d IH|d IH|d IH|d IH];
    intros acc; cbn [NilEmpty.string_of_uint parseDigits Nat.of_uint_acc];
    [reflexivity|..];
    (change (isDigit _) with true; cbn iota;
     rewrite IH; f_equal; rewrite Nat.tail_mul_spec; cbn; lia).
Qed.

Lemma to_uint_not_nil n : Nat.to_uint n <> Decimal.Nil.
Proof.
  intros E. pose proof (DecimalNat.Unsigned.of_to n) as H. rewrite E in H.
  cbn in H. subst n. discriminate E.
Qed.

Lemma parseInt_decimal n :
  parseInt (decimal n) = Some (Z.of_nat n) /\ nonEmpty (decimal n) = true.
Proof.
  unfold decimal. pose proof (to_uint_not_nil n) as Hn.
  pose proof (DecimalNat.Unsigned.of_to n) as Hof. unfold Nat.of_uint in Hof.
  pose proof (parseDigits_uint (Nat.to_uint n) 0) as Hp.
  destruct (Nat.to_uint n) as [|d|d|d|d|d|d|d|d|d|d]; [contradiction|..];
    (split; [|reflexivity]); unfold parseInt;
    cbn [NilEmpty.string_of_uint skipSpaces] in *;
    change (isSpace _) with false; cbn iota;
    change (Ascii.eqb _ "-") with false; change (Ascii.eqb _ "+") with false;
    cbn iota; change (isDigit _) with true; cbn iota;
    rewrite Hp, Hof; reflexivity.
Qed.

Lemma onSliderInput_count val w : DUPLICATE_SKIP_COUNT (onSliderInput val w) = val.
Proof.
  unfold onSliderInput, setDuplicateSkipCount, resetDuplicateState.
  break_if; [|reflexivity].
  destruct (transitionTo_cases SCANNING (set_DUPLICATE_SKIP_COUNT val w))
    as [->|(b & ->)]; reflexivity.
Qed.

(** X24. The scan mode survives a reload: after [toggleScanMode] a page
    that is loaded again starts in the mode the toggle left.  A page that
    finds nothing stored starts in one-shot mode, and so does one that finds
    anything but ["0"]. *)
Theorem scan_mode_survives_reload (w : World) (s : Storage) :
  isSingleShot (fst (Stored.reload (snd (Stored.toggleScanMode (w, s)))))
  = isSingleShot (fst (Stored.toggleScanMode (w, s))) /\
  isSingleShot (fst (Stored.toggleScanMode (w, s))) = negb (isSingleShot w) /\
  (forall saved, getItem "isSingleShot" s = saved ->
     isSingleShot (fst (Stored.reload s))
     = match saved with
       | Some v => negb (String.eqb v "0")
       | None => true
       end).
Proof.
  assert (Hr : forall s0, isSingleShot (fst (Stored.reload s0))
                 = match getItem "isSingleShot" s0 with
                   | Some v => negb (String.eqb v "0")
                   | None => true
                   end).
  { intros s0. unfold Stored.reload, Stored.restoreDuplicateSkipCount.
    assert (E : forall x : World * Storage,
              snd x = s0 -> isSingleShot (fst x) = true ->
              isSingleShot (fst (Stored.restoreScanMode x))
              = match getItem "isSingleShot" s0 with
                | Some v => negb (String.eqb v "0")
                | None => true
                end).
    { intros [x sx] Hs Hx. cbn in Hs, Hx. subst sx. unfold Stored.restoreScanMode.
      destruct (getItem "isSingleShot" s0); [reflexivity|exact Hx]. }
    apply E;
      repeat match goal with
             | |- context [match ?x with _ => _ end] => destruct x
             end; reflexivity. }
  split; [|split].
  - rewrite Hr. unfold Stored.toggleScanMode, getItem, setItem. cbn.
    destruct (isSingleShot w); reflexivity.
  - reflexivity.
  - intros saved <-. apply Hr.
Qed.

(** X25. The setting of the duplicate-skip slider survives a reload when
    it is one of 1 to 5: the page that is loaded again uses it.  Any other
    number is used until the reload and is then replaced by the default 2,
    as is a stored text that is no number. *)
Theorem skip_count_survives_reload (val : nat) (w : World) (s : Storage) :
  DUPLICATE_SKIP_COUNT (fst (Stored.onSliderInput val (w, s))) = val /\
  DUPLICATE_SKIP_COUNT (fst (Stored.reload (snd (Stored.onSliderInput val (w, s)))))
  = (if (1 <=? val) && (val <=? 5) then val else 2) /\
  (forall saved, getItem "duplicateSkipCount" s = Some saved ->
     parseInt saved = None ->
     DUPLICATE_SKIP_COUNT (fst (Stored.reload s)) = 2).
Proof.
  assert (Hscan : forall x, DUPLICATE_SKIP_COUNT (fst (Stored.restoreScanMode x))
                            = DUPLICATE_SKIP_COUNT (fst x)).
  { intros [x sx]. unfold Stored.restoreScanMode.
    destruct (getItem "isSingleShot" sx); reflexivity. }
  split; [apply onSliderInput_count|]. split.
  - unfold Stored.reload. rewrite Hscan.
    unfold Stored.onSliderInput, Stored.restoreDuplicateSkipCount.
    cbn [snd]. unfold getItem, setItem. cbn [String.eqb Ascii.eqb Bool.eqb].
    rewrite ?String.eqb_refl.
    destruct (parseInt_decimal val) as (-> & ->).
    destruct (Nat.leb_spec 1 val), (Nat.leb_spec val 5);
      destruct (Z.leb_spec 1 (Z.of_nat val)), (Z.leb_spec (Z.of_nat val) 5);
      try lia; cbn [andb fst]; try reflexivity.
    unfold setDuplicateSkipCount. cbn. apply Nat2Z.id.
  - intros saved Hs Hp. unfold Stored.reload. rewrite Hscan.
    unfold Stored.restoreDuplicateSkipCount. rewrite Hs, Hp.
    destruct (nonEmpty saved); reflexivity.
Qed.

Lemma skip_count_survives_reload_witness :
  DUPLICATE_SKIP_COUNT
    (fst (Stored.reload (snd (Stored.onSliderInput 4 (initial, emptyStorage))))) = 4 /\
  DUPLICATE_SKIP_COUNT
    (fst (Stored.reload (snd (Stored.onSliderInput 7 (initial, emptyStorage))))) = 2 /\
  DUPLICATE_SKIP_COUNT
    (fst (Stored.reload (setItem "duplicateSkipCount" "many" emptyStorage))) = 2.
Proof.
  destruct (skip_count_survives_reload 4 initial emptyStorage) as (_ & H1 & _).
  destruct (skip_count_survives_reload 7 initial emptyStorage) as (_ & H2 & _).
  destruct (skip_count_survives_reload 0 initial
              (setItem "duplicateSkipCount" "many" emptyStorage)) as (_ & _ & H3).
  split; [exact H1|]. split; [exact H2|].
  apply (H3 "many"%string); reflexivity.
Defined.

Lemma scan_mode_survives_reload_witness :
  isSingleShot (fst (Stored.reload (snd (Stored.toggleScanMode (initial, emptyStorage)))))
  = false /\
  isSingleShot (fst (Stored.reload emptyStorage)) = true.
Proof.
  destruct (scan_mode_survives_reload initial emptyStorage) as (H1 & H2 & H3).
  split; [rewrite H1, H2; reflexivity|].
  apply (H3 None). reflexivity.
Defined.

(* ------------------------------------------------------------------ *)
(** ** A change of mode and the scene already sent *)

Lemma setMode_frame mode w :
  lastSentImageHash (setMode mode w) = lastSentImageHash w /\
  isSingleShot (setMode mode w) = isSingleShot w /\
  inFlight (setMode mode w) = inFlight w /\
  currentMode (setMode mode w) = mode /\
  duplicateCount (setMode mode w) = 0 /\
  lastResultFingerprint (setMode mode w) = None.
Proof.
  unfold setMode. break_if; cbn;
    rewrite ?transitionTo_lastSentImageHash, ?transitionTo_isSingleShot,
      ?transitionTo_inFlight; repeat split.
  destruct (transitionTo_cases SCANNING (set_currentMode mode w))
    as [->|(b & ->)]; reflexivity.
Qed.

(** X26. [setMode] ends a duplicate pause ([PAUSED_DUPLICATE] becomes
    [SCANNING]; any other state stays) and clears the duplicate bookkeeping,
    but it keeps the last-sent hash: in a continuous camera scan the next
    capture of a scene that has not changed since the last request is
    skipped in the new mode too, and no request is sent for it. *)
Theorem mode_change_keeps_visual_gate (mode : string) (env : Env) (w : World) :
  (scanState w = PAUSED_DUPLICATE -> scanState (setMode mode w) = SCANNING) /\
  (scanState w <> PAUSED_DUPLICATE -> scanState (setMode mode w) = scanState w) /\
  currentMode (setMode mode w) = mode /\
  duplicateCount (setMode mode w) = 0 /\
  lastResultFingerprint (setMode mode w) = None /\
  lastSentImageHash (setMode mode w) = lastSentImageHash w /\
  (sourceReady env -> getCurrentSource env = SrcCamera ->
   isSingleShot w = false ->
   scanState w = SCANNING \/ scanState w = PAUSED_DUPLICATE ->
   sameAsLastSent (computeImageHash (hashPixels env)) w = true ->
   scanState (captureAndAnalyze env (setMode mode w)) = SCANNING /\
   inFlight (captureAndAnalyze env (setMode mode w)) = inFlight w).
Proof.
  destruct (setMode_frame mode w) as (F1 & F2 & F3 & F4 & F5 & F6).
  assert (S1 : scanState w = PAUSED_DUPLICATE -> scanState (setMode mode w) = SCANNING).
  { intros Hs. unfold setMode. cbn [scanState set_currentMode]. rewrite Hs.
    cbn [ScanState_eqb]. cbn. apply transitionTo_SCANNING. }
  assert (S2 : scanState w <> PAUSED_DUPLICATE ->
               scanState (setMode mode w) = scanState w).
  { intros Hs. unfold setMode. cbn [scanState set_currentMode].
    apply ScanState_eqb_neq in Hs. rewrite Hs. reflexivity. }
  split; [exact S1|]. split; [exact S2|]. split; [exact F4|].
  split; [exact F5|]. split; [exact F6|]. split; [exact F1|].
  intros Hr Hsrc Hsingle Hst Hsame.
  assert (Hs' : scanState (setMode mode w) = SCANNING).
  { destruct Hst as [Hst|Hst]; [rewrite S2, Hst; [reflexivity|]|now apply S1].
    rewrite Hst. discriminate. }
  assert (Hsame' : sameAsLastSent (computeImageHash (hashPixels env))
                     (setMode mode w) = true)
    by (unfold sameAsLastSent in *; now rewrite F1).
  assert (Hna : scanState (setMode mode w) <> ANALYZING)
    by (rewrite Hs'; discriminate).
  assert (Hsing' : isSingleShot (setMode mode w) = false) by congruence.
  rewrite (capture_skip_continuous (setMode mode w) Hr Hna Hsame' Hsing' Hsrc).
  split.
  - cbn. apply transitionTo_SCANNING.
  - cbn. now rewrite !transitionTo_inFlight.
Qed.

Lemma mode_change_keeps_visual_gate_witness :
  reachableByClicks stillScene /\
  scanState (captureAndAnalyze cameraEnv (setMode "object" stillScene)) = SCANNING /\
  inFlight (captureAndAnalyze cameraEnv (setMode "object" stillScene)) = [].
Proof.
  destruct (mode_change_keeps_visual_gate "object" cameraEnv stillScene)
    as (_ & _ & _ & _ & _ & _ & H).
  destruct H as (H1 & H2).
  - unfold sourceReady. cbn. lia.
  - reflexivity.
  - vm_compute. reflexivity.
  - left. vm_compute. reflexivity.
  - vm_compute. reflexivity.
  - split; [exact clicks_stillScene|]. split; [exact H1|].
    rewrite H2. vm_compute. reflexivity.
Defined.

(* ------------------------------------------------------------------ *)
(** ** A skipped capture and the loop *)

(** X27. When the loop of a continuous camera scan starts a capture and
    the capture is skipped as unchanged, two animation frames are requested
    for [scanLoop]: one by [captureAndAnalyze] as it goes back to
    [SCANNING], one by the loop itself after the capture has returned.
    Both callbacks are pending; [scanRafId] holds the handle of the second
    one only. *)
Theorem skipped_capture_doubles_loop (env : Env) (f prev : list Z) (w : World) :
  scanState w = SCANNING ->
  lastFrameData w = Some prev ->
  (avgDiff f prev < inject_Z MOTION_THRESHOLD)%Q ->
  STABILITY_THRESHOLD <= S (stabilityCounter w) ->
  sourceReady env -> getCurrentSource env = SrcCamera ->
  isSingleShot w = false ->
  sameAsLastSent (computeImageHash (hashPixels env)) w = true ->
  let h1 := nextHandle w in
  let h2 := Pos.succ (Pos.succ (nextHandle w)) in
  snd (scanLoop env (Some f) w) = true /\
  scanState (fst (scanLoop env (Some f) w)) = SCANNING /\
  inFlight (fst (scanLoop env (Some f) w)) = inFlight w /\
  In (h1, CbScanLoop) (pendingCallbacks (fst (scanLoop env (Some f) w))) /\
  In (h2, CbScanLoop) (pendingCallbacks (fst (scanLoop env (Some f) w))) /\
  h1 <> h2 /\
  scanRafId (fst (scanLoop env (Some f) w)) = Some h2.
Proof.
  intros Hs Hl Hq Hc Hr Hsrc Hsingle Hsame h1 h2. subst h1 h2.
  unfold scanLoop. rewrite Hs. cbn [ScanState_eqb negb andb].
  cbn [scanState set_scanFrameCount]. rewrite Hs. cbn [ScanState_eqb andb].
  unfold checkStabilityAndCapture. cbn [lastFrameData set_scanFrameCount].
  rewrite Hl. apply Qltb_true in Hq. rewrite Hq.
  cbn [stabilityCounter set_stabilityCounter set_lastStabilityState
       set_scanFrameCount scanState].
  apply Nat.leb_le in Hc. rewrite Hc. rewrite Hs. cbn [ScanState_eqb].
  match goal with |- context [captureAndAnalyze env ?x] => set (w0 := x) end.
  assert (E : captureAndAnalyze env w0
              = requestScanLoop (set_lastFrameData None (set_stabilityCounter 0
                  (snd (transitionTo SCANNING (snd (transitionTo ANALYZING w0))))))).
  { assert (Hna : scanState w0 <> ANALYZING)
      by (subst w0; cbn; rewrite Hs; discriminate).
    exact (capture_skip_continuous w0 Hr Hna Hsame Hsingle Hsrc). }
  rewrite E. clear E.
  assert (T : snd (transitionTo SCANNING (snd (transitionTo ANALYZING w0)))
              = set_btnScanDisabled false (set_scanState SCANNING
                  (set_btnScanDisabled true (set_scanState ANALYZING w0)))).
  { unfold transitionTo. subst w0. cbn [scanState set_lastStabilityState
      set_stabilityCounter set_scanFrameCount]. rewrite Hs. reflexivity. }
  rewrite T. subst w0. cbn -[In].
  repeat split.
  - rewrite !in_app_iff. cbn. tauto.
  - rewrite !in_app_iff. cbn. tauto.
  - intros E. pose proof (Pos.lt_succ_diag_r (nextHandle w)).
    pose proof (Pos.lt_succ_diag_r (Pos.succ (nextHandle w))). lia.
Qed.

Lemma skipped_capture_doubles_loop_witness :
  fst (scanLoop cameraEnv (Some blackFrame) beforeSkippedCapture)
  = animate cameraEnv 20 blackFrame stillScene /\
  reachableByClicks (animate cameraEnv 20 blackFrame stillScene) /\
  List.length (pendingLoops (animate cameraEnv 19 blackFrame stillScene)) = 1 /\
  List.length (pendingLoops (animate cameraEnv 20 blackFrame stillScene)) = 2 /\
  In (nextHandle beforeSkippedCapture, CbScanLoop)
     (pendingCallbacks (fst (scanLoop cameraEnv (Some blackFrame) beforeSkippedCapture))) /\
  scanRafId (fst (scanLoop cameraEnv (Some blackFrame) beforeSkippedCapture))
  = Some (Pos.succ (Pos.succ (nextHandle beforeSkippedCapture))).
Proof.
  assert (Hs : scanState beforeSkippedCapture = SCANNING) by (vm_compute; reflexivity).
  assert (Hl : lastFrameData beforeSkippedCapture = Some blackFrame)
    by (vm_compute; reflexivity).
  assert (Hq : (avgDiff blackFrame blackFrame < inject_Z MOTION_THRESHOLD)%Q)
    by (vm_compute; reflexivity).
  assert (Hc : STABILITY_THRESHOLD <= S (stabilityCounter beforeSkippedCapture))
    by (apply Nat.leb_le; vm_compute; reflexivity).
  assert (Hr : sourceReady cameraEnv) by (vm_compute; discriminate).
  assert (Hsingle : isSingleShot beforeSkippedCapture = false)
    by (vm_compute; reflexivity).
  assert (Hsame : sameAsLastSent (computeImageHash (hashPixels cameraEnv))
                    beforeSkippedCapture = true) by (vm_compute; reflexivity).
  destruct (@skipped_capture_doubles_loop cameraEnv blackFrame blackFrame
              beforeSkippedCapture Hs Hl Hq Hc Hr eq_refl Hsingle Hsame)
    as (_ & _ & _ & H1 & _ & _ & H2).
  split; [vm_compute; reflexivity|].
  split; [apply clicks_animate, clicks_stillScene|].
  split; [vm_compute; reflexivity|]. split; [vm_compute; reflexivity|].
  split; [exact H1|exact H2].
Defined.

(* ------------------------------------------------------------------ *)
(** ** The stability counter never passes the threshold *)









